(** * A-Lister: the list store, the user registry and the tool handlers

    A shallow embedding of [src/db.ts] (the Postgres queries), of the schema
    of [db/schema.sql] that those queries run against, of the tool
    handlers of [src/server.ts], and of the request authentication of
    [src/auth.ts].

    - A table is the list of its rows in insertion order.  A [select] is a
      function of the tables; [order by created_at desc] is a stable sort
      (rows with equal timestamps keep their table order, where Postgres
      leaves the order open).
    - An [insert] or [update] is checked against the primary keys, the
      [unique] columns and the foreign keys of the schema and is rejected
      with a database error when it violates one.
    - The handlers run in a state-and-exception monad over a [world]: the
      database, the list of write statements sent to it, the per-connection
      [viewerCache], and counters into an [oracle] that supplies what the
      program takes from outside ([uuidv4()], [Math.random()], and the
      database clock [now()]).
    - Strings are byte strings; [toLowerCase] and SQL [lower] act on the
      ASCII letters.
    - [execute] checks the constraints of the schema.  The database also
      refuses a text parameter that holds the byte 0: a statement about a
      write of the caller's text either assumes the call returned or assumes
      the text holds none.
    - A handler call runs to its end before another starts; the calls of one
      batch, which take turns at every [await], are not modelled.
    - Token verification ([jwtVerify] against the remote key set) is a
      parameter of [getAuthContext]; the process environment and the request
      headers it reads are records. *)

From Stdlib Require Import String Ascii List ZArith QArith Qround Bool Lia.
From Stdlib Require Import Permutation Sorted DecimalString.
Import ListNotations.

Local Open Scope string_scope.
Local Open Scope Z_scope.

(** ** Rows of the four relations *)

(** [status: "active" | "done"] *)
Inductive item_status : Type := active | done.

Definition item_status_eqb (a b : item_status) : bool :=
  match a, b with
  | active, active | done, done => true
  | _, _ => false
  end.

(** A row of [users]; [select *] returns all of it, so this is also the
    runtime shape of a [DbUser] ([None] is SQL [NULL] / JS [null]). *)
Record DbUser : Type := mkUser {
  u_id : string;
  u_auth_provider_id : string;
  u_handle : string;
  u_display_name : option string;
  u_bio : option string;
  u_avatar_url : option string;
  u_created_at : Z
}.

Record list_row : Type := mkList {
  l_id : string;
  l_owner_id : string;
  l_title : string;
  l_type : string;
  l_visibility : string;
  l_created_at : Z;
  l_updated_at : Z
}.

Record item_row : Type := mkItem {
  i_id : string;
  i_list_id : string;
  i_title : string;
  i_note : option string;
  i_url : option string;
  i_status : item_status;
  i_order_index : Z;
  i_created_at : Z;
  i_updated_at : Z
}.

Record bookmark_row : Type := mkBookmark {
  b_id : string;
  b_user_id : string;
  b_source_item_id : string;
  b_source_list_id : string;
  b_source_user_id : string;
  b_created_item_id : string;
  b_created_at : Z
}.

Record database : Type := mkDb {
  users : list DbUser;
  lists : list list_row;
  items : list item_row;
  bookmarks : list bookmark_row
}.

(** ** Result shapes of the queries *)

Record ListSummary : Type := mkSummary {
  ls_id : string;
  ls_owner_id : string;
  ls_title : string;
  ls_type : string;
  ls_visibility : string;
  ls_active_count : Z;
  ls_done_count : Z;
  ls_owner_handle : string;
  ls_owner_display_name : option string
}.

Record ItemRow : Type := mkItemRow {
  ir_id : string;
  ir_list_id : string;
  ir_title : string;
  ir_note : option string;
  ir_url : option string;
  ir_status : item_status;
  ir_order_index : Z;
  ir_created_at : Z
}.

(** The row type of [getListById]. *)
Record ListRecord : Type := mkListRecord {
  lr_id : string;
  lr_owner_id : string;
  lr_title : string;
  lr_type : string;
  lr_visibility : string
}.

(** The row type of [findSourceItem]. *)
Record SourceItem : Type := mkSource {
  s_id : string;
  s_title : string;
  s_note : option string;
  s_url : option string;
  s_list_id : string;
  s_list_title : string;
  s_list_type : string;
  s_owner_id : string;
  s_owner_handle : string
}.

(** ** Strings *)

Definition option_string_eqb (a b : option string) : bool :=
  match a, b with
  | Some x, Some y => String.eqb x y
  | None, None => true
  | _, _ => false
  end.

Definition lower_ascii (c : ascii) : ascii :=
  let n := nat_of_ascii c in
  if (Nat.leb 65 n && Nat.leb n 90)%bool then ascii_of_nat (n + 32) else c.

(** [String.prototype.toLowerCase] and SQL [lower()]. *)
Fixpoint toLowerCase (s : string) : string :=
  match s with
  | EmptyString => EmptyString
  | String c s' => String (lower_ascii c) (toLowerCase s')
  end.

(** SQL [text like pattern] with the default escape character: [%] matches
    any run of characters, [_] any single one, a backslash makes the next
    pattern character literal.  (Postgres raises an error for a pattern that
    ends in a lone backslash; no pattern built by [searchUsersByQuery] does,
    they all end in [%].  Such a pattern matches nothing here.) *)
Fixpoint like (pattern text : string) : bool :=
  match pattern with
  | EmptyString => match text with EmptyString => true | _ => false end
  | String "%" p =>
      (fix any (t : string) : bool :=
         like p t ||
         match t with
         | EmptyString => false
         | String _ t' => any t'
         end) text
  | String "_" p =>
      match text with
      | EmptyString => false
      | String _ t' => like p t'
      end
  | String "\" EmptyString => false
  | String "\" (String c p) =>
      match text with
      | EmptyString => false
      | String d t' => Ascii.eqb c d && like p t'
      end
  | String c p =>
      match text with
      | EmptyString => false
      | String d t' => Ascii.eqb c d && like p t'
      end
  end.

(** [haystack] contains [needle] as a contiguous substring. *)
Fixpoint contains (needle haystack : string) : bool :=
  String.prefix needle haystack ||
  match haystack with
  | EmptyString => false
  | String _ h' => contains needle h'
  end.

(** [Number.prototype.toString] on an integer value, as a template literal
    [`${n}`] prints it. *)
Definition Number_toString (n : Z) : string :=
  NilZero.string_of_int (Z.to_int n).

(** ** [order by ... desc] and [limit] *)

Section OrderBy.
Context {A : Type} (key : A -> Z).

(** [x] goes in front of the first row that is not newer than it. *)
Fixpoint insert_desc (x : A) (l : list A) : list A :=
  match l with
  | [] => [x]
  | y :: l' => if key y <=? key x then x :: l else y :: insert_desc x l'
  end.

Definition order_by_desc (l : list A) : list A :=
  fold_right insert_desc [] l.
End OrderBy.

Definition limit {A : Type} (n : nat) (l : list A) : list A := firstn n l.

(** [rows[0] ?? null] *)
Definition first_row {A : Type} (rows : list A) : option A := hd_error rows.

(** ** The queries of [db.ts], as functions of the tables *)

Definition has_user_id (id : string) (d : database) : bool :=
  existsb (fun u => u_id u =? id)%string (users d).

Definition has_list_id (id : string) (d : database) : bool :=
  existsb (fun l => l_id l =? id)%string (lists d).

(** [select * from users where auth_provider_id = $1] *)
Definition select_users_by_auth (a : string) (d : database) : list DbUser :=
  filter (fun u => u_auth_provider_id u =? a)%string (users d).

(** [select * from users where id = $1] *)
Definition select_users_by_id (id : string) (d : database) : list DbUser :=
  filter (fun u => u_id u =? id)%string (users d).

(** [select auth_provider_id from users where handle = $1] *)
Definition select_auth_by_handle (h : string) (d : database) : list string :=
  map u_auth_provider_id (filter (fun u => u_handle u =? h)%string (users d)).

(** [lower(handle) like $1 or lower(display_name) like $1]; a [NULL]
    display name makes the second disjunct [NULL], which selects nothing. *)
Definition user_matches (q : string) (u : DbUser) : bool :=
  like q (toLowerCase (u_handle u)) ||
  match u_display_name u with
  | Some n => like q (toLowerCase n)
  | None => false
  end.

(** [select * from users where ... order by created_at desc limit 20] *)
Definition select_users_like (q : string) (d : database) : list DbUser :=
  limit 20 (order_by_desc u_created_at (filter (user_matches q) (users d))).

(** [sum(case when i.status = st then 1 else 0 end)] over the items joined
    to list [list_id] (0 when the left join finds none). *)
Definition count_status (st : item_status) (list_id : string)
  (its : list item_row) : Z :=
  Z.of_nat (length (filter
    (fun i => (i_list_id i =? list_id)%string && item_status_eqb (i_status i) st)
    its)).

(** [from lists l join users u on u.id = l.owner_id where <p l>] *)
Definition lists_join_users (p : list_row -> bool) (d : database)
  : list (list_row * DbUser) :=
  flat_map
    (fun l => map (pair l) (filter (fun u => u_id u =? l_owner_id l)%string (users d)))
    (filter p (lists d)).

(** One output row of the grouped summary query.  The primary keys make
    every joined (list, owner) pair a group of its own. *)
Definition summary_row (d : database) (lu : list_row * DbUser) : ListSummary :=
  let (l, u) := lu in
  {| ls_id := l_id l;
     ls_owner_id := l_owner_id l;
     ls_title := l_title l;
     ls_type := l_type l;
     ls_visibility := l_visibility l;
     ls_active_count := count_status active (l_id l) (items d);
     ls_done_count := count_status done (l_id l) (items d);
     ls_owner_handle := u_handle u;
     ls_owner_display_name := u_display_name u |}.

(** The query of [getListsByOwner]: [... where l.owner_id = $1 group by ...
    order by l.created_at desc]. *)
Definition select_summaries_by_owner (owner : string) (d : database)
  : list ListSummary :=
  map (summary_row d)
    (order_by_desc (fun lu => l_created_at (fst lu))
       (lists_join_users (fun l => l_owner_id l =? owner)%string d)).

(** The query of [getListSummaryById]: [... where l.id = $1 group by ...]. *)
Definition select_summary_by_id (id : string) (d : database) : list ListSummary :=
  map (summary_row d) (lists_join_users (fun l => l_id l =? id)%string d).

(** [select id, owner_id, title, type, visibility from lists where id = $1] *)
Definition select_list_by_id (id : string) (d : database) : list ListRecord :=
  map (fun l => {| lr_id := l_id l; lr_owner_id := l_owner_id l;
                   lr_title := l_title l; lr_type := l_type l;
                   lr_visibility := l_visibility l |})
    (filter (fun l => l_id l =? id)%string (lists d)).

Definition item_columns (i : item_row) : ItemRow :=
  {| ir_id := i_id i; ir_list_id := i_list_id i; ir_title := i_title i;
     ir_note := i_note i; ir_url := i_url i; ir_status := i_status i;
     ir_order_index := i_order_index i; ir_created_at := i_created_at i |}.

(** [select id, list_id, title, note, url, status, order_index, created_at
    from items where list_id = $1 and status = $2 order by created_at desc] *)
Definition select_items_by_list (list_id : string) (st : item_status)
  (d : database) : list ItemRow :=
  order_by_desc ir_created_at
    (map item_columns
       (filter (fun i => (i_list_id i =? list_id)%string
                         && item_status_eqb (i_status i) st) (items d))).

(** The three-way join of [findSourceItem], [where i.id = $1]. *)
Definition select_source_item (id : string) (d : database) : list SourceItem :=
  flat_map (fun i =>
    flat_map (fun l =>
      map (fun u =>
             {| s_id := i_id i; s_title := i_title i; s_note := i_note i;
                s_url := i_url i; s_list_id := i_list_id i;
                s_list_title := l_title l; s_list_type := l_type l;
                s_owner_id := l_owner_id l; s_owner_handle := u_handle u |})
          (filter (fun u => u_id u =? l_owner_id l)%string (users d)))
      (filter (fun l => l_id l =? i_list_id i)%string (lists d)))
    (filter (fun i => i_id i =? id)%string (items d)).

(** [select id from lists where owner_id = $1 and type = $2
    order by created_at desc limit 1] *)
Definition select_list_id_by_type (owner type : string) (d : database)
  : list string :=
  limit 1 (map l_id (order_by_desc l_created_at
    (filter (fun l => (l_owner_id l =? owner)%string && (l_type l =? type)%string)
       (lists d)))).

(** ** The write statements, and the schema they are checked against *)

(** One entry of the [updates] array of [ensureUser]. *)
Inductive user_assignment : Type :=
| SetDisplayName (v : option string)
| SetAvatarUrl (v : option string)
| SetHandle (v : string).

(** One entry of the [updates] array of [updateItem]. *)
Inductive item_assignment : Type :=
| SetTitle (v : string)
| SetNote (v : option string)
| SetUrl (v : option string).

(** The seven [insert]/[update] statements that [db.ts] sends, with their
    parameters. *)
Inductive statement : Type :=
| InsertUser (id auth_provider_id handle : string)
             (display_name avatar_url : option string)
| UpdateUser (sets : list user_assignment) (id : string)
| InsertList (id owner_id title type : string)
| InsertItem (id list_id title : string) (note url : option string)
| UpdateItem (sets : list item_assignment) (id list_id : string)
| UpdateItemStatus (status : item_status) (id list_id : string)
| InsertBookmark (id user_id source_item_id source_list_id source_user_id
                  created_item_id : string).

Inductive db_result : Type :=
| Accepted (d : database)
| Rejected (constraint : string).

Definition assign_user (u : DbUser) (a : user_assignment) : DbUser :=
  match a with
  | SetDisplayName v =>
      mkUser (u_id u) (u_auth_provider_id u) (u_handle u) v (u_bio u)
             (u_avatar_url u) (u_created_at u)
  | SetAvatarUrl v =>
      mkUser (u_id u) (u_auth_provider_id u) (u_handle u) (u_display_name u)
             (u_bio u) v (u_created_at u)
  | SetHandle v =>
      mkUser (u_id u) (u_auth_provider_id u) v (u_display_name u) (u_bio u)
             (u_avatar_url u) (u_created_at u)
  end.

Definition assign_item (i : item_row) (a : item_assignment) : item_row :=
  match a with
  | SetTitle v =>
      mkItem (i_id i) (i_list_id i) v (i_note i) (i_url i) (i_status i)
             (i_order_index i) (i_created_at i) (i_updated_at i)
  | SetNote v =>
      mkItem (i_id i) (i_list_id i) (i_title i) v (i_url i) (i_status i)
             (i_order_index i) (i_created_at i) (i_updated_at i)
  | SetUrl v =>
      mkItem (i_id i) (i_list_id i) (i_title i) (i_note i) v (i_status i)
             (i_order_index i) (i_created_at i) (i_updated_at i)
  end.

Definition touch_item (t : Z) (i : item_row) : item_row :=
  mkItem (i_id i) (i_list_id i) (i_title i) (i_note i) (i_url i) (i_status i)
         (i_order_index i) (i_created_at i) t.

Definition with_status (st : item_status) (i : item_row) : item_row :=
  mkItem (i_id i) (i_list_id i) (i_title i) (i_note i) (i_url i) st
         (i_order_index i) (i_created_at i) (i_updated_at i).

Definition with_users (us : list DbUser) (d : database) : database :=
  mkDb us (lists d) (items d) (bookmarks d).
Definition with_lists (ls : list list_row) (d : database) : database :=
  mkDb (users d) ls (items d) (bookmarks d).
Definition with_items (its : list item_row) (d : database) : database :=
  mkDb (users d) (lists d) its (bookmarks d).
Definition with_bookmarks (bs : list bookmark_row) (d : database) : database :=
  mkDb (users d) (lists d) (items d) bs.

(** [update users set <sets> where id = $n]: the rows it rewrites. *)
Definition update_users (sets : list user_assignment) (id : string)
  (us : list DbUser) : list DbUser :=
  map (fun u => if (u_id u =? id)%string then fold_left assign_user sets u else u) us.

(** [handle text unique]: a rewritten row may not take the handle of a row
    the statement leaves alone. *)
Definition update_users_clash (sets : list user_assignment) (id : string)
  (us : list DbUser) : bool :=
  existsb (fun t =>
    (u_id t =? id)%string &&
    existsb (fun r => negb (u_id r =? id)%string &&
                      (u_handle r =? u_handle (fold_left assign_user sets t))%string)
            us) us.

(** The effect of one statement at database time [t]: the new tables, or
    the constraint of [schema.sql] that rejects it. *)
Definition execute (t : Z) (s : statement) (d : database) : db_result :=
  match s with
  | InsertUser id auth h dn av =>
      if has_user_id id d then Rejected "users_pkey"
      else if existsb (fun u => u_auth_provider_id u =? auth)%string (users d)
      then Rejected "users_auth_provider_id_key"
      else if existsb (fun u => u_handle u =? h)%string (users d)
      then Rejected "users_handle_key"
      else Accepted (with_users (users d ++ [mkUser id auth h dn None av t]) d)
  | UpdateUser sets id =>
      if update_users_clash sets id (users d) then Rejected "users_handle_key"
      else Accepted (with_users (update_users sets id (users d)) d)
  | InsertList id owner title type =>
      if has_list_id id d then Rejected "lists_pkey"
      else if negb (has_user_id owner d) then Rejected "lists_owner_id_fkey"
      else Accepted (with_lists (lists d ++ [mkList id owner title type "public" t t]) d)
  | InsertItem id lid title note url =>
      if existsb (fun i => i_id i =? id)%string (items d) then Rejected "items_pkey"
      else if negb (has_list_id lid d) then Rejected "items_list_id_fkey"
      else Accepted (with_items (items d ++ [mkItem id lid title note url active 0 t t]) d)
  | UpdateItem sets id lid =>
      Accepted (with_items
        (map (fun i => if (i_id i =? id)%string && (i_list_id i =? lid)%string
                       then touch_item t (fold_left assign_item sets i) else i)
             (items d)) d)
  | UpdateItemStatus st id lid =>
      Accepted (with_items
        (map (fun i => if (i_id i =? id)%string && (i_list_id i =? lid)%string
                       then touch_item t (with_status st i) else i)
             (items d)) d)
  | InsertBookmark id uid sid slid suid cid =>
      if existsb (fun b => b_id b =? id)%string (bookmarks d) then Rejected "bookmarks_pkey"
      else if negb (has_user_id uid d) then Rejected "bookmarks_user_id_fkey"
      else Accepted (with_bookmarks (bookmarks d ++ [mkBookmark id uid sid slid suid cid t]) d)
  end.

(** ** The world the handlers run in *)

Inductive exn : Type :=
| Error (message : string)          (* [throw new Error(message)] *)
| TypeError (message : string)      (* a property read on [null] *)
| DatabaseError (constraint : string). (* [pool.query] rejected *)

Inductive outcome (A : Type) : Type :=
| Returned (a : A)
| Thrown (e : exn).
Arguments Returned {A} a.
Arguments Thrown {A} e.

(** What the program takes from outside: the n-th [uuidv4()], the n-th
    [Math.random()], the value of [now()] in the n-th write statement, and
    [process.env.DEV_TOOLS === "true"].  A [Math.random()] value is the
    rational it denotes, and the arithmetic on it is exact; the statements
    that depend on a draw assume it lies in [0, 1). *)
Record oracle : Type := mkOracle {
  uuidv4 : nat -> string;
  Math_random : nat -> Q;
  now : nat -> Z;
  DEV_TOOLS_ENABLED : bool
}.

Record world : Type := mkWorld {
  db : database;
  log : list statement;        (* the write statements sent so far *)
  uuids_drawn : nat;
  randoms_drawn : nat;
  viewerCache : option DbUser  (* [let viewerCache] of [createMcpServer] *)
}.

Definition M (A : Type) : Type := oracle -> world -> outcome A * world.

Definition ret {A : Type} (a : A) : M A := fun _ w => (Returned a, w).

Definition throw {A : Type} (e : exn) : M A := fun _ w => (Thrown e, w).

Definition bind {A B : Type} (m : M A) (k : A -> M B) : M B :=
  fun o w =>
    match m o w with
    | (Returned a, w') => k a o w'
    | (Thrown e, w') => (Thrown e, w')
    end.

Declare Scope M_scope.
Delimit Scope M_scope with M.
Notation "x <- m ;; k" := (bind m (fun x => k))
  (at level 100, m at next level, right associativity) : M_scope.
Notation "m ;;; k" := (bind m (fun _ => k))
  (at level 100, right associativity) : M_scope.
Local Open Scope M_scope.

(** [query] on a [select]. *)
Definition query_read {A : Type} (q : database -> A) : M A :=
  fun _ w => (Returned (q (db w)), w).

(** [query] on an [insert] or [update]: the statement is sent (and logged)
    and the database accepts or rejects it. *)
Definition query_write (s : statement) : M unit :=
  fun o w =>
    let sent := (log w ++ [s])%list in
    match execute (now o (length (log w))) s (db w) with
    | Accepted d =>
        (Returned tt, mkWorld d sent (uuids_drawn w) (randoms_drawn w) (viewerCache w))
    | Rejected c =>
        (Thrown (DatabaseError c),
         mkWorld (db w) sent (uuids_drawn w) (randoms_drawn w) (viewerCache w))
    end.

Definition uuidv4_call : M string :=
  fun o w =>
    (Returned (uuidv4 o (uuids_drawn w)),
     mkWorld (db w) (log w) (S (uuids_drawn w)) (randoms_drawn w) (viewerCache w)).

Definition Math_random_call : M Q :=
  fun o w =>
    (Returned (Math_random o (randoms_drawn w)),
     mkWorld (db w) (log w) (uuids_drawn w) (S (randoms_drawn w)) (viewerCache w)).

(** ** [db.ts] *)

Definition getUserByAuthProviderId (authProviderId : string) : M (option DbUser) :=
  query_read (fun d => first_row (select_users_by_auth authProviderId d)).

Definition getUserById (userId : string) : M (option DbUser) :=
  query_read (fun d => first_row (select_users_by_id userId d)).

(** [x ?? null] on an optional, nullable parameter. *)
Definition or_null {A : Type} (x : option (option A)) : option A :=
  match x with
  | Some v => v
  | None => None
  end.

(** The inner [resolveHandle(base)] of [ensureUser]. *)
Definition resolveHandle (authProviderId base : string) : M string :=
  existing <- query_read (select_auth_by_handle base) ;;
  match existing with
  | [] => ret base
  | a :: _ =>
      if (a =? authProviderId)%string then ret base
      else
        r <- Math_random_call ;;
        let suffix := Qfloor (r * 9000 + 1000) in
        ret (base ++ "_" ++ Number_toString suffix)
  end.

(** The [updates]/[values] arrays that [ensureUser] builds for an existing
    user.  An outer [None] is a parameter left [undefined]. *)
Definition ensureUser_updates (displayName avatarUrl : option (option string))
  (safeHandle : string) (existing : DbUser) : list user_assignment :=
  ((match displayName with
    | Some dn => if negb (option_string_eqb dn (u_display_name existing))
                 then [SetDisplayName dn] else []
    | None => []
    end) ++
   (match avatarUrl with
    | Some av => if negb (option_string_eqb av (u_avatar_url existing))
                 then [SetAvatarUrl av] else []
    | None => []
    end) ++
   (if negb (safeHandle =? u_handle existing)%string
    then [SetHandle safeHandle] else []))%list.

(** [ensureUser(params)]; the result is declared [DbUser] but is whatever
    the final lookup finds, [null] included. *)
Definition ensureUser (authProviderId handle : string)
  (displayName avatarUrl : option (option string)) : M (option DbUser) :=
  safeHandle <- resolveHandle authProviderId handle ;;
  existing <- getUserByAuthProviderId authProviderId ;;
  match existing with
  | Some existing =>
      let updates := ensureUser_updates displayName avatarUrl safeHandle existing in
      (match updates with
       | [] => ret tt
       | _ :: _ => query_write (UpdateUser updates (u_id existing))
       end) ;;;
      getUserByAuthProviderId authProviderId
  | None =>
      id <- uuidv4_call ;;
      query_write (InsertUser id authProviderId safeHandle
                     (or_null displayName) (or_null avatarUrl)) ;;;
      getUserById id
  end.

Definition searchUsersByQuery (queryText : string) : M (list DbUser) :=
  let q := "%" ++ toLowerCase queryText ++ "%" in
  query_read (select_users_like q).

Definition getListsByOwner (ownerId : string) : M (list ListSummary) :=
  query_read (select_summaries_by_owner ownerId).

Definition getListSummaryById (listId : string) : M (option ListSummary) :=
  query_read (fun d => first_row (select_summary_by_id listId d)).

Definition getListById (listId : string) : M (option ListRecord) :=
  query_read (fun d => first_row (select_list_by_id listId d)).

Definition createList (ownerId title type : string) : M string :=
  id <- uuidv4_call ;;
  query_write (InsertList id ownerId title type) ;;;
  ret id.

Definition addItem (listId title : string) (note url : option (option string))
  : M string :=
  id <- uuidv4_call ;;
  query_write (InsertItem id listId title (or_null note) (or_null url)) ;;;
  ret id.

(** The [updates]/[values] arrays of [updateItem]. *)
Definition updateItem_updates (title : option string)
  (note url : option (option string)) : list item_assignment :=
  ((match title with Some t => [SetTitle t] | None => [] end) ++
   (match note with Some n => [SetNote n] | None => [] end) ++
   (match url with Some u => [SetUrl u] | None => [] end))%list.

Definition updateItem (itemId listId : string) (title : option string)
  (note url : option (option string)) : M unit :=
  match updateItem_updates title note url with
  | [] => ret tt
  | updates => query_write (UpdateItem updates itemId listId)
  end.

Definition setItemStatus (itemId listId : string) (status : item_status) : M unit :=
  query_write (UpdateItemStatus status itemId listId).

Definition getItemsByList (listId : string) (status : item_status)
  : M (list ItemRow) :=
  query_read (select_items_by_list listId status).

Definition createBookmark (userId sourceItemId sourceListId sourceUserId
                           createdItemId : string) : M unit :=
  id <- uuidv4_call ;;
  query_write (InsertBookmark id userId sourceItemId sourceListId sourceUserId
                 createdItemId).

Definition findSourceItem (sourceItemId : string) : M (option SourceItem) :=
  query_read (fun d => first_row (select_source_item sourceItemId d)).

Definition getOrCreateListByType (ownerId type fallbackTitle : string) : M string :=
  rows <- query_read (select_list_id_by_type ownerId type) ;;
  match rows with
  | id :: _ => ret id
  | [] => createList ownerId fallbackTitle type
  end.

(** ** [server.ts] *)

Record AuthContext : Type := mkAuth {
  authProviderId : string;
  handle : string;
  displayName : option (option string);
  avatarUrl : option (option string)
}.

(** The [{ id, handle, displayName, avatarUrl }] objects of the views. *)
Record UserSummary : Type := mkUserSummary {
  us_id : string;
  us_handle : string;
  us_displayName : option string;
  us_avatarUrl : option string
}.

Record View : Type := mkView {
  v_viewer : UserSummary;
  v_devTools : bool;
  v_mode : string;
  v_lists : list ListSummary;
  v_selectedList : option ListSummary;
  v_itemsActive : list ItemRow;
  v_itemsDone : list ItemRow;
  v_profileUser : option UserSummary;
  v_profileLists : option (list ListSummary);
  v_searchResults : option (list UserSummary)
}.

(** The [effects] object of a payload. *)
Inductive Effects : Type :=
| lastCreatedListId (id : string)
| lastAddedItemId (id : string)
| lastMoved (lastMovedItemId : string) (lastMoveTo : item_status)
| lastBookmarkItemId (id : string).

Record Payload : Type := mkPayload {
  view : View;
  effects : option Effects
}.

(** [{ content: [{ type: "text", text }], structuredContent }] *)
Record CallToolResult : Type := mkResult {
  text : string;
  structuredContent : Payload
}.

Definition buildStructuredResponse (payload : Payload) (message : string)
  : CallToolResult :=
  {| text := message; structuredContent := payload |}.

Definition requireListOwner (listOwnerId viewerId : string) : M unit :=
  if negb (listOwnerId =? viewerId)%string
  then throw (Error "You can only modify your own lists.")
  else ret tt.

Definition user_summary (u : DbUser) : UserSummary :=
  {| us_id := u_id u; us_handle := u_handle u;
     us_displayName := u_display_name u; us_avatarUrl := u_avatar_url u |}.

Definition buildViewerSummary (viewerId : string) : M UserSummary :=
  viewer <- getUserById viewerId ;;
  match viewer with
  | None => throw (Error "Viewer not found.")
  | Some viewer => ret (user_summary viewer)
  end.

Definition read_DEV_TOOLS_ENABLED : M bool :=
  fun o w => (Returned (DEV_TOOLS_ENABLED o), w).

(** JS truthiness of a [string | null | undefined]. *)
Definition truthy (s : option string) : bool :=
  match s with
  | Some (String _ _) => true
  | _ => false
  end.

Definition buildListView (viewerId : string) (listId : option string) : M View :=
  viewer <- buildViewerSummary viewerId ;;
  lists <- getListsByOwner viewerId ;;
  devTools <- read_DEV_TOOLS_ENABLED ;;
  let listId :=
    match lists with
    | l :: _ => if negb (truthy listId) then Some (ls_id l) else listId
    | [] => listId
    end in
  match listId with
  | None | Some EmptyString =>
      ret (mkView viewer devTools "mine" lists None [] [] None None None)
  | Some listId =>
      selected <- getListSummaryById listId ;;
      match selected with
      | None => throw (Error "List not found.")
      | Some selected =>
          itemsActive <- getItemsByList listId active ;;
          itemsDone <- getItemsByList listId done ;;
          if negb (ls_owner_id selected =? viewerId)%string then
            profileRecord <- getUserById (ls_owner_id selected) ;;
            let profileUser :=
              match profileRecord with
              | Some r => user_summary r
              | None => {| us_id := ls_owner_id selected;
                           us_handle := ls_owner_handle selected;
                           us_displayName := ls_owner_display_name selected;
                           us_avatarUrl := None |}
              end in
            profileLists <- getListsByOwner (ls_owner_id selected) ;;
            ret (mkView viewer devTools "profile" lists (Some selected)
                   itemsActive itemsDone (Some profileUser) (Some profileLists) None)
          else
            ret (mkView viewer devTools "mine" lists (Some selected)
                   itemsActive itemsDone None None None)
      end
  end.

Definition buildSearchView (viewerId query : string) : M View :=
  viewer <- buildViewerSummary viewerId ;;
  lists <- getListsByOwner viewerId ;;
  results <- (match query with
              | EmptyString => ret []
              | _ => searchUsersByQuery query
              end) ;;
  devTools <- read_DEV_TOOLS_ENABLED ;;
  ret (mkView viewer devTools "search" lists None [] [] None None
         (Some (map user_summary results))).

Definition read_viewerCache : M (option DbUser) :=
  fun _ w => (Returned (viewerCache w), w).

Definition write_viewerCache (v : option DbUser) : M unit :=
  fun _ w => (Returned tt, mkWorld (db w) (log w) (uuids_drawn w) (randoms_drawn w) v).

(** [getViewer] of [createMcpServer(authContext)]. *)
Definition getViewer (authContext : AuthContext) : M (option DbUser) :=
  cached <- read_viewerCache ;;
  match cached with
  | Some _ => ret cached
  | None =>
      v <- ensureUser (authProviderId authContext) (handle authContext)
             (Some (or_null (displayName authContext)))
             (Some (or_null (avatarUrl authContext))) ;;
      write_viewerCache v ;;;
      read_viewerCache
  end.

(** [viewer.id], which throws when [viewer] is [null]. *)
Definition viewer_id (viewer : option DbUser) : M string :=
  match viewer with
  | Some v => ret (u_id v)
  | None => throw (TypeError "Cannot read properties of null (reading 'id')")
  end.

(** The handlers take their arguments as the input schemas have parsed
    them; an outer [None] is an absent optional field. *)

Definition add_item (authContext : AuthContext) (list_id title : string)
  (note url : option (option string)) : M CallToolResult :=
  viewer <- getViewer authContext ;;
  list <- getListById list_id ;;
  match list with
  | None => throw (Error "List not found.")
  | Some list =>
      vid <- viewer_id viewer ;;
      requireListOwner (lr_owner_id list) vid ;;;
      itemId <- addItem list_id title note url ;;
      view <- buildListView vid (Some list_id) ;;
      ret (buildStructuredResponse (mkPayload view (Some (lastAddedItemId itemId)))
             "Item added.")
  end.

Definition update_item (authContext : AuthContext) (list_id item_id : string)
  (title : option string) (note url : option (option string)) : M CallToolResult :=
  viewer <- getViewer authContext ;;
  list <- getListById list_id ;;
  match list with
  | None => throw (Error "List not found.")
  | Some list =>
      vid <- viewer_id viewer ;;
      requireListOwner (lr_owner_id list) vid ;;;
      updateItem item_id list_id title note url ;;;
      view <- buildListView vid (Some list_id) ;;
      ret (buildStructuredResponse (mkPayload view None) "Item updated.")
  end.

Definition set_item_status (authContext : AuthContext) (list_id item_id : string)
  (status : item_status) : M CallToolResult :=
  viewer <- getViewer authContext ;;
  list <- getListById list_id ;;
  match list with
  | None => throw (Error "List not found.")
  | Some list =>
      vid <- viewer_id viewer ;;
      requireListOwner (lr_owner_id list) vid ;;;
      setItemStatus item_id list_id status ;;;
      view <- buildListView vid (Some list_id) ;;
      ret (buildStructuredResponse
             (mkPayload view (Some (lastMoved item_id status))) "Item moved.")
  end.

Definition bookmark_item (authContext : AuthContext) (source_item_id : string)
  (viewing_list_id : option string) : M CallToolResult :=
  viewer <- getViewer authContext ;;
  viewerId <- viewer_id viewer ;;
  source <- findSourceItem source_item_id ;;
  match source with
  | None => throw (Error "Source item not found.")
  | Some source =>
      if (s_owner_id source =? viewerId)%string then
        view <- buildListView viewerId
                  (match viewing_list_id with
                   | Some _ => viewing_list_id
                   | None => Some (s_list_id source)
                   end) ;;
        ret (buildStructuredResponse
               (mkPayload view (Some (lastBookmarkItemId source_item_id)))
               "That item is already yours.")
      else
        targetListId <- getOrCreateListByType viewerId (s_list_type source)
                          (s_list_title source) ;;
        createdItemId <- addItem targetListId (s_title source)
                           (Some (s_note source)) (Some (s_url source)) ;;
        createBookmark viewerId (s_id source) (s_list_id source)
          (s_owner_id source) createdItemId ;;;
        view <- (if truthy viewing_list_id
                 then buildListView viewerId viewing_list_id
                 else buildListView viewerId (Some targetListId)) ;;
        ret (buildStructuredResponse
               (mkPayload view (Some (lastBookmarkItemId source_item_id)))
               "Item bookmarked.")
  end.

Definition search_users (authContext : AuthContext) (query : string)
  : M CallToolResult :=
  viewer <- getViewer authContext ;;
  vid <- viewer_id viewer ;;
  view <- buildSearchView vid query ;;
  ret (buildStructuredResponse (mkPayload view None) "Search results.").

(** ** More of [db.ts] and [server.ts] *)

(** [select * from users order by created_at desc] *)
Definition listUserSummaries : M (list DbUser) :=
  query_read (fun d => order_by_desc u_created_at (users d)).

Definition buildProfileView (viewerId profileUserId : string)
  (listId : option string) : M View :=
  viewer <- buildViewerSummary viewerId ;;
  lists <- getListsByOwner viewerId ;;
  profileRecord <- getUserById profileUserId ;;
  match profileRecord with
  | None => throw (Error "Profile user not found.")
  | Some profileRecord =>
      let profileUser := user_summary profileRecord in
      profileLists <- getListsByOwner profileUserId ;;
      devTools <- read_DEV_TOOLS_ENABLED ;;
      let listId :=
        match listId with
        | Some _ => listId
        | None => match profileLists with
                  | l :: _ => Some (ls_id l)
                  | [] => None
                  end
        end in
      match listId with
      | None | Some EmptyString =>
          ret (mkView viewer devTools "profile" lists None [] []
                 (Some profileUser) (Some profileLists) None)
      | Some listId =>
          selected <- getListSummaryById listId ;;
          match selected with
          | None => throw (Error "List not found.")
          | Some selected =>
              itemsActive <- getItemsByList listId active ;;
              itemsDone <- getItemsByList listId done ;;
              let own := (ls_owner_id selected =? viewerId)%string in
              ret (mkView viewer devTools (if own then "mine" else "profile")
                     lists (Some selected) itemsActive itemsDone
                     (if own then None else Some profileUser)
                     (if own then None else Some profileLists) None)
          end
      end
  end.

Definition list_my_lists (authContext : AuthContext) : M CallToolResult :=
  viewer <- getViewer authContext ;;
  vid <- viewer_id viewer ;;
  view <- buildListView vid None ;;
  ret (buildStructuredResponse (mkPayload view None) "Here are your lists.").

Definition get_list (authContext : AuthContext) (list_id : string)
  : M CallToolResult :=
  viewer <- getViewer authContext ;;
  vid <- viewer_id viewer ;;
  view <- buildListView vid (Some list_id) ;;
  ret (buildStructuredResponse (mkPayload view None) "List loaded.").

Definition create_list (authContext : AuthContext) (title type : string)
  : M CallToolResult :=
  viewer <- getViewer authContext ;;
  vid <- viewer_id viewer ;;
  listId <- createList vid title type ;;
  vid' <- viewer_id viewer ;;
  view <- buildListView vid' (Some listId) ;;
  ret (buildStructuredResponse
         (mkPayload view (Some (lastCreatedListId listId))) "List created.").

Definition get_user_profile (authContext : AuthContext) (user_id : string)
  : M CallToolResult :=
  viewer <- getViewer authContext ;;
  vid <- viewer_id viewer ;;
  view <- buildProfileView vid user_id None ;;
  ret (buildStructuredResponse (mkPayload view None) "Profile loaded.").

(** ** [auth.ts] *)

(** [class AuthError], and whatever else [jwtVerify] or [new URL] throw. *)
Inductive auth_exn : Type :=
| AuthError (message : string) (status : Z)
| VerifyError.

Inductive auth_result (A : Type) : Type :=
| Resolved (a : A)
| Failed (e : auth_exn).
Arguments Resolved {A} a.
Arguments Failed {A} e.

(** [[a-z0-9_]] *)
Definition slug_char (c : ascii) : bool :=
  let n := nat_of_ascii c in
  ((Nat.leb 97 n && Nat.leb n 122) || (Nat.leb 48 n && Nat.leb n 57)
   || Nat.eqb n 95)%bool.

(** [.replace(/[^a-z0-9_]/g, "")] *)
Fixpoint keep_slug_chars (s : string) : string :=
  match s with
  | EmptyString => EmptyString
  | String c s' =>
      if slug_char c then String c (keep_slug_chars s') else keep_slug_chars s'
  end.

(** [.replace(/_{2,}/g, "_")]: an underscore followed by another goes. *)
Fixpoint collapse_underscores (s : string) : string :=
  match s with
  | EmptyString => EmptyString
  | String c tl =>
      match tl with
      | String d _ =>
          if (Ascii.eqb c "_" && Ascii.eqb d "_")%bool
          then collapse_underscores tl
          else String c (collapse_underscores tl)
      | EmptyString => String c EmptyString
      end
  end.

(** [^_+] removed. *)
Fixpoint trim_leading_underscores (s : string) : string :=
  match s with
  | EmptyString => EmptyString
  | String c s' => if Ascii.eqb c "_" then trim_leading_underscores s' else s
  end.

(** [_+$] removed. *)
Fixpoint trim_trailing_underscores (s : string) : string :=
  match s with
  | EmptyString => EmptyString
  | String c s' =>
      match trim_trailing_underscores s' with
      | EmptyString => if Ascii.eqb c "_" then EmptyString else String c EmptyString
      | rest => String c rest
      end
  end.

(** [a || b] on strings: the empty string is falsy. *)
Definition or_string (a b : string) : string :=
  match a with
  | EmptyString => b
  | _ => a
  end.

Definition slugifyHandle (value : string) : string :=
  let base :=
    trim_trailing_underscores
      (trim_leading_underscores
         (collapse_underscores (keep_slug_chars (toLowerCase value)))) in
  or_string base "user".

(** The claims of a verified token that [auth.ts] reads. *)
Record JWTPayload : Type := mkPayloadJWT {
  sub : option string;
  preferred_username : option string;
  nickname : option string;
  email : option string;
  name : option string;
  picture : option string
}.

(** [a || b] on a [string | undefined] and a string. *)
Definition or_claim (a : option string) (b : string) : string :=
  match a with
  | Some (String _ _ as v) => v
  | _ => b
  end.

(** [raw.split("@")[0]] *)
Fixpoint before_at (s : string) : string :=
  match s with
  | EmptyString => EmptyString
  | String c s' => if Ascii.eqb c "@" then EmptyString else String c (before_at s')
  end.

Definition pickHandle (payload : JWTPayload) : string :=
  let raw :=
    or_claim (preferred_username payload)
      (or_claim (nickname payload)
         (or_claim (email payload)
            (or_claim (name payload) "user"))) in
  slugifyHandle (before_at raw).

(** [value.split(" ")]: the pieces between single spaces. *)
Fixpoint split_spaces (s : string) : list string :=
  match s with
  | EmptyString => [EmptyString]
  | String c s' =>
      if Ascii.eqb c " " then EmptyString :: split_spaces s'
      else match split_spaces s' with
           | piece :: rest => String c piece :: rest
           | [] => [String c EmptyString]
           end
  end.

(** The white space [String.prototype.trim] removes from a header value.
    Node hands header values over as Latin-1 strings, one character a byte:
    of these, tab, line feed, vertical tab, form feed, carriage return,
    space and no-break space. *)
Definition is_space (c : ascii) : bool :=
  let n := nat_of_ascii c in
  ((Nat.leb 9 n && Nat.leb n 13) || Nat.eqb n 32 || Nat.eqb n 160)%bool.

Fixpoint trim_start (s : string) : string :=
  match s with
  | EmptyString => EmptyString
  | String c s' => if is_space c then trim_start s' else s
  end.

Fixpoint trim_end (s : string) : string :=
  match s with
  | EmptyString => EmptyString
  | String c s' =>
      match trim_end s' with
      | EmptyString => if is_space c then EmptyString else String c EmptyString
      | rest => String c rest
      end
  end.

Definition trim (s : string) : string := trim_end (trim_start s).

(** The request headers [auth.ts] reads; Node hands each of them over as
    one string or not at all. *)
Record Headers : Type := mkHeaders {
  authorization : option string;
  x_user_handle : option string;
  x_user_id : option string
}.

(** [process.env] *)
Record Env : Type := mkEnv {
  AUTH_MODE : option string;
  DEV_USER_HANDLE : option string;
  DEV_USER_ID : option string;
  AUTH_JWKS_URL : option string;
  AUTH_ISSUER : option string;
  AUTH_AUDIENCE : option string;
  BASE_URL : option string
}.

Definition parseBearerToken (req : Headers) : option string :=
  match authorization req with
  | None | Some EmptyString => None
  | Some value =>
      match split_spaces value with
      | type :: token :: _ =>
          if negb (toLowerCase type =? "bearer")%string then None
          else match token with
               | EmptyString => None
               | _ => Some (trim token)
               end
      | _ => None
      end
  end.

(** [x || undefined] *)
Definition nonempty (x : option string) : option string :=
  match x with
  | Some (String _ _) => x
  | _ => None
  end.

(** [getAuthContext(req)].  [verify token jwksUrl issuer audience] stands
    for [createRemoteJWKSet(new URL(jwksUrl))] followed by [jwtVerify]: the
    verified payload, or [None] when either throws. *)
Definition getAuthContext
  (verify : string -> string -> option string -> option string -> option JWTPayload)
  (env : Env) (req : Headers) : auth_result AuthContext :=
  let mode := match AUTH_MODE env with Some m => m | None => "dev" end in
  if negb (mode =? "oauth")%string then
    let handle :=
      or_claim (x_user_handle req) (or_claim (DEV_USER_HANDLE env) "alister") in
    let authProviderId :=
      or_claim (x_user_id req) (or_claim (DEV_USER_ID env) ("dev-" ++ handle)) in
    Resolved (mkAuth authProviderId (slugifyHandle handle) (Some (Some handle)) None)
  else
    match parseBearerToken req with
    | None | Some EmptyString => Failed (AuthError "Missing bearer token" 401)
    | Some token =>
        match nonempty (AUTH_JWKS_URL env) with
        | None => Failed (AuthError "AUTH_JWKS_URL not configured" 500)
        | Some jwksUrl =>
            match verify token jwksUrl (nonempty (AUTH_ISSUER env))
                    (nonempty (AUTH_AUDIENCE env)) with
            | None => Failed VerifyError
            | Some payload =>
                match nonempty (sub payload) with
                | None => Failed (AuthError "Token missing subject" 401)
                | Some subject =>
                    Resolved (mkAuth subject (pickHandle payload)
                                (Some (nonempty (name payload)))
                                (Some (nonempty (picture payload))))
                end
            end
        end
    end.

(** The status the HTTP handler answers a failed [getAuthContext] with:
    [error instanceof AuthError ? error.status : 500]. *)
Definition auth_failure_status (e : auth_exn) : Z :=
  match e with
  | AuthError _ status => status
  | VerifyError => 500
  end.

(** ** Vocabulary of the statements *)

(** Rows ordered newest first: no later row has a larger [key]. *)
Definition newest_first {A : Type} (key : A -> Z) (a b : A) : Prop :=
  key b <= key a.



(** The [where list_id = $1 and status = $2] test, on a result row. *)
Definition in_list_with_status (list_id : string) (st : item_status)
  (r : ItemRow) : bool :=
  (ir_list_id r =? list_id)%string && item_status_eqb (ir_status r) st.

(** [\d] *)
Definition is_digit (c : ascii) : bool :=
  let n := nat_of_ascii c in (Nat.leb 48 n && Nat.leb n 57)%bool.

(** [\d{4}$] *)
Definition four_digits (s : string) : bool :=
  (String.length s =? 4)%nat && forallb is_digit (list_ascii_of_string s).

Fixpoint strip_prefix (p s : string) : option string :=
  match p, s with
  | EmptyString, _ => Some s
  | String a p', String b s' => if Ascii.eqb a b then strip_prefix p' s' else None
  | String _ _, EmptyString => None
  end.

(** [s] matches [^<candidate>_\d{4}$], the candidate taken literally. *)
Definition matches_suffixed (candidate s : string) : bool :=
  match strip_prefix (candidate ++ "_") s with
  | Some rest => four_digits rest
  | None => false
  end.

(** ** The schema's constraints, as a check on a database value *)

Fixpoint distinct (l : list string) : bool :=
  match l with
  | [] => true
  | x :: rest => negb (existsb (String.eqb x) rest) && distinct rest
  end.

(** The foreign key [lists.owner_id references users(id)]. *)
Definition lists_have_owners (d : database) : bool :=
  forallb (fun l => has_user_id (l_owner_id l) d) (lists d).

(** Primary keys, [unique] columns and foreign keys of [schema.sql]. *)
Definition schema_ok (d : database) : bool :=
  distinct (map u_id (users d)) &&
  distinct (map u_auth_provider_id (users d)) &&
  distinct (map u_handle (users d)) &&
  distinct (map l_id (lists d)) &&
  lists_have_owners d &&
  distinct (map i_id (items d)) &&
  forallb (fun i => has_list_id (i_list_id i) d) (items d) &&
  distinct (map b_id (bookmarks d)) &&
  forallb (fun b => has_user_id (b_user_id b) d) (bookmarks d).

(** ** Sample data for the concrete runs *)

Definition sample_oracle : oracle :=
  {| uuidv4 := fun n => "00000000-0000-4000-8000-00000000000" ++ Number_toString (Z.of_nat n);
     Math_random := fun n => match n with O => 0%Q | S _ => (1 # 2)%Q end;
     now := fun n => 1000 + Z.of_nat n;
     DEV_TOOLS_ENABLED := false |}.

(** Ids are uuids, as the input schemas require of them. *)
Definition alice_id : string := "a11ce000-0000-4000-8000-000000000001".
Definition bob_id : string := "b0b00000-0000-4000-8000-000000000002".
Definition books_id : string := "b0045000-0000-4000-8000-000000000010".
Definition films_id : string := "f1145000-0000-4000-8000-000000000011".
Definition dune_id : string := "d04e0000-0000-4000-8000-000000000020".
Definition emma_id : string := "e44a0000-0000-4000-8000-000000000022".
(** A well-formed id that no row has. *)
Definition unknown_id : string := "99999999-0000-4000-8000-0000000000aa".

Definition alice : DbUser :=
  mkUser alice_id "dev-alice" "alice" (Some "Alice") None None 1.
Definition bob : DbUser :=
  mkUser bob_id "dev-bob" "bob" (Some "bob") None None 2.
Definition alice_auth : AuthContext :=
  mkAuth "dev-alice" "alice" (Some (Some "Alice")) None.
Definition bob_auth : AuthContext :=
  mkAuth "dev-bob" "bob" (Some (Some "bob")) None.

Definition books : list_row := mkList books_id alice_id "Books" "book" "public" 10 10.
Definition films : list_row := mkList films_id alice_id "Films" "film" "public" 11 11.
Definition dune : item_row :=
  mkItem dune_id books_id "Dune" (Some "Herbert") None done 0 20 21.
Definition emma : item_row :=
  mkItem emma_id books_id "Emma" None None active 0 22 22.

(** Alice owns two lists and two items; Bob owns nothing yet. *)
Definition sample_db : database :=
  mkDb [alice; bob] [books; films] [dune; emma] [].

Definition sample_world : world := mkWorld sample_db [] 0 0 None.

(** What [findSourceItem] returns for "Dune". *)
Definition dune_source : SourceItem :=
  mkSource dune_id "Dune" (Some "Herbert") None books_id "Books" "book"
    alice_id "alice".

(** Three users around the handle [abc]: its holder, the holder of
    [abc_1000], and a third user whose provider now proposes [abc]. *)
Definition abc_holder : DbUser :=
  mkUser "c0000000-0000-4000-8000-000000000001" "sub-1" "abc" None None None 1.
Definition abc_1000_holder : DbUser :=
  mkUser "c0000000-0000-4000-8000-000000000002" "sub-2" "abc_1000" None None None 2.
Definition zed : DbUser :=
  mkUser "c0000000-0000-4000-8000-000000000003" "sub-3" "zed" None None None 3.

Definition abc_db : database :=
  mkDb [abc_holder; abc_1000_holder; zed] [] [] [].

Definition abc_world : world := mkWorld abc_db [] 0 0 None.

(** A statement on [users] ([ensureUser] sends no other). *)
Definition touches_users_only (s : statement) : Prop :=
  match s with
  | InsertUser _ _ _ _ _ | UpdateUser _ _ => True
  | _ => False
  end.

(** Between [w] and [w'] nothing was sent but statements on [users], and
    the other three tables are the same. *)
Definition users_only (w w' : world) : Prop :=
  lists (db w') = lists (db w) /\
  items (db w') = items (db w) /\
  bookmarks (db w') = bookmarks (db w) /\
  exists stmts, log w' = (log w ++ stmts)%list /\ Forall touches_users_only stmts.

(** Every run of [m] relates the world before to the world after by [R]. *)
Definition respects (R : world -> world -> Prop) {A : Type} (m : M A) : Prop :=
  forall o w r w', m o w = (r, w') -> R w w'.

(** [id] is the primary key of no row yet. *)
Definition uuid_unused (id : string) (d : database) : bool :=
  negb (has_user_id id d) &&
  negb (has_list_id id d) &&
  negb (existsb (fun i => i_id i =? id)%string (items d)) &&
  negb (existsb (fun b => b_id b =? id)%string (bookmarks d)).

(** How many lists of [type] the user [owner] has. *)
Definition count_lists_of_type (owner type : string) (d : database) : nat :=
  length (filter (fun l => (l_owner_id l =? owner)%string && (l_type l =? type)%string)
            (lists d)).

(** How many items the list [list_id] has. *)
Definition count_items_in (list_id : string) (d : database) : nat :=
  length (filter (fun i => i_list_id i =? list_id)%string (items d)).

Definition bump_uuids (w : world) : world :=
  mkWorld (db w) (log w) (S (uuids_drawn w)) (randoms_drawn w) (viewerCache w).

(** The world after statement [s] was sent and accepted with result [d]. *)
Definition wrote (s : statement) (d : database) (w : world) : world :=
  mkWorld d (log w ++ [s])%list (uuids_drawn w) (randoms_drawn w) (viewerCache w).

(** [w2] is [w1] after [viewerId] copied the source item [src]: the
    destination list [dest] is the viewer's newest list of the source's type
    or, when the viewer had none, a new list with the source list's title;
    [it] is the one new item and [bm] the one new bookmark row. *)
Definition copied (viewerId : string) (src : SourceItem) (w1 w2 : world)
  (dest : string) (it : item_row) (bm : bookmark_row) : Prop :=
  users (db w2) = users (db w1) /\
  ((lists (db w2) = lists (db w1) /\
    exists rest, select_list_id_by_type viewerId (s_list_type src) (db w1)
                 = dest :: rest) \/
   (select_list_id_by_type viewerId (s_list_type src) (db w1) = [] /\
    exists t, lists (db w2) =
              (lists (db w1) ++
               [mkList dest viewerId (s_list_title src) (s_list_type src)
                  "public" t t])%list)) /\
  items (db w2) = (items (db w1) ++ [it])%list /\
  (exists t, it = mkItem (i_id it) dest (s_title src) (s_note src) (s_url src)
                    active 0 t t) /\
  bookmarks (db w2) = (bookmarks (db w1) ++ [bm])%list /\
  (exists t, bm = mkBookmark (b_id bm) viewerId (s_id src) (s_list_id src)
                    (s_owner_id src) (i_id it) t).

(** Why the database can reject one of the three inserts: the viewer has
    no row, or a drawn uuid is already a key. *)
Definition copy_rejected (o : oracle) (viewerId : string) (w1 : world) : Prop :=
  has_user_id viewerId (db w1) = false \/
  exists n, (uuids_drawn w1 <= n)%nat /\ uuid_unused (uuidv4 o n) (db w1) = false.

(** A character that LIKE takes literally. *)
Definition plain_char (c : ascii) : bool :=
  negb (Ascii.eqb c "%" || Ascii.eqb c "_" || Ascii.eqb c "\").

(** A query without LIKE wildcards or escapes. *)
Fixpoint plain (q : string) : bool :=
  match q with
  | EmptyString => true
  | String c q' => plain_char c && plain q'
  end.

(** The user's handle or display name contains [q], letter case aside. *)
Definition user_contains (q : string) (u : DbUser) : bool :=
  contains (toLowerCase q) (toLowerCase (u_handle u)) ||
  match u_display_name u with
  | Some n => contains (toLowerCase q) (toLowerCase n)
  | None => false
  end.

(** The three mutating handlers all end in [result], whatever their other
    arguments. *)
Definition mutations_end (authContext : AuthContext) (list_id : string)
  (o : oracle) (w0 : world) (result : outcome CallToolResult * world) : Prop :=
  (forall title note url,
      add_item authContext list_id title note url o w0 = result) /\
  (forall item_id title note url,
      update_item authContext list_id item_id title note url o w0 = result) /\
  (forall item_id status,
      set_item_status authContext list_id item_id status o w0 = result).

(** A caller the database has not seen, and one whose provider proposes
    the handle [abc]. *)
Definition carol_auth : AuthContext :=
  mkAuth "dev-carol" "carol" (Some (Some "Carol")) None.
Definition dan_auth : AuthContext :=
  mkAuth "sub-4" "abc" (Some None) (Some None).

(** Alice's lists and items, beside the holders of [abc] and [abc_1000]. *)
Definition crowded_db : database :=
  mkDb [alice; abc_holder; abc_1000_holder] [books; films] [dune; emma] [].

Definition crowded_world : world := mkWorld crowded_db [] 0 0 None.


(** ** Vocabulary of the further statements *)

(** The [where id = $n and list_id = $m] test of the two item updates. *)
Definition addressed (itemId listId : string) (i : item_row) : bool :=
  (i_id i =? itemId)%string && (i_list_id i =? listId)%string.

(** What [x !== undefined ? x : old] leaves in a column. *)
Definition supplied {A : Type} (x : option A) (old : A) : A :=
  match x with
  | Some v => v
  | None => old
  end.

(** [l'] is [l] with rows appended. *)
Definition extends {A : Type} (l l' : list A) : Prop :=
  exists more, l' = (l ++ more)%list.

(** What identifies an item row, and a user row, for good. *)
Definition item_identity (i : item_row) : string * string * Z :=
  (i_id i, i_list_id i, i_created_at i).
Definition user_identity (u : DbUser) : string * string * Z :=
  (u_id u, u_auth_provider_id u, u_created_at u).

(** From [w] to [w'] no row was removed and no list or bookmark row was
    rewritten: lists and bookmarks were at most appended to, and items and
    users kept their place and identity. *)
Definition only_grows (w w' : world) : Prop :=
  extends (lists (db w)) (lists (db w')) /\
  extends (bookmarks (db w)) (bookmarks (db w')) /\
  extends (map item_identity (items (db w))) (map item_identity (items (db w'))) /\
  extends (map user_identity (users (db w))) (map user_identity (users (db w'))) /\
  extends (log w) (log w').

(** A handle as [slugifyHandle] leaves it: not empty, made of [[a-z0-9_]],
    with no underscore at either end and no two in a row. *)
Fixpoint no_double_underscore (s : string) : bool :=
  match s with
  | EmptyString => true
  | String c tl =>
      match tl with
      | EmptyString => true
      | String d _ =>
          negb (Ascii.eqb c "_" && Ascii.eqb d "_") && no_double_underscore tl
      end
  end.

Definition first_char (s : string) : option ascii :=
  match s with
  | EmptyString => None
  | String c _ => Some c
  end.

Fixpoint last_char (s : string) : option ascii :=
  match s with
  | EmptyString => None
  | String c s' =>
      match s' with
      | EmptyString => Some c
      | String _ _ => last_char s'
      end
  end.

Definition is_underscore (c : option ascii) : bool :=
  match c with
  | Some c => Ascii.eqb c "_"
  | None => false
  end.

Definition all_slug_chars (s : string) : bool :=
  forallb slug_char (list_ascii_of_string s).

Definition valid_handle (s : string) : bool :=
  negb (s =? "")%string && all_slug_chars s &&
  negb (is_underscore (first_char s)) && negb (is_underscore (last_char s)) &&
  no_double_underscore s.

(** No space in [s]. *)
Definition no_space (s : string) : bool :=
  forallb (fun c => negb (Ascii.eqb c " ")) (list_ascii_of_string s).

(** The header value [<scheme> <token>], or [<scheme> <token> <more>]. *)
Definition bearer_header (scheme token : string) (more : option string) : string :=
  scheme ++ " " ++ token ++
  match more with
  | Some m => " " ++ m
  | None => ""
  end.

(** The list a profile view shows: the one asked for, else the profile
    user's newest. *)
Definition shown_list (listId : option string) (profileLists : list ListSummary)
  : option string :=
  match listId with
  | Some _ => listId
  | None => match profileLists with
            | l :: _ => Some (ls_id l)
            | [] => None
            end
  end.

(** Once the connection's viewer is resolved, no run of [m] changes the
    world at all. *)
Definition reads_when_signed_in {A : Type} (m : M A) : Prop :=
  forall o w r w', viewerCache w <> None -> m o w = (r, w') -> w' = w.

(** Postgres refuses a text parameter that holds the byte 0.  The text
    [updateItem] is given holds none. *)
Definition no_nul (s : string) : bool :=
  forallb (fun c => negb (Ascii.eqb c Ascii.zero)) (list_ascii_of_string s).

Definition text_without_nul (title : option string)
  (note url : option (option string)) : bool :=
  match title with Some t => no_nul t | None => true end &&
  match note with Some (Some n) => no_nul n | _ => true end &&
  match url with Some (Some u) => no_nul u | _ => true end.

(** How a handler ends when what it was asked for is missing: with the
    error of viewer resolution if that failed, else with [message]. *)
Definition stops_with (message : string) (viewer : outcome (option DbUser))
  (w1 : world) : outcome CallToolResult * world :=
  (match viewer with
   | Returned _ => Thrown (Error message)
   | Thrown e => Thrown e
   end, w1).

(** * Properties *)

(** ** Running a sequence *)

Lemma bind_Returned {A B : Type} (m : M A) (k : A -> M B) (o : oracle)
  (w w' : world) (a : A) :
  m o w = (Returned a, w') -> bind m k o w = k a o w'.
Proof. intros H. unfold bind. now rewrite H. Qed.

Lemma bind_Thrown {A B : Type} (m : M A) (k : A -> M B) (o : oracle)
  (w w' : world) (e : exn) :
  m o w = (Thrown e, w') -> bind m k o w = (Thrown e, w').
Proof. intros H. unfold bind. now rewrite H. Qed.

Lemma query_read_run {A : Type} (q : database -> A) (o : oracle) (w : world) :
  query_read q o w = (Returned (q (db w)), w).
Proof. reflexivity. Qed.

(** ** Lookups *)

Lemma first_row_In {A : Type} (rows : list A) (x : A) :
  first_row rows = Some x -> In x rows.
Proof. destruct rows; [discriminate|]. intros [= ->]. now left. Qed.

Lemma has_list_id_In (id : string) (d : database) :
  has_list_id id d = true <-> exists l, In l (lists d) /\ l_id l = id.
Proof.
  unfold has_list_id. rewrite existsb_exists.
  split; intros (l & Hl & E); exists l; (split; [exact Hl|]);
    now apply String.eqb_eq.
Qed.

Lemma has_user_id_In (id : string) (d : database) :
  has_user_id id d = true <-> exists u, In u (users d) /\ u_id u = id.
Proof.
  unfold has_user_id. rewrite existsb_exists.
  split; intros (u & Hu & E); exists u; (split; [exact Hu|]);
    now apply String.eqb_eq.
Qed.

(** ** Frame rules *)

Section Respects.
Variable R : world -> world -> Prop.
Hypothesis R_refl : forall w, R w w.
Hypothesis R_trans : forall w1 w2 w3, R w1 w2 -> R w2 w3 -> R w1 w3.

Lemma respects_ret {A : Type} (a : A) : respects R (ret a).
Proof. intros o w r w' [= _ <-]. apply R_refl. Qed.

Lemma respects_throw {A : Type} (e : exn) : respects R (@throw A e).
Proof. intros o w r w' [= _ <-]. apply R_refl. Qed.

Lemma respects_query_read {A : Type} (q : database -> A) :
  respects R (query_read q).
Proof. intros o w r w' [= _ <-]. apply R_refl. Qed.

Lemma respects_read_DEV_TOOLS_ENABLED : respects R read_DEV_TOOLS_ENABLED.
Proof. intros o w r w' [= _ <-]. apply R_refl. Qed.

Lemma respects_bind {A B : Type} (m : M A) (k : A -> M B) :
  respects R m -> (forall a, respects R (k a)) -> respects R (bind m k).
Proof.
  intros Hm Hk o w r w'. unfold bind.
  destruct (m o w) as [[a|e] w1] eqn:E; intros H.
  - eapply R_trans; [eapply Hm, E | eapply Hk, H].
  - injection H as _ <-. eapply Hm, E.
Qed.
End Respects.

Ltac respects_step :=
  first
    [ apply respects_bind; [assumption | | intros ?]
    | apply respects_ret; assumption
    | apply respects_throw; assumption
    | apply respects_query_read; assumption
    | apply respects_read_DEV_TOOLS_ENABLED; assumption ].

(** ** [order by created_at desc] *)

Section OrderByFacts.
Context {A : Type} (key : A -> Z).

Lemma insert_desc_perm (x : A) (l : list A) :
  Permutation (insert_desc key x l) (x :: l).
Proof.
  induction l as [|y l IH]; simpl.
  - apply Permutation_refl.
  - destruct (key y <=? key x).
    + apply Permutation_refl.
    + eapply perm_trans; [apply perm_skip, IH | apply perm_swap].
Qed.

Lemma order_by_desc_perm (l : list A) : Permutation (order_by_desc key l) l.
Proof.
  induction l as [|x l IH]; simpl.
  - constructor.
  - eapply perm_trans; [apply insert_desc_perm | now apply perm_skip].
Qed.

Lemma order_by_desc_In (l : list A) (x : A) :
  In x (order_by_desc key l) <-> In x l.
Proof.
  split; apply Permutation_in;
    [apply order_by_desc_perm | apply Permutation_sym, order_by_desc_perm].
Qed.

Lemma insert_desc_sorted (x : A) (l : list A) :
  StronglySorted (newest_first key) l ->
  StronglySorted (newest_first key) (insert_desc key x l).
Proof.
  induction 1 as [|y l Hs IH Hy]; simpl.
  - repeat constructor.
  - destruct (key y <=? key x) eqn:E.
    + apply Z.leb_le in E. constructor.
      * now constructor.
      * constructor; [exact E|].
        eapply Forall_impl; [|exact Hy].
        intros z Hz. unfold newest_first in *. lia.
    + apply Z.leb_gt in E. constructor; [exact IH|].
      eapply Permutation_Forall;
        [apply Permutation_sym, insert_desc_perm|].
      constructor; [unfold newest_first; lia | exact Hy].
Qed.

Lemma order_by_desc_sorted (l : list A) :
  StronglySorted (newest_first key) (order_by_desc key l).
Proof.
  induction l as [|x l IH]; simpl.
  - constructor.
  - now apply insert_desc_sorted.
Qed.

(** The first row of the ordered result is a row of the input that no
    other row is newer than. *)
Lemma order_by_desc_head (l : list A) (x : A) (rest : list A) :
  order_by_desc key l = x :: rest ->
  In x l /\ forall y, In y l -> key y <= key x.
Proof.
  intros E. split.
  - apply order_by_desc_In. rewrite E. now left.
  - intros y Hy. apply order_by_desc_In in Hy. rewrite E in Hy.
    pose proof (order_by_desc_sorted l) as S. rewrite E in S.
    inversion S as [|? ? _ Hall]; subst.
    destruct Hy as [<-|Hy]; [lia|].
    rewrite Forall_forall in Hall. now apply Hall.
Qed.

Lemma order_by_desc_nil (l : list A) : order_by_desc key l = [] -> l = [].
Proof.
  intros E. pose proof (order_by_desc_perm l) as P. rewrite E in P.
  now apply Permutation_nil in P.
Qed.
End OrderByFacts.


Lemma filter_map_comm {A B : Type} (f : A -> B) (p : B -> bool) (l : list A) :
  filter p (map f l) = map f (filter (fun a => p (f a)) l).
Proof.
  induction l as [|x l IH]; simpl; [reflexivity|].
  destruct (p (f x)); simpl; now rewrite IH.
Qed.

(** ** Reads see the item columns, never [updated_at] *)

Lemma select_items_by_list_columns (list_id : string) (st : item_status)
  (d : database) :
  select_items_by_list list_id st d =
  order_by_desc ir_created_at
    (filter (in_list_with_status list_id st) (map item_columns (items d))).
Proof.
  unfold select_items_by_list. now rewrite filter_map_comm.
Qed.

Lemma count_status_columns (st : item_status) (list_id : string)
  (its : list item_row) :
  count_status st list_id its =
  Z.of_nat (length (filter (in_list_with_status list_id st) (map item_columns its))).
Proof.
  unfold count_status. now rewrite filter_map_comm, length_map.
Qed.

Lemma reads_depend_on_columns (d d' : database) :
  users d = users d' ->
  lists d = lists d' ->
  map item_columns (items d) = map item_columns (items d') ->
  (forall l st, select_items_by_list l st d = select_items_by_list l st d') /\
  (forall owner, select_summaries_by_owner owner d = select_summaries_by_owner owner d') /\
  (forall id, select_summary_by_id id d = select_summary_by_id id d').
Proof.
  intros Hu Hl Hi.
  assert (Hrow : forall lu, summary_row d lu = summary_row d' lu).
  { intros [l u]. unfold summary_row.
    now rewrite !count_status_columns, Hi. }
  repeat split.
  - intros l st. now rewrite !select_items_by_list_columns, Hi.
  - intros owner. unfold select_summaries_by_owner, lists_join_users.
    rewrite Hu, Hl. apply map_ext, Hrow.
  - intros id. unfold select_summary_by_id, lists_join_users.
    rewrite Hu, Hl. apply map_ext, Hrow.
Qed.

Lemma query_write_UpdateItemStatus (o : oracle) (w : world)
  (st : item_status) (id lid : string) :
  query_write (UpdateItemStatus st id lid) o w =
  (Returned tt,
   mkWorld
     (with_items
        (map (fun i => if (i_id i =? id)%string && (i_list_id i =? lid)%string
                       then touch_item (now o (length (log w))) (with_status st i)
                       else i) (items (db w))) (db w))
     (log w ++ [UpdateItemStatus st id lid])
     (uuids_drawn w) (randoms_drawn w) (viewerCache w)).
Proof. reflexivity. Qed.

(** C6: [setItemStatus] is idempotent on what the reads show.  Running it
    a second time with the same arguments succeeds like the first, and
    [getItemsByList] (for every list and status), [getListsByOwner] and
    [getListSummaryById] (with their active/done counts) return the same
    after the second run as after the first; only the unread [updated_at]
    column moves. *)
Theorem setItemStatus_idempotent :
  forall (o : oracle) (w : world) (itemId listId : string) (status : item_status),
    let once := setItemStatus itemId listId status o w in
    let twice := setItemStatus itemId listId status o (snd once) in
    fst once = Returned tt /\ fst twice = Returned tt /\
    (forall l st, fst (getItemsByList l st o (snd twice)) =
                  fst (getItemsByList l st o (snd once))) /\
    (forall owner, fst (getListsByOwner owner o (snd twice)) =
                   fst (getListsByOwner owner o (snd once))) /\
    (forall id, fst (getListSummaryById id o (snd twice)) =
                fst (getListSummaryById id o (snd once))).
Proof.
  intros o w itemId listId status once twice.
  subst once twice. unfold setItemStatus.
  rewrite !query_write_UpdateItemStatus. cbn [fst snd].
  split; [reflexivity|]. split; [reflexivity|].
  unfold getItemsByList, getListsByOwner, getListSummaryById, query_read.
  cbn [fst db log].
  set (t1 := now o (length (log w))).
  set (t2 := now o (length (log w ++ [UpdateItemStatus status itemId listId]))).
  set (hit := fun i => (i_id i =? itemId)%string && (i_list_id i =? listId)%string).
  set (its1 := map (fun i => if hit i then touch_item t1 (with_status status i) else i)
                 (items (db w))).
  set (d1 := with_items its1 (db w)).
  set (d2 := with_items
               (map (fun i => if hit i then touch_item t2 (with_status status i) else i)
                  (items d1)) d1).
  assert (Hcols : map item_columns (items d2) = map item_columns (items d1)).
  { subst d2 d1 its1. cbn [items with_items]. rewrite !map_map. apply map_ext.
    intros i. destruct (hit i) eqn:E.
    - assert (E' : hit (touch_item t1 (with_status status i)) = true) by exact E.
      rewrite E'. reflexivity.
    - rewrite E. reflexivity. }
  destruct (reads_depend_on_columns d2 d1 eq_refl eq_refl Hcols) as (Hi & Hs & Hy).
  repeat split; intros.
  - apply f_equal, Hi.
  - apply f_equal, Hs.
  - apply (f_equal (fun rows => Returned (first_row rows))), Hy.
Qed.

Lemma item_status_eqb_eq (a b : item_status) :
  item_status_eqb a b = true <-> a = b.
Proof. destruct a, b; simpl; split; congruence. Qed.


(** ** Handle resolution *)

Lemma strip_prefix_app (p s : string) : strip_prefix p (p ++ s) = Some s.
Proof.
  induction p as [|a p IH]; simpl; [reflexivity|].
  now rewrite Ascii.eqb_refl.
Qed.

Lemma string_app_assoc (a b c : string) : ((a ++ b) ++ c = a ++ (b ++ c))%string.
Proof. induction a as [|x a IH]; simpl; [reflexivity | now rewrite IH]. Qed.

Lemma string_length_app (a b : string) :
  String.length (a ++ b) = (String.length a + String.length b)%nat.
Proof. induction a as [|x a IH]; simpl; [reflexivity | now rewrite IH]. Qed.

Lemma four_digits_range :
  forallb (fun n => four_digits (Number_toString (1000 + Z.of_nat n)))
    (seq 0 (Z.to_nat 9000)) = true.
Proof. vm_compute. reflexivity. Qed.

Lemma Number_toString_four_digits (z : Z) :
  1000 <= z <= 9999 -> four_digits (Number_toString z) = true.
Proof.
  intros Hz. pose proof four_digits_range as H.
  rewrite forallb_forall in H.
  specialize (H (Z.to_nat (z - 1000))).
  replace (1000 + Z.of_nat (Z.to_nat (z - 1000))) with z in H by lia.
  apply H, in_seq. lia.
Qed.

(** [Math.floor(Math.random() * 9000 + 1000)] lies in 1000..9999. *)
Lemma suffix_range (r : Q) :
  (0 <= r)%Q -> (r < 1)%Q -> 1000 <= Qfloor (r * 9000 + 1000) <= 9999.
Proof.
  intros H0 H1. split.
  - change 1000 with (Qfloor (inject_Z 1000)).
    apply Qfloor_resp_le.
    setoid_replace (inject_Z 1000) with (0 * 9000 + 1000)%Q by reflexivity.
    apply Qplus_le_compat; [|apply Qle_refl].
    apply Qmult_le_compat_r; [exact H0 | discriminate].
  - assert (Hlt : (r * 9000 + 1000 < inject_Z 10000)%Q).
    { setoid_replace (inject_Z 10000) with (1 * 9000 + 1000)%Q by reflexivity.
      apply Qplus_lt_l. apply Qmult_lt_r; [reflexivity | exact H1]. }
    pose proof (Qfloor_le (r * 9000 + 1000)) as Hf.
    assert (Hz : (inject_Z (Qfloor (r * 9000 + 1000)) < inject_Z 10000)%Q)
      by (eapply Qle_lt_trans; eassumption).
    rewrite <- Zlt_Qlt in Hz. lia.
Qed.

Lemma suffixed_matches (candidate : string) (z : Z) :
  1000 <= z <= 9999 ->
  matches_suffixed candidate (candidate ++ "_" ++ Number_toString z) = true /\
  (candidate ++ "_" ++ Number_toString z)%string <> candidate.
Proof.
  intros Hz. split.
  - unfold matches_suffixed.
    rewrite <- string_app_assoc, strip_prefix_app.
    now apply Number_toString_four_digits.
  - intros E. apply (f_equal String.length) in E.
    rewrite string_length_app in E. simpl in E. lia.
Qed.

(** With handles unique, the rows holding a handle are the one row that
    holds it. *)
Lemma unique_handle_rows (us : list DbUser) (u : DbUser) :
  NoDup (map u_handle us) -> In u us ->
  filter (fun r => u_handle r =? u_handle u)%string us = [u].
Proof.
  induction us as [|x us IH]; intros Hnd Hin; [contradiction|].
  simpl in Hnd. inversion Hnd as [|? ? Hx Hnd']; subst.
  simpl. destruct Hin as [->|Hin].
  - rewrite String.eqb_refl. f_equal.
    clear IH Hnd Hnd'. induction us as [|y us IH]; [reflexivity|].
    simpl in *. destruct (String.eqb_spec (u_handle y) (u_handle u)) as [E|E].
    + exfalso. apply Hx. now left.
    + apply IH. intros H. apply Hx. now right.
  - destruct (String.eqb_spec (u_handle x) (u_handle u)) as [E|E].
    + exfalso. apply Hx. rewrite E. now apply in_map.
    + now apply IH.
Qed.

Lemma resolveHandle_reads_only (o : oracle) (w : world) (a base : string) :
  exists (h : string) (w1 : world),
    resolveHandle a base o w = (Returned h, w1) /\
    db w1 = db w /\ log w1 = log w /\
    uuids_drawn w1 = uuids_drawn w /\ viewerCache w1 = viewerCache w.
Proof.
  unfold resolveHandle, bind, query_read, ret, Math_random_call.
  destruct (select_auth_by_handle base (db w)) as [|x rest].
  - now exists base, w.
  - destruct (x =? a)%string.
    + now exists base, w.
    + eexists _, _. split; [reflexivity|]. now cbn.
Qed.

Lemma resolveHandle_cases :
  forall (o : oracle) (w : world) (a candidate : string),
    NoDup (map u_handle (users (db w))) ->
    (0 <= Math_random o (randoms_drawn w))%Q ->
    (Math_random o (randoms_drawn w) < 1)%Q ->
    exists (resolved : string) (w1 : world),
      resolveHandle a candidate o w = (Returned resolved, w1) /\
      db w1 = db w /\ log w1 = log w /\
      ((exists u, In u (users (db w)) /\ u_handle u = candidate /\
                  u_auth_provider_id u <> a) ->
       matches_suffixed candidate resolved = true /\ resolved <> candidate) /\
      ((forall u, In u (users (db w)) -> u_handle u = candidate ->
                  u_auth_provider_id u = a) ->
       resolved = candidate).
Proof.
  intros o w a candidate Hnd H0 H1.
  destruct (resolveHandle_reads_only o w a candidate)
    as (h & w1 & Hres & Hdb & Hlog & _).
  exists h, w1.
  split; [exact Hres|]. split; [exact Hdb|]. split; [exact Hlog|]. split.
  - intros (u & Hu & Hh & Ha). subst candidate.
    revert Hres. unfold resolveHandle, bind, query_read, ret, Math_random_call.
    unfold select_auth_by_handle. rewrite (unique_handle_rows _ _ Hnd Hu).
    cbn [map]. destruct (String.eqb_spec (u_auth_provider_id u) a) as [E|_];
      [contradiction|].
    intros [= <- _]. now apply suffixed_matches, suffix_range.
  - intros Hown. revert Hres.
    unfold resolveHandle, bind, query_read, ret, Math_random_call.
    unfold select_auth_by_handle.
    destruct (filter (fun u => u_handle u =? candidate)%string (users (db w)))
      as [|x rest] eqn:F; cbn [map].
    + now intros [= <- _].
    + assert (Hx : In x (filter (fun u => u_handle u =? candidate)%string
                           (users (db w)))) by (rewrite F; now left).
      apply filter_In in Hx as [Hx Hh]. apply String.eqb_eq in Hh.
      rewrite (Hown x Hx Hh), String.eqb_refl. now intros [= <- _].
Qed.

Lemma distinct_NoDup (l : list string) : distinct l = true -> NoDup l.
Proof.
  induction l as [|x l IH]; simpl; intros H; constructor.
  - apply andb_true_iff in H as [H _]. intros Hin.
    apply negb_true_iff in H.
    assert (E : existsb (String.eqb x) l = true)
      by (apply existsb_exists; exists x; split; [exact Hin | apply String.eqb_refl]).
    congruence.
  - apply IH. now apply andb_true_iff in H as [_ H].
Qed.

(** ** [ensureUser] on a known identity *)

Lemma option_string_eqb_eq (a b : option string) :
  option_string_eqb a b = true <-> a = b.
Proof.
  destruct a as [x|], b as [y|]; simpl; try (split; congruence).
  rewrite String.eqb_eq. split; congruence.
Qed.

Lemma option_string_eqb_neq (a b : option string) :
  option_string_eqb a b = false <-> a <> b.
Proof.
  rewrite <- option_string_eqb_eq. destruct (option_string_eqb a b); split; congruence.
Qed.

Lemma assign_users_keep (sets : list user_assignment) (u : DbUser) :
  let u' := fold_left assign_user sets u in
  u_id u' = u_id u /\ u_auth_provider_id u' = u_auth_provider_id u /\
  u_bio u' = u_bio u /\ u_created_at u' = u_created_at u.
Proof.
  revert u. induction sets as [|s sets IH]; intros u; simpl; [now repeat split|].
  destruct (IH (assign_user u s)) as (H1 & H2 & H3 & H4).
  rewrite H1, H2, H3, H4. destruct s; now repeat split.
Qed.

Lemma update_users_first_by_auth (sets : list user_assignment) (a : string)
  (us : list DbUser) (e : DbUser) :
  first_row (filter (fun u => u_auth_provider_id u =? a)%string us) = Some e ->
  first_row (filter (fun u => u_auth_provider_id u =? a)%string
               (update_users sets (u_id e) us))
  = Some (fold_left assign_user sets e).
Proof.
  intros H. unfold update_users. rewrite filter_map_comm.
  rewrite (filter_ext _ (fun u => u_auth_provider_id u =? a)%string).
  - destruct (filter (fun u => u_auth_provider_id u =? a)%string us) as [|x rest];
      [discriminate|].
    injection H as ->. simpl. now rewrite String.eqb_refl.
  - intros u. destruct (u_id u =? u_id e)%string; [|reflexivity].
    now destruct (assign_users_keep sets u) as (_ & -> & _).
Qed.

(** What each entry of the [updates] array means. *)
Lemma ensureUser_updates_changed (dn av : option (option string))
  (safeHandle : string) (e : DbUser) :
  let sets := ensureUser_updates dn av safeHandle e in
  (forall v, In (SetDisplayName v) sets <-> dn = Some v /\ v <> u_display_name e) /\
  (forall v, In (SetAvatarUrl v) sets <-> av = Some v /\ v <> u_avatar_url e) /\
  (forall v, In (SetHandle v) sets <-> v = safeHandle /\ safeHandle <> u_handle e).
Proof.
  unfold ensureUser_updates.
  repeat split; intros;
    repeat match goal with
    | H : _ /\ _ |- _ => destruct H
    | H : Some _ = Some _ |- _ => injection H as H
    | |- context [match ?x with Some _ => _ | None => _ end] =>
        destruct x
    | H : context [match ?x with Some _ => _ | None => _ end] |- _ =>
        destruct x
    | |- context [option_string_eqb ?x ?y] =>
        let E := fresh "E" in
        destruct (option_string_eqb x y) eqn:E;
        [apply option_string_eqb_eq in E | apply option_string_eqb_neq in E]
    | H : context [option_string_eqb ?x ?y] |- _ =>
        let E := fresh "E" in
        destruct (option_string_eqb x y) eqn:E;
        [apply option_string_eqb_eq in E | apply option_string_eqb_neq in E]
    | |- context [String.eqb ?x ?y] => destruct (String.eqb_spec x y)
    | H : context [String.eqb ?x ?y] |- _ => destruct (String.eqb_spec x y)
    | H : In _ _ |- _ => cbn in H
    | H : _ \/ _ |- _ => destruct H
    | H : False |- _ => destruct H
    | H : SetDisplayName _ = _ |- _ => inversion H; clear H
    | H : SetAvatarUrl _ = _ |- _ => inversion H; clear H
    | H : SetHandle _ = _ |- _ => inversion H; clear H
    | _ => progress subst
    | _ => progress cbn
    | _ => congruence
    | _ => tauto
    | _ => discriminate
    end.
Qed.

Lemma ensureUser_known (o : oracle) (w w1 : world) (a h safe : string)
  (dn av : option (option string)) (e : DbUser) :
  resolveHandle a h o w = (Returned safe, w1) ->
  db w1 = db w ->
  first_row (select_users_by_auth a (db w)) = Some e ->
  ensureUser a h dn av o w =
  match ensureUser_updates dn av safe e with
  | [] => (Returned (Some e), w1)
  | _ :: _ =>
      bind (query_write (UpdateUser (ensureUser_updates dn av safe e) (u_id e)))
        (fun _ => getUserByAuthProviderId a) o w1
  end.
Proof.
  intros Hres Hdb He. unfold ensureUser.
  rewrite (bind_Returned _ _ _ _ _ _ Hres).
  erewrite bind_Returned
    by (unfold getUserByAuthProviderId; rewrite query_read_run, Hdb, He; reflexivity).
  cbv beta iota zeta. destruct (ensureUser_updates dn av safe e); [|reflexivity].
  erewrite bind_Returned by reflexivity.
  unfold getUserByAuthProviderId. now rewrite query_read_run, Hdb, He.
Qed.

(** C5 (amended): [ensureUser] for an [authProviderId] that has a user row
    [e].  The [update] it builds assigns exactly the supplied fields among
    display name, avatar URL and resolved handle that differ from the stored
    ones.  If there is none, nothing is written and [e] is returned.
    Otherwise that one [update] of row [e] is the only statement sent; when
    the database accepts it the row read back, with exactly those fields
    replaced, is returned, and when it rejects it (the resolved handle is
    already another row's) the call fails with the database error and the
    tables are unchanged. *)
Theorem ensureUser_existing_user :
  forall (o : oracle) (w : world) (a h : string)
         (dn av : option (option string)) (e : DbUser),
    first_row (select_users_by_auth a (db w)) = Some e ->
    exists (safeHandle : string) (w1 : world),
      resolveHandle a h o w = (Returned safeHandle, w1) /\
      let sets := ensureUser_updates dn av safeHandle e in
      let result := fst (ensureUser a h dn av o w) in
      let w2 := snd (ensureUser a h dn av o w) in
      (forall v, In (SetDisplayName v) sets <-> dn = Some v /\ v <> u_display_name e) /\
      (forall v, In (SetAvatarUrl v) sets <-> av = Some v /\ v <> u_avatar_url e) /\
      (forall v, In (SetHandle v) sets <-> v = safeHandle /\ safeHandle <> u_handle e) /\
      (sets = [] ->
       log w2 = log w /\ db w2 = db w /\ result = Returned (Some e)) /\
      (sets <> [] ->
       log w2 = (log w ++ [UpdateUser sets (u_id e)])%list /\
       (update_users_clash sets (u_id e) (users (db w)) = false ->
        db w2 = with_users (update_users sets (u_id e) (users (db w))) (db w) /\
        first_row (select_users_by_auth a (db w2))
        = Some (fold_left assign_user sets e) /\
        result = Returned (Some (fold_left assign_user sets e))) /\
       (update_users_clash sets (u_id e) (users (db w)) = true ->
        db w2 = db w /\ result = Thrown (DatabaseError "users_handle_key"))).
Proof.
  intros o w a h dn av e He.
  destruct (resolveHandle_reads_only o w a h)
    as (safe & w1 & Hres & Hdb & Hlog & _).
  exists safe, w1. split; [exact Hres|].
  intros sets result w2.
  destruct (ensureUser_updates_changed dn av safe e) as (Hd & Ha & Hh).
  split; [exact Hd|]. split; [exact Ha|]. split; [exact Hh|].
  subst result w2. rewrite (ensureUser_known _ _ _ _ _ _ dn av _ Hres Hdb He).
  fold sets. clearbody sets. clear Hd Ha Hh. split.
  - intros ->. cbn [fst snd]. auto.
  - intros Hne. destruct sets as [|s sets'] eqn:Es; [congruence|].
    rewrite <- Es in *. clear Hne Es.
    unfold bind, query_write. cbn [execute]. rewrite Hdb, Hlog.
    destruct (update_users_clash sets (u_id e) (users (db w))) eqn:Hc.
    + cbn [fst snd db log]. split; [reflexivity|]. split; [discriminate|].
      now intros _.
    + unfold getUserByAuthProviderId. rewrite query_read_run.
      cbn [fst snd db log with_users users]. split; [reflexivity|].
      split; [|discriminate]. intros _.
      assert (Hrow := update_users_first_by_auth sets a (users (db w)) e He).
      unfold select_users_by_auth.
      change (users (with_users ?us _)) with us.
      now rewrite Hrow.
Qed.

(** The C5 theorem at a concrete call: Alice's provider reports a new
    display name. *)
Lemma ensureUser_existing_user_witness :
  first_row (select_users_by_auth "dev-alice" sample_db) = Some alice /\
  exists safeHandle w1,
    resolveHandle "dev-alice" "alice" sample_oracle sample_world
    = (Returned safeHandle, w1) /\
    log (snd (ensureUser "dev-alice" "alice" (Some (Some "Alice L.")) (Some None)
                sample_oracle sample_world))
    = [UpdateUser (ensureUser_updates (Some (Some "Alice L.")) (Some None)
                     safeHandle alice) alice_id].
Proof.
  split; [reflexivity|].
  destruct (ensureUser_existing_user sample_oracle sample_world "dev-alice" "alice"
              (Some (Some "Alice L.")) (Some None) alice eq_refl)
    as (safe & w1 & Hres & _ & _ & _ & _ & Hwrite).
  exists safe, w1. split; [exact Hres|].
  refine (proj1 (Hwrite _)).
  injection Hres as <- _. discriminate.
Defined.

(** C5 as stated fails when the resolved handle is taken: the third user
    of [abc_db] proposes [abc], which the first holds; the draw gives suffix
    1000 and [abc_1000] is the second user's, so the [update] is rejected and
    no record is returned. *)
Lemma ensureUser_existing_user_rejected :
  schema_ok abc_db = true /\
  first_row (select_users_by_auth "sub-3" (db abc_world))
  = Some zed /\
  ensureUser "sub-3" "abc" (Some None) (Some None) sample_oracle abc_world
  = (Thrown (DatabaseError "users_handle_key"),
     mkWorld abc_db [UpdateUser [SetHandle "abc_1000"] (u_id zed)] 0 1 None).
Proof. vm_compute. repeat split. Qed.

(** ** The record [ensureUser] returns carries the resolved handle *)

Lemma ensureUser_updates_handle (dn av : option (option string))
  (safeHandle : string) (e : DbUser) :
  u_handle (fold_left assign_user (ensureUser_updates dn av safeHandle e) e)
  = safeHandle.
Proof.
  unfold ensureUser_updates.
  destruct dn as [dn|], av as [av|];
    repeat match goal with
    | |- context [negb (option_string_eqb ?x ?y)] => destruct (option_string_eqb x y)
    end;
    destruct (String.eqb_spec safeHandle (u_handle e)); cbn; congruence.
Qed.

Lemma inserted_user_found (us : list DbUser) (row : DbUser) :
  existsb (fun u => u_id u =? u_id row)%string us = false ->
  first_row (filter (fun u => u_id u =? u_id row)%string (us ++ [row])) = Some row.
Proof.
  intros H. rewrite filter_app. cbn. rewrite String.eqb_refl.
  replace (filter (fun u => u_id u =? u_id row)%string us) with (@nil DbUser);
    [reflexivity|].
  symmetry. induction us as [|x us IH]; [reflexivity|].
  cbn in *. apply orb_false_iff in H as [Hx Hus]. rewrite Hx. now apply IH.
Qed.

Lemma ensureUser_returns_resolved (o : oracle) (w w1 w2 : world)
  (a h safe : string) (dn av : option (option string)) (u : DbUser) :
  resolveHandle a h o w = (Returned safe, w1) ->
  db w1 = db w ->
  ensureUser a h dn av o w = (Returned (Some u), w2) ->
  u_handle u = safe.
Proof.
  intros Hres Hdb.
  destruct (first_row (select_users_by_auth a (db w))) as [e|] eqn:He.
  - rewrite (ensureUser_known _ _ _ _ _ _ dn av _ Hres Hdb He).
    pose proof (ensureUser_updates_handle dn av safe e) as Hh.
    destruct (ensureUser_updates dn av safe e) as [|s sets'] eqn:Es.
    + intros [= <- _]. exact Hh.
    + rewrite <- Es in *. unfold bind, query_write. cbn [execute]. rewrite Hdb.
      destruct (update_users_clash _ _ _); [discriminate|].
      unfold getUserByAuthProviderId. rewrite query_read_run.
      unfold select_users_by_auth. cbn [db with_users users].
      rewrite (update_users_first_by_auth _ _ _ _ He).
      intros [= <- _]. exact Hh.
  - unfold ensureUser. rewrite (bind_Returned _ _ _ _ _ _ Hres).
    erewrite bind_Returned
      by (unfold getUserByAuthProviderId; rewrite query_read_run, Hdb, He; reflexivity).
    cbv beta iota. erewrite bind_Returned by reflexivity.
    unfold bind, query_write. cbn [execute db log]. rewrite Hdb.
    unfold has_user_id.
    destruct (existsb (fun u0 => u_id u0 =? uuidv4 o (uuids_drawn w1))%string
                (users (db w))) eqn:Eid; [discriminate|].
    destruct (existsb (fun u0 => u_auth_provider_id u0 =? a)%string (users (db w)));
      [discriminate|].
    destruct (existsb (fun u0 => u_handle u0 =? safe)%string (users (db w)));
      [discriminate|].
    unfold getUserById. rewrite query_read_run.
    unfold select_users_by_id. cbn [db with_users users].
    rewrite (inserted_user_found (users (db w))
               (mkUser (uuidv4 o (uuids_drawn w1)) a safe (or_null dn) None
                  (or_null av) _) Eid).
    now intros [= <- _].
Qed.

(** C4: the handle [ensureUser] resolves.  With handles unique (as the
    schema keeps them) and [Math.random()] in [0, 1), the first step of
    [ensureUser], [resolveHandle], reads only and resolves a handle such
    that: if the candidate is held by a user of another [auth_provider_id],
    the resolved handle is the candidate, an underscore and four decimal
    digits, and differs from the candidate; if the candidate is free or is
    held by the caller's own identity, it is the candidate unchanged; and
    any record the call returns carries the resolved handle. *)
Theorem ensureUser_resolved_handle :
  forall (o : oracle) (w : world) (a candidate : string)
         (dn av : option (option string)),
    NoDup (map u_handle (users (db w))) ->
    (0 <= Math_random o (randoms_drawn w))%Q ->
    (Math_random o (randoms_drawn w) < 1)%Q ->
    exists (resolved : string) (w1 : world),
      resolveHandle a candidate o w = (Returned resolved, w1) /\
      db w1 = db w /\ log w1 = log w /\
      ((exists u, In u (users (db w)) /\ u_handle u = candidate /\
                  u_auth_provider_id u <> a) ->
       matches_suffixed candidate resolved = true /\ resolved <> candidate) /\
      ((forall u, In u (users (db w)) -> u_handle u = candidate ->
                  u_auth_provider_id u = a) ->
       resolved = candidate) /\
      (forall u w2, ensureUser a candidate dn av o w = (Returned (Some u), w2) ->
                    u_handle u = resolved).
Proof.
  intros o w a candidate dn av Hnd H0 H1.
  destruct (resolveHandle_cases o w a candidate Hnd H0 H1)
    as (resolved & w1 & Hres & Hdb & Hlog & Htaken & Hfree).
  exists resolved, w1. repeat (split; [assumption|]).
  intros u w2. now apply ensureUser_returns_resolved with (w1 := w1).
Qed.

(** The C4 theorem at a concrete call: a new identity proposes [abc],
    which the first user of [abc_db] holds. *)
Lemma ensureUser_resolved_handle_witness :
  exists resolved u w2,
    matches_suffixed "abc" resolved = true /\ resolved <> "abc" /\
    ensureUser "sub-4" "abc" (Some None) (Some None) sample_oracle
      (mkWorld abc_db [] 0 1 None) = (Returned (Some u), w2) /\
    u_handle u = resolved.
Proof.
  destruct (ensureUser_resolved_handle sample_oracle (mkWorld abc_db [] 0 1 None)
              "sub-4" "abc" (Some None) (Some None))
    as (resolved & w1 & Hres & _ & _ & Htaken & _ & Hrec).
  - apply distinct_NoDup. reflexivity.
  - discriminate.
  - reflexivity.
  - assert (Hheld : exists u, In u (users abc_db) /\ u_handle u = "abc" /\
                                u_auth_provider_id u <> "sub-4").
    { exists abc_holder.
      split; [now left|]. split; [reflexivity | discriminate]. }
    destruct (Htaken Hheld) as [Hm Hne].
    destruct (ensureUser "sub-4" "abc" (Some None) (Some None) sample_oracle
                (mkWorld abc_db [] 0 1 None)) as [[[u|]|e] w2] eqn:Hrun.
    + exists resolved, u, w2. repeat split; try assumption. now apply (Hrec u w2).
    + vm_compute in Hrun. discriminate.
    + vm_compute in Hrun. discriminate.
Defined.

(** ** Reads leave the world alone *)

Lemma buildViewerSummary_reads (viewerId : string) :
  respects eq (buildViewerSummary viewerId).
Proof.
  assert (Hr : forall w : world, w = w) by reflexivity.
  assert (Ht : forall w1 w2 w3 : world, w1 = w2 -> w2 = w3 -> w1 = w3) by congruence.
  unfold buildViewerSummary, getUserById.
  respects_step; [respects_step|]. destruct a; respects_step.
Qed.

Lemma buildListView_reads (viewerId : string) (listId : option string) :
  respects eq (buildListView viewerId listId).
Proof.
  assert (Hr : forall w : world, w = w) by reflexivity.
  assert (Ht : forall w1 w2 w3 : world, w1 = w2 -> w2 = w3 -> w1 = w3) by congruence.
  unfold buildListView, getListsByOwner, getListSummaryById, getItemsByList, getUserById.
  respects_step; [apply buildViewerSummary_reads|].
  respects_step; [respects_step|].
  respects_step; [respects_step|].
  match goal with
  | |- respects _ (match ?x with _ => _ end) =>
      destruct x as [[|c id]|]; [respects_step | | respects_step]
  end.
  respects_step; [respects_step|].
  destruct a2; [|respects_step].
  repeat (respects_step; [respects_step|]).
  destruct (negb _); repeat (respects_step; [respects_step|]); respects_step.
Qed.


(** ** Resolving the viewer writes to [users] only *)

Lemma users_only_refl (w : world) : users_only w w.
Proof.
  repeat split. exists []. split; [now rewrite app_nil_r | constructor].
Qed.

Lemma users_only_trans (w1 w2 w3 : world) :
  users_only w1 w2 -> users_only w2 w3 -> users_only w1 w3.
Proof.
  intros (Hl & Hi & Hb & s1 & Hs1 & F1) (Hl' & Hi' & Hb' & s2 & Hs2 & F2).
  repeat split; try congruence.
  exists (s1 ++ s2)%list. split.
  - now rewrite Hs2, Hs1, app_assoc.
  - apply Forall_app. now split.
Qed.

Lemma users_only_same_tables (w w' : world) :
  db w' = db w -> log w' = log w -> users_only w w'.
Proof.
  intros Hd Hl. unfold users_only. rewrite Hd, Hl. repeat split.
  exists []. split; [now rewrite app_nil_r | constructor].
Qed.

Lemma query_write_users_only (s : statement) :
  touches_users_only s -> respects users_only (query_write s).
Proof.
  intros Hs o w r w'. unfold query_write.
  destruct (execute (now o (length (log w))) s (db w)) as [d|c] eqn:E;
    intros [= _ <-]; cbn [db log].
  - assert (Hd : lists d = lists (db w) /\ items d = items (db w) /\
                 bookmarks d = bookmarks (db w)).
    { destruct s; try contradiction; cbn [execute] in E.
      - repeat match type of E with
               | (if ?c then _ else _) = _ => destruct c; try discriminate
               end.
        injection E as <-. now cbn.
      - destruct (update_users_clash sets id (users (db w))); [discriminate|].
        injection E as <-. now cbn. }
    destruct Hd as (H1 & H2 & H3). repeat split; try assumption.
    exists [s]. split; [reflexivity | now constructor].
  - repeat split. exists [s]. split; [reflexivity | now constructor].
Qed.

Lemma resolveHandle_users_only (a base : string) :
  respects users_only (resolveHandle a base).
Proof.
  intros o w r w' H.
  destruct (resolveHandle_reads_only o w a base) as (h & w1 & E & Hd & Hl & _).
  rewrite E in H. injection H as _ <-. now apply users_only_same_tables.
Qed.

Lemma ensureUser_users_only (a h : string) (dn av : option (option string)) :
  respects users_only (ensureUser a h dn av).
Proof.
  pose proof users_only_refl as Hr. pose proof users_only_trans as Ht.
  unfold ensureUser, getUserByAuthProviderId, getUserById.
  respects_step; [apply resolveHandle_users_only|].
  respects_step; [respects_step|].
  destruct a1 as [e|].
  - cbv zeta. respects_step; [|respects_step].
    destruct (ensureUser_updates dn av a0 e); [respects_step|].
    now apply query_write_users_only.
  - respects_step.
    { intros o w r w' [= _ <-]. now apply users_only_same_tables. }
    respects_step; [now apply query_write_users_only | respects_step].
Qed.

Lemma getViewer_users_only (authContext : AuthContext) :
  respects users_only (getViewer authContext).
Proof.
  pose proof users_only_refl as Hr. pose proof users_only_trans as Ht.
  assert (Hread : respects users_only read_viewerCache).
  { intros o w r w' [= _ <-]. apply users_only_refl. }
  unfold getViewer.
  respects_step; [exact Hread|].
  destruct a; [respects_step|].
  respects_step; [apply ensureUser_users_only|].
  respects_step; [|exact Hread].
  intros o w r w' [= _ <-]. now apply users_only_same_tables.
Qed.

Lemma select_list_by_id_lists (id : string) (d d' : database) :
  lists d' = lists d -> select_list_by_id id d' = select_list_by_id id d.
Proof. unfold select_list_by_id. now intros ->. Qed.

(** The three mutating handlers share their first four steps. *)
Lemma owner_check_denies (o : oracle) (authContext : AuthContext)
  (w0 w1 : world) (v : DbUser) (list_id : string) (l : ListRecord)
  (k : string -> M CallToolResult) :
  getViewer authContext o w0 = (Returned (Some v), w1) ->
  getListById list_id o w0 = (Returned (Some l), w0) ->
  lr_owner_id l <> u_id v ->
  (viewer <- getViewer authContext ;;
   list <- getListById list_id ;;
   match list with
   | None => throw (Error "List not found.")
   | Some list =>
       vid <- viewer_id viewer ;;
       requireListOwner (lr_owner_id list) vid ;;;
       k vid
   end) o w0
  = (Thrown (Error "You can only modify your own lists."), w1).
Proof.
  intros Hv Hl Hne.
  destruct (getViewer_users_only authContext _ _ _ _ Hv) as (Hlists & _).
  rewrite (bind_Returned _ _ _ _ _ _ Hv).
  assert (Hl1 : getListById list_id o w1 = (Returned (Some l), w1)).
  { unfold getListById in *. rewrite query_read_run in *.
    rewrite (select_list_by_id_lists _ _ _ Hlists). now injection Hl as ->. }
  rewrite (bind_Returned _ _ _ _ _ _ Hl1).
  erewrite bind_Returned by reflexivity.
  apply bind_Thrown. unfold requireListOwner.
  destruct (String.eqb_spec (lr_owner_id l) (u_id v)); [contradiction | reflexivity].
Qed.

Lemma ensureUser_returns_some (o : oracle) (w w' : world) (a h : string)
  (dn av : option (option string)) (r : option DbUser) :
  ensureUser a h dn av o w = (Returned r, w') -> exists u, r = Some u.
Proof.
  destruct (resolveHandle_reads_only o w a h) as (safe & w1 & Hres & Hdb & _).
  destruct (first_row (select_users_by_auth a (db w))) as [e|] eqn:He.
  - rewrite (ensureUser_known _ _ _ _ _ _ dn av _ Hres Hdb He).
    destruct (ensureUser_updates dn av safe e) as [|s sets'] eqn:Es.
    + intros [= <- _]. eauto.
    + rewrite <- Es in *. unfold bind, query_write. cbn [execute]. rewrite Hdb.
      destruct (update_users_clash _ _ _); [discriminate|].
      unfold getUserByAuthProviderId. rewrite query_read_run.
      unfold select_users_by_auth. cbn [db with_users users].
      rewrite (update_users_first_by_auth _ _ _ _ He).
      intros [= <- _]. eauto.
  - unfold ensureUser. rewrite (bind_Returned _ _ _ _ _ _ Hres).
    erewrite bind_Returned
      by (unfold getUserByAuthProviderId; rewrite query_read_run, Hdb, He; reflexivity).
    cbv beta iota. erewrite bind_Returned by reflexivity.
    unfold bind, query_write. cbn [execute db log]. rewrite Hdb.
    unfold has_user_id.
    destruct (existsb (fun u0 => u_id u0 =? uuidv4 o (uuids_drawn w1))%string
                (users (db w))) eqn:Eid; [discriminate|].
    destruct (existsb (fun u0 => u_auth_provider_id u0 =? a)%string (users (db w)));
      [discriminate|].
    destruct (existsb (fun u0 => u_handle u0 =? safe)%string (users (db w)));
      [discriminate|].
    unfold getUserById. rewrite query_read_run.
    unfold select_users_by_id. cbn [db with_users users].
    rewrite (inserted_user_found (users (db w))
               (mkUser (uuidv4 o (uuids_drawn w1)) a safe (or_null dn) None
                  (or_null av) _) Eid).
    intros [= <- _]. eauto.
Qed.

(** [getViewer] never hands a handler [null]. *)
Lemma getViewer_returns_some (o : oracle) (authContext : AuthContext)
  (w0 w1 : world) (r : option DbUser) :
  getViewer authContext o w0 = (Returned r, w1) -> exists v, r = Some v.
Proof.
  unfold getViewer. erewrite bind_Returned by reflexivity.
  destruct (viewerCache w0) as [c|]; [intros [= <- _]; eauto|].
  unfold bind at 1.
  destruct (ensureUser _ _ _ _ o w0) as [[r'|e] w2] eqn:He; [|discriminate].
  apply ensureUser_returns_some in He as (u & ->).
  unfold bind, write_viewerCache, read_viewerCache. cbn. intros [= <- _]. eauto.
Qed.

(** The row [getListById] returns for an id some list has. *)
Lemma getListById_row (o : oracle) (w : world) (list_id : string) :
  has_list_id list_id (db w) = true ->
  exists row,
    In row (lists (db w)) /\ l_id row = list_id /\
    getListById list_id o w
    = (Returned (Some (mkListRecord (l_id row) (l_owner_id row) (l_title row)
                         (l_type row) (l_visibility row))), w).
Proof.
  intros H. unfold getListById. rewrite query_read_run. unfold select_list_by_id.
  destruct (filter (fun l => l_id l =? list_id)%string (lists (db w)))
    as [|row rest] eqn:E.
  - apply has_list_id_In in H as (l & Hl & Hid).
    assert (Hin : In l (filter (fun l => l_id l =? list_id)%string (lists (db w))))
      by (apply filter_In; split; [exact Hl | now apply String.eqb_eq]).
    now rewrite E in Hin.
  - assert (Hin : In row (filter (fun l => l_id l =? list_id)%string (lists (db w))))
      by (rewrite E; now left).
    apply filter_In in Hin as [Hin Hid]. apply String.eqb_eq in Hid.
    exists row. now repeat split.
Qed.

(** C1 (amended): a mutation of someone else's list is refused, after the
    viewer is resolved.  For a [list_id] that some list has, each of
    [add_item], [update_item] and [set_item_status] first resolves the
    viewer, which sends statements on [users] only and leaves the [lists],
    [items] and [bookmarks] tables as they were.  When that fails, the call
    fails with the same error.  When it yields the viewer [v] and no list
    with that id is owned by [v], the call throws "You can only modify your
    own lists." and stops in the world viewer resolution left: the handler
    sends no statement after it. *)
Theorem mutation_requires_owner :
  forall (o : oracle) (authContext : AuthContext) (w0 : world) (list_id : string),
    has_list_id list_id (db w0) = true ->
    exists w1 : world,
      lists (db w1) = lists (db w0) /\
      items (db w1) = items (db w0) /\
      bookmarks (db w1) = bookmarks (db w0) /\
      (exists stmts, log w1 = (log w0 ++ stmts)%list /\
                     Forall touches_users_only stmts) /\
      ((exists e,
           getViewer authContext o w0 = (Thrown e, w1) /\
           mutations_end authContext list_id o w0 (Thrown e, w1))
       \/
       (exists v,
           getViewer authContext o w0 = (Returned (Some v), w1) /\
           ((forall row, In row (lists (db w0)) -> l_id row = list_id ->
                         l_owner_id row <> u_id v) ->
            mutations_end authContext list_id o w0
              (Thrown (Error "You can only modify your own lists."), w1)))).
Proof.
  intros o authContext w0 list_id Hhas.
  destruct (getViewer authContext o w0) as [[r|e] w1] eqn:Hv.
  - destruct (getViewer_returns_some _ _ _ _ _ Hv) as (v & ->).
    exists w1.
    destruct (getViewer_users_only authContext _ _ _ _ Hv) as (Hl & Hi & Hb & Hlog).
    split; [exact Hl|]. split; [exact Hi|]. split; [exact Hb|]. split; [exact Hlog|].
    right. exists v. split; [reflexivity|]. intros Hothers.
    destruct (getListById_row o w0 list_id Hhas) as (row & Hin & Hid & Hrow).
    pose proof (Hothers row Hin Hid) as Hne.
    split; [|split]; intros;
      unfold add_item, update_item, set_item_status;
      now apply owner_check_denies with (v := v) (l := mkListRecord (l_id row)
        (l_owner_id row) (l_title row) (l_type row) (l_visibility row)).
  - exists w1.
    destruct (getViewer_users_only authContext _ _ _ _ Hv) as (Hl & Hi & Hb & Hlog).
    split; [exact Hl|]. split; [exact Hi|]. split; [exact Hb|]. split; [exact Hlog|].
    left. exists e. split; [reflexivity|].
    split; [|split]; intros;
      unfold add_item, update_item, set_item_status;
      now apply bind_Thrown.
Qed.

(** The C1 theorem at a concrete call: Bob tries to change Alice's list
    of books. *)
Lemma mutation_requires_owner_witness :
  has_list_id books_id (db sample_world) = true /\
  add_item bob_auth books_id "Ubik" None None sample_oracle sample_world
  = (Thrown (Error "You can only modify your own lists."),
     mkWorld sample_db [] 0 0 (Some bob)).
Proof.
  split; [reflexivity|].
  destruct (mutation_requires_owner sample_oracle bob_auth sample_world books_id
              eq_refl)
    as (w1 & _ & _ & _ & _ & [(e & Hv & _) | (v & Hv & Hdenied)]).
  - vm_compute in Hv. discriminate.
  - assert (Hbob : getViewer bob_auth sample_oracle sample_world
                   = (Returned (Some bob), mkWorld sample_db [] 0 0 (Some bob)))
      by reflexivity.
    rewrite Hbob in Hv. injection Hv as <- <-.
    apply Hdenied.
    intros row [<-|[<-|[]]] Hid; [discriminate | vm_compute in Hid; discriminate].
Defined.

(** C1 as stated fails in two ways, both during viewer resolution, which
    precedes the ownership check.  Carol, whom the database has not seen,
    asks to add an item to Alice's list: her [users] row is inserted, and
    stays, before the permission error is thrown.  Dan's provider proposes the
    handle [abc]; that handle and the suffixed one drawn for him are both
    taken, the insert of his row is rejected, and the same request fails with
    the database error instead of the permission error. *)
Lemma mutation_denied_after_user_write :
  has_list_id books_id sample_db = true /\
  l_owner_id books = alice_id /\
  (exists w',
      add_item carol_auth books_id "Ubik" None None sample_oracle sample_world
      = (Thrown (Error "You can only modify your own lists."), w') /\
      log w' = [InsertUser (uuidv4 sample_oracle 0) "dev-carol" "carol"
                  (Some "Carol") None] /\
      users (db w')
      = [alice; bob;
         mkUser (uuidv4 sample_oracle 0) "dev-carol" "carol" (Some "Carol") None
           None (now sample_oracle 0)]) /\
  has_list_id books_id crowded_db = true /\
  (exists w',
      add_item dan_auth books_id "Ubik" None None sample_oracle crowded_world
      = (Thrown (DatabaseError "users_handle_key"), w') /\
      db w' = crowded_db /\
      log w' = [InsertUser (uuidv4 sample_oracle 0) "sub-4" "abc_1000" None None]).
Proof.
  split; [reflexivity|]. split; [reflexivity|]. split.
  - eexists. split; [vm_compute; reflexivity|]. split; reflexivity.
  - split; [reflexivity|].
    eexists. split; [vm_compute; reflexivity|]. split; reflexivity.
Qed.

(** ** The resolved viewer has a row *)

Lemma bind_Returned_inv {A B : Type} (m : M A) (k : A -> M B) (o : oracle)
  (w w' : world) (b : B) :
  bind m k o w = (Returned b, w') ->
  exists a w1, m o w = (Returned a, w1) /\ k a o w1 = (Returned b, w').
Proof.
  unfold bind. destruct (m o w) as [[a|e] w1]; [eauto | discriminate].
Qed.

Lemma ensureUser_returns_row (o : oracle) (w w' : world) (a h : string)
  (dn av : option (option string)) (u : DbUser) :
  ensureUser a h dn av o w = (Returned (Some u), w') -> In u (users (db w')).
Proof.
  unfold ensureUser. intros H.
  apply bind_Returned_inv in H as (safe & w1 & _ & H).
  apply bind_Returned_inv in H as (existing & w2 & _ & H).
  destruct existing as [e|].
  - cbv zeta in H. apply bind_Returned_inv in H as (? & w3 & _ & H).
    unfold getUserByAuthProviderId in H. rewrite query_read_run in H.
    injection H as H <-. apply first_row_In in H. now apply filter_In in H.
  - apply bind_Returned_inv in H as (id & w3 & _ & H).
    apply bind_Returned_inv in H as (? & w4 & _ & H).
    unfold getUserById in H. rewrite query_read_run in H.
    injection H as H <-. apply first_row_In in H. now apply filter_In in H.
Qed.

(** If the cached viewer (when there is one) has a row, the viewer that
    [getViewer] returns has one; on a new connection the cache is empty. *)
Lemma getViewer_known (o : oracle) (authContext : AuthContext) (w0 w1 : world)
  (v : DbUser) :
  (forall c, viewerCache w0 = Some c -> has_user_id (u_id c) (db w0) = true) ->
  getViewer authContext o w0 = (Returned (Some v), w1) ->
  has_user_id (u_id v) (db w1) = true.
Proof.
  intros Hcache. unfold getViewer.
  erewrite bind_Returned by reflexivity.
  destruct (viewerCache w0) as [c|] eqn:Ec.
  - intros [= -> <-]. now apply Hcache.
  - intros H. apply bind_Returned_inv in H as (r & w2 & He & H).
    unfold bind, write_viewerCache, read_viewerCache in H. cbn in H.
    injection H as -> <-. cbn [db].
    apply ensureUser_returns_row in He.
    apply has_user_id_In. now exists v.
Qed.

(** ** The three writes of a bookmark *)

Lemma createList_run (o : oracle) (w : world) (ownerId title type : string) :
  let id := uuidv4 o (uuids_drawn w) in
  let s := InsertList id ownerId title type in
  let t := now o (length (log w)) in
  if has_list_id id (db w) || negb (has_user_id ownerId (db w))
  then exists c w', createList ownerId title type o w = (Thrown (DatabaseError c), w')
  else createList ownerId title type o w
       = (Returned id,
          wrote s (with_lists (lists (db w) ++ [mkList id ownerId title type "public" t t])
                     (db w)) (bump_uuids w)).
Proof.
  intros id s t. unfold createList, bind, uuidv4_call, query_write, ret.
  cbn [execute db log uuids_drawn randoms_drawn viewerCache]. fold id.
  destruct (has_list_id id (db w)); cbn [orb]; [eauto|].
  destruct (has_user_id ownerId (db w)); cbn [negb]; [reflexivity | eauto].
Qed.

Lemma addItem_run (o : oracle) (w : world) (listId title : string)
  (note url : option (option string)) :
  let id := uuidv4 o (uuids_drawn w) in
  let s := InsertItem id listId title (or_null note) (or_null url) in
  let t := now o (length (log w)) in
  if existsb (fun i => i_id i =? id)%string (items (db w))
     || negb (has_list_id listId (db w))
  then exists c w', addItem listId title note url o w = (Thrown (DatabaseError c), w')
  else addItem listId title note url o w
       = (Returned id,
          wrote s (with_items
                     (items (db w) ++
                      [mkItem id listId title (or_null note) (or_null url) active 0 t t])
                     (db w)) (bump_uuids w)).
Proof.
  intros id s t. unfold addItem, bind, uuidv4_call, query_write, ret.
  cbn [execute db log uuids_drawn randoms_drawn viewerCache]. fold id.
  destruct (existsb (fun i => i_id i =? id)%string (items (db w))); cbn [orb]; [eauto|].
  destruct (has_list_id listId (db w)); cbn [negb]; [reflexivity | eauto].
Qed.

Lemma createBookmark_run (o : oracle) (w : world)
  (userId sourceItemId sourceListId sourceUserId createdItemId : string) :
  let id := uuidv4 o (uuids_drawn w) in
  let s := InsertBookmark id userId sourceItemId sourceListId sourceUserId
             createdItemId in
  let t := now o (length (log w)) in
  if existsb (fun b => b_id b =? id)%string (bookmarks (db w))
     || negb (has_user_id userId (db w))
  then exists c w',
      createBookmark userId sourceItemId sourceListId sourceUserId createdItemId o w
      = (Thrown (DatabaseError c), w')
  else createBookmark userId sourceItemId sourceListId sourceUserId createdItemId o w
       = (Returned tt,
          wrote s (with_bookmarks
                     (bookmarks (db w) ++
                      [mkBookmark id userId sourceItemId sourceListId sourceUserId
                         createdItemId t])
                     (db w)) (bump_uuids w)).
Proof.
  intros id s t. unfold createBookmark, bind, uuidv4_call, query_write.
  cbn [execute db log uuids_drawn randoms_drawn viewerCache]. fold id.
  destruct (existsb (fun b => b_id b =? id)%string (bookmarks (db w)));
    cbn [orb]; [eauto|].
  destruct (has_user_id userId (db w)); cbn [negb]; [reflexivity | eauto].
Qed.

(** What [bookmark_item] does once the viewer and the source are known
    and the source is someone else's. *)
Lemma bookmark_item_foreign (o : oracle) (authContext : AuthContext)
  (w0 w1 : world) (v : DbUser) (sid : string) (vl : option string)
  (src : SourceItem) :
  getViewer authContext o w0 = (Returned (Some v), w1) ->
  findSourceItem sid o w1 = (Returned (Some src), w1) ->
  s_owner_id src <> u_id v ->
  bookmark_item authContext sid vl o w0 =
  (targetListId <- getOrCreateListByType (u_id v) (s_list_type src) (s_list_title src) ;;
   createdItemId <- addItem targetListId (s_title src)
                      (Some (s_note src)) (Some (s_url src)) ;;
   createBookmark (u_id v) (s_id src) (s_list_id src) (s_owner_id src) createdItemId ;;;
   view <- (if truthy vl
            then buildListView (u_id v) vl
            else buildListView (u_id v) (Some targetListId)) ;;
   ret (buildStructuredResponse
          (mkPayload view (Some (lastBookmarkItemId sid))) "Item bookmarked.")) o w1.
Proof.
  intros Hv Hs Hne. unfold bookmark_item.
  rewrite (bind_Returned _ _ _ _ _ _ Hv).
  erewrite bind_Returned by reflexivity.
  rewrite (bind_Returned _ _ _ _ _ _ Hs).
  destruct (String.eqb_spec (s_owner_id src) (u_id v)); [contradiction | reflexivity].
Qed.


(** The list [getOrCreateListByType] reuses: one of the owner's lists of
    that type, and none of them was created later. *)
Lemma select_list_id_by_type_newest (owner type : string) (d : database)
  (id : string) (rest : list string) :
  select_list_id_by_type owner type d = id :: rest ->
  exists l, In l (lists d) /\ l_id l = id /\ l_owner_id l = owner /\
            l_type l = type /\
            forall l', In l' (lists d) -> l_owner_id l' = owner -> l_type l' = type ->
                       l_created_at l' <= l_created_at l.
Proof.
  unfold select_list_id_by_type, limit.
  set (p := fun l => (l_owner_id l =? owner)%string && (l_type l =? type)%string).
  destruct (order_by_desc l_created_at (filter p (lists d))) as [|l ls] eqn:E;
    [discriminate|].
  cbn. intros [= <- _]. apply order_by_desc_head in E as [Hin Hmax].
  apply filter_In in Hin as [Hin Hp]. subst p. cbv beta in Hp.
  apply andb_true_iff in Hp as [Ho Ht].
  apply String.eqb_eq in Ho. apply String.eqb_eq in Ht.
  exists l. repeat split; try assumption.
  intros l' Hl' Ho' Ht'. apply Hmax, filter_In. split; [exact Hl'|].
  cbv beta. now rewrite Ho', Ht', !String.eqb_refl.
Qed.

Lemma select_list_id_by_type_none (owner type : string) (d : database) :
  select_list_id_by_type owner type d = [] ->
  count_lists_of_type owner type d = 0%nat.
Proof.
  unfold select_list_id_by_type, limit, count_lists_of_type.
  set (p := fun l => (l_owner_id l =? owner)%string && (l_type l =? type)%string).
  destruct (order_by_desc l_created_at (filter p (lists d))) as [|l ls] eqn:E;
    [|discriminate].
  intros _. now rewrite (order_by_desc_nil _ _ E).
Qed.

Lemma getOrCreateListByType_run (o : oracle) (w : world)
  (ownerId type fallbackTitle : string) :
  getOrCreateListByType ownerId type fallbackTitle o w =
  match select_list_id_by_type ownerId type (db w) with
  | id :: _ => (Returned id, w)
  | [] => createList ownerId fallbackTitle type o w
  end.
Proof.
  unfold getOrCreateListByType.
  erewrite bind_Returned by apply query_read_run.
  now destruct (select_list_id_by_type ownerId type (db w)).
Qed.


Lemma uuid_used_item (id : string) (d : database) :
  existsb (fun i => i_id i =? id)%string (items d) = true -> uuid_unused id d = false.
Proof.
  intros H. unfold uuid_unused. rewrite H. cbn. now rewrite !andb_false_r.
Qed.

Lemma uuid_used_bookmark (id : string) (d : database) :
  existsb (fun b => b_id b =? id)%string (bookmarks d) = true ->
  uuid_unused id d = false.
Proof.
  intros H. unfold uuid_unused. rewrite H. cbn. now rewrite !andb_false_r.
Qed.

Lemma uuid_used_list (id : string) (d : database) :
  has_list_id id d = true -> uuid_unused id d = false.
Proof.
  intros H. unfold uuid_unused. rewrite H. cbn. now rewrite !andb_false_r.
Qed.

(** The item insert and the bookmark insert, from a world [wA] in which
    the destination list exists. *)
Lemma add_and_mark {B : Type} (o : oracle) (wA : world) (viewerId dest : string)
  (src : SourceItem) (k : string -> M B) :
  has_list_id dest (db wA) = true ->
  let run :=
    (createdItemId <- addItem dest (s_title src) (Some (s_note src)) (Some (s_url src)) ;;
     createBookmark viewerId (s_id src) (s_list_id src) (s_owner_id src)
       createdItemId ;;;
     k createdItemId) o wA in
  (exists c w', run = (Thrown (DatabaseError c), w') /\
     (has_user_id viewerId (db wA) = false \/
      exists n, (uuids_drawn wA <= n)%nat /\
        (existsb (fun i => i_id i =? uuidv4 o n)%string (items (db wA)) = true \/
         existsb (fun b => b_id b =? uuidv4 o n)%string (bookmarks (db wA)) = true)))
  \/
  (exists it bm w2,
     users (db w2) = users (db wA) /\ lists (db w2) = lists (db wA) /\
     items (db w2) = (items (db wA) ++ [it])%list /\
     (exists t, it = mkItem (i_id it) dest (s_title src) (s_note src) (s_url src)
                       active 0 t t) /\
     bookmarks (db w2) = (bookmarks (db wA) ++ [bm])%list /\
     (exists t, bm = mkBookmark (b_id bm) viewerId (s_id src) (s_list_id src)
                       (s_owner_id src) (i_id it) t) /\
     run = k (i_id it) o w2).
Proof.
  intros Hdest run. subst run.
  pose proof (addItem_run o wA dest (s_title src) (Some (s_note src))
                (Some (s_url src))) as Hadd.
  cbv zeta in Hadd. rewrite Hdest in Hadd. cbn [negb] in Hadd.
  rewrite orb_false_r in Hadd.
  destruct (existsb (fun i => i_id i =? uuidv4 o (uuids_drawn wA))%string
              (items (db wA))) eqn:Ei.
  { destruct Hadd as (c & w' & Hadd). left. exists c, w'.
    split; [now apply bind_Thrown|]. right.
    exists (uuids_drawn wA). split; [lia | now left]. }
  rewrite (bind_Returned _ _ _ _ _ _ Hadd). clear Hadd.
  match goal with
  | |- context [bind _ _ o ?w] => set (wB := w)
  end.
  pose proof (createBookmark_run o wB viewerId (s_id src) (s_list_id src)
                (s_owner_id src) (uuidv4 o (uuids_drawn wA))) as Hbm.
  cbv zeta in Hbm.
  change (bookmarks (db wB)) with (bookmarks (db wA)) in Hbm.
  change (has_user_id viewerId (db wB)) with (has_user_id viewerId (db wA)) in Hbm.
  change (uuids_drawn wB) with (S (uuids_drawn wA)) in Hbm.
  destruct (existsb (fun b => b_id b =? uuidv4 o (S (uuids_drawn wA)))%string
              (bookmarks (db wA))) eqn:Eb.
  { destruct Hbm as (c & w' & Hbm). left. exists c, w'.
    split; [now apply bind_Thrown|]. right.
    exists (S (uuids_drawn wA)). split; [lia | now right]. }
  destruct (has_user_id viewerId (db wA)) eqn:Eu.
  2:{ destruct Hbm as (c & w' & Hbm). left. exists c, w'.
      split; [now apply bind_Thrown | now left]. }
  cbn [orb negb] in Hbm. rewrite (bind_Returned _ _ _ _ _ _ Hbm). clear Hbm.
  right.
  exists (mkItem (uuidv4 o (uuids_drawn wA)) dest (s_title src) (s_note src)
            (s_url src) active 0 (now o (length (log wA))) (now o (length (log wA)))).
  exists (mkBookmark (uuidv4 o (S (uuids_drawn wA))) viewerId (s_id src)
            (s_list_id src) (s_owner_id src) (uuidv4 o (uuids_drawn wA))
            (now o (length (log wB)))).
  match goal with
  | |- context [k _ o ?w] => exists w
  end.
  cbn [i_id b_id]. repeat split; eauto.
Qed.

(** The three writes of [bookmark_item], followed by anything: either the
    database rejected an insert, for one of the reasons of [copy_rejected],
    or the copy is made and the rest runs in the world [w2] that has it. *)
Lemma copy_then {B : Type} (o : oracle) (w1 : world) (viewerId : string)
  (src : SourceItem) (k : string -> string -> M B) :
  let run :=
    (targetListId <- getOrCreateListByType viewerId (s_list_type src)
                       (s_list_title src) ;;
     createdItemId <- addItem targetListId (s_title src)
                        (Some (s_note src)) (Some (s_url src)) ;;
     createBookmark viewerId (s_id src) (s_list_id src) (s_owner_id src)
       createdItemId ;;;
     k targetListId createdItemId) o w1 in
  (exists c w', run = (Thrown (DatabaseError c), w') /\ copy_rejected o viewerId w1)
  \/
  (exists dest it bm w2,
     copied viewerId src w1 w2 dest it bm /\ run = k dest (i_id it) o w2).
Proof.
  intros run. subst run.
  destruct (select_list_id_by_type viewerId (s_list_type src) (db w1))
    as [|dest rest] eqn:Esel.
  - (* no list of that type: create one *)
    pose proof (getOrCreateListByType_run o w1 viewerId (s_list_type src)
                  (s_list_title src)) as Hget.
    rewrite Esel in Hget.
    pose proof (createList_run o w1 viewerId (s_list_title src) (s_list_type src))
      as Hnew.
    cbv zeta in Hnew.
    destruct (has_list_id (uuidv4 o (uuids_drawn w1)) (db w1)) eqn:El.
    { destruct Hnew as (c & w' & Hnew). left. exists c, w'. split.
      - apply bind_Thrown. now rewrite Hget.
      - right. exists (uuids_drawn w1). split; [lia | now apply uuid_used_list]. }
    destruct (has_user_id viewerId (db w1)) eqn:Eu.
    2:{ destruct Hnew as (c & w' & Hnew). left. exists c, w'. split.
        - apply bind_Thrown. now rewrite Hget.
        - now left. }
    cbn [orb negb] in Hnew. rewrite <- Hget in Hnew.
    rewrite (bind_Returned _ _ _ _ _ _ Hnew). clear Hnew Hget.
    match goal with
    | |- context [bind _ _ o ?w] => set (wA := w)
    end.
    destruct (add_and_mark o wA viewerId (uuidv4 o (uuids_drawn w1)) src
                (k (uuidv4 o (uuids_drawn w1))))
      as [(c & w' & Hrun & Hwhy) | (it & bm & w2 & Hu & Hl & Hi & Hit & Hb & Hbm & Hrun)].
    + apply has_list_id_In. eexists. split.
      * subst wA. cbn. apply in_or_app. right. left. reflexivity.
      * reflexivity.
    + left. exists c, w'. split; [exact Hrun|].
      destruct Hwhy as [Hwhy | (n & Hn & Hwhy)].
      * left. exact Hwhy.
      * right. exists n. split; [subst wA; cbn in Hn; lia|].
        destruct Hwhy as [Hwhy|Hwhy];
          [now apply uuid_used_item | now apply uuid_used_bookmark].
    + right. exists (uuidv4 o (uuids_drawn w1)), it, bm, w2.
      split; [|exact Hrun].
      unfold copied. split; [exact Hu|]. split.
      { right. split; [exact Esel|]. rewrite Hl. subst wA. cbn. eauto. }
      split; [exact Hi|]. split; [exact Hit|]. split; [exact Hb | exact Hbm].
  - (* reuse the newest list of that type *)
    pose proof (getOrCreateListByType_run o w1 viewerId (s_list_type src)
                  (s_list_title src)) as Hget.
    rewrite Esel in Hget.
    rewrite (bind_Returned _ _ _ _ _ _ Hget). clear Hget.
    destruct (add_and_mark o w1 viewerId dest src (k dest))
      as [(c & w' & Hrun & Hwhy) | (it & bm & w2 & Hu & Hl & Hi & Hit & Hb & Hbm & Hrun)].
    + apply select_list_id_by_type_newest in Esel as (l & Hl & Hid & _).
      apply has_list_id_In. now exists l.
    + left. exists c, w'. split; [exact Hrun|].
      destruct Hwhy as [Hwhy | (n & Hn & Hwhy)].
      * left. exact Hwhy.
      * right. exists n. split; [exact Hn|].
        destruct Hwhy as [Hwhy|Hwhy];
          [now apply uuid_used_item | now apply uuid_used_bookmark].
    + right. exists dest, it, bm, w2. split; [|exact Hrun].
      unfold copied. split; [exact Hu|]. split.
      { left. split; [exact Hl | eauto]. }
      split; [exact Hi|]. split; [exact Hit|]. split; [exact Hb | exact Hbm].
Qed.

(** A row of [findSourceItem] joins an item with the given id to its list
    and to that list's owner. *)
Lemma select_source_item_In (id : string) (d : database) (src : SourceItem) :
  In src (select_source_item id d) ->
  s_id src = id /\
  (exists i, In i (items d) /\ i_id i = id /\ i_list_id i = s_list_id src /\
             i_title i = s_title src /\ i_note i = s_note src /\ i_url i = s_url src) /\
  (exists l, In l (lists d) /\ l_id l = s_list_id src /\
             l_owner_id l = s_owner_id src /\ l_title l = s_list_title src /\
             l_type l = s_list_type src) /\
  (exists u, In u (users d) /\ u_id u = s_owner_id src).
Proof.
  unfold select_source_item. intros H.
  apply in_flat_map in H as (i & Hi & H). apply filter_In in Hi as [Hi Ei].
  apply in_flat_map in H as (l & Hl & H). apply filter_In in Hl as [Hl El].
  apply in_map_iff in H as (u & <- & Hu). apply filter_In in Hu as [Hu Eu].
  apply String.eqb_eq in Ei, El, Eu. cbn.
  split; [exact Ei|]. split; [|split].
  - exists i. now repeat split.
  - exists l. now repeat split.
  - now exists u.
Qed.

Lemma bookmark_view_reads (viewerId sid : string) (vl : option string)
  (targetListId : string) :
  respects eq
    (view <- (if truthy vl
              then buildListView viewerId vl
              else buildListView viewerId (Some targetListId)) ;;
     ret (buildStructuredResponse
            (mkPayload view (Some (lastBookmarkItemId sid))) "Item bookmarked.")).
Proof.
  assert (Hr : forall w : world, w = w) by reflexivity.
  assert (Ht : forall w1 w2 w3 : world, w1 = w2 -> w2 = w3 -> w1 = w3) by congruence.
  respects_step; [|respects_step].
  destruct (truthy vl); apply buildListView_reads.
Qed.

Lemma count_items_in_app (list_id : string) (d d' : database) (it : item_row) :
  items d' = (items d ++ [it])%list -> i_list_id it = list_id ->
  count_items_in list_id d' = S (count_items_in list_id d).
Proof.
  intros H E. unfold count_items_in. rewrite H.
  rewrite filter_app, length_app. cbn. rewrite E, String.eqb_refl. cbn. lia.
Qed.

(** The copy [bookmark_item] makes of the source [src] that
    [findSourceItem] returned, once the viewer is resolved as [v]: the
    destination list, the new item and the new bookmark row. *)
Lemma bookmark_item_copies_source :
  forall (o : oracle) (authContext : AuthContext) (w0 w1 : world) (v : DbUser)
         (sid : string) (vl : option string) (src : SourceItem),
    (forall c, viewerCache w0 = Some c -> has_user_id (u_id c) (db w0) = true) ->
    getViewer authContext o w0 = (Returned (Some v), w1) ->
    findSourceItem sid o w1 = (Returned (Some src), w1) ->
    s_owner_id src <> u_id v ->
    (forall n, (uuids_drawn w1 <= n)%nat -> uuid_unused (uuidv4 o n) (db w1) = true) ->
    let w2 := snd (bookmark_item authContext sid vl o w0) in
    let type := s_list_type src in
    exists (dest : string) (it : item_row) (bm : bookmark_row),
      ((lists (db w2) = lists (db w1) /\
        exists l, In l (lists (db w1)) /\ l_id l = dest /\
                  l_owner_id l = u_id v /\ l_type l = type /\
                  forall l', In l' (lists (db w1)) -> l_owner_id l' = u_id v ->
                             l_type l' = type -> l_created_at l' <= l_created_at l)
       \/
       (count_lists_of_type (u_id v) type (db w1) = 0%nat /\
        exists t, lists (db w2) =
                  (lists (db w1) ++
                   [mkList dest (u_id v) (s_list_title src) type "public" t t])%list)) /\
      (count_lists_of_type (u_id v) type (db w2)
       <= S (count_lists_of_type (u_id v) type (db w1)))%nat /\
      items (db w2) = (items (db w1) ++ [it])%list /\
      i_list_id it = dest /\ i_title it = s_title src /\
      i_note it = s_note src /\ i_url it = s_url src /\
      count_items_in dest (db w2) = S (count_items_in dest (db w1)) /\
      bookmarks (db w2) = (bookmarks (db w1) ++ [bm])%list /\
      b_user_id bm = u_id v /\
      b_source_item_id bm = sid /\
      b_source_list_id bm = s_list_id src /\
      b_source_user_id bm = s_owner_id src /\
      b_created_item_id bm = i_id it.
Proof.
  intros o authContext w0 w1 v sid vl src Hcache Hv Hs Hne Hfresh w2 type.
  pose proof (getViewer_known _ _ _ _ _ Hcache Hv) as Hknown.
  subst w2. rewrite (bookmark_item_foreign _ _ _ _ _ _ vl _ Hv Hs Hne).
  assert (Hsid : s_id src = sid).
  { unfold findSourceItem in Hs. rewrite query_read_run in Hs.
    injection Hs as Hs. now apply first_row_In, select_source_item_In in Hs. }
  destruct (copy_then o w1 (u_id v) src
              (fun targetListId _ =>
                 view <- (if truthy vl
                          then buildListView (u_id v) vl
                          else buildListView (u_id v) (Some targetListId)) ;;
                 ret (buildStructuredResponse
                        (mkPayload view (Some (lastBookmarkItemId sid)))
                        "Item bookmarked.")))
    as [(c & w' & _ & [Hwhy | (n & Hn & Hwhy)])
       | (dest & it & bm & w2 & Hcopied & Hrun)].
  { congruence. }
  { rewrite (Hfresh n Hn) in Hwhy. discriminate. }
  rewrite Hrun.
  match goal with
  | |- context [snd (?m o w2)] =>
      destruct (m o w2) as [r w3] eqn:Ev;
      apply (bookmark_view_reads (u_id v) sid vl dest) in Ev; subst w3
  end.
  cbn [snd].
  destruct Hcopied as (_ & Hlists & Hitems & (ti & Hit) & Hbms & (tb & Hbm)).
  exists dest, it, bm.
  assert (Hdest : i_list_id it = dest) by (rewrite Hit; reflexivity).
  split; [|split].
  - destruct Hlists as [(Hl & rest & Hsel) | (Hsel & t & Hl)].
    + left. split; [exact Hl|].
      now apply select_list_id_by_type_newest in Hsel.
    + right. split; [now apply select_list_id_by_type_none | eauto].
  - unfold count_lists_of_type.
    destruct Hlists as [(Hl & _) | (_ & t & Hl)]; rewrite Hl.
    + lia.
    + rewrite filter_app, length_app. cbn [filter l_owner_id l_type].
      destruct (_ && _); cbn; lia.
  - split; [exact Hitems|]. split; [exact Hdest|].
    rewrite Hit at 1 2 3. cbn [i_title i_note i_url]. repeat split.
    + now apply count_items_in_app with (it := it).
    + exact Hbms.
    + now rewrite Hbm.
    + now rewrite Hbm.
    + now rewrite Hbm.
    + now rewrite Hbm.
    + now rewrite Hbm.
Qed.

Lemma sample_uuids_unused (n : nat) :
  uuid_unused (uuidv4 sample_oracle n) sample_db = true.
Proof. reflexivity. Qed.

(** C10: the copy a successful bookmark creates is always "active" with
    [order_index] 0.  Whenever [bookmark_item] on another user's item
    returns, exactly one item was added; it carries the source's title, is
    the item the new bookmark row points to, and has status [active] and
    [order_index] 0.  Nothing is assumed about the source item's own status:
    a "done" source gives an "active" copy. *)
Theorem bookmark_copy_is_active :
  forall (o : oracle) (authContext : AuthContext) (w0 w1 w2 : world) (v : DbUser)
         (sid : string) (vl : option string) (src : SourceItem)
         (result : CallToolResult),
    getViewer authContext o w0 = (Returned (Some v), w1) ->
    findSourceItem sid o w1 = (Returned (Some src), w1) ->
    s_owner_id src <> u_id v ->
    bookmark_item authContext sid vl o w0 = (Returned result, w2) ->
    exists (it : item_row) (bm : bookmark_row),
      items (db w2) = (items (db w1) ++ [it])%list /\
      bookmarks (db w2) = (bookmarks (db w1) ++ [bm])%list /\
      b_created_item_id bm = i_id it /\
      i_title it = s_title src /\
      i_status it = active /\
      i_order_index it = 0 /\
      (forall source_row, In source_row (items (db w1)) -> i_id source_row = sid ->
                          i_status source_row = done -> i_status it = active).
Proof.
  intros o authContext w0 w1 w2 v sid vl src result Hv Hs Hne Hrun.
  rewrite (bookmark_item_foreign _ _ _ _ _ _ vl _ Hv Hs Hne) in Hrun.
  destruct (copy_then o w1 (u_id v) src
              (fun targetListId _ =>
                 view <- (if truthy vl
                          then buildListView (u_id v) vl
                          else buildListView (u_id v) (Some targetListId)) ;;
                 ret (buildStructuredResponse
                        (mkPayload view (Some (lastBookmarkItemId sid)))
                        "Item bookmarked.")))
    as [(c & w' & Hthrown & _) | (dest & it & bm & w3 & Hcopied & Hrest)].
  { rewrite Hthrown in Hrun. discriminate. }
  rewrite Hrest in Hrun.
  apply (bookmark_view_reads (u_id v) sid vl dest) in Hrun. subst w3.
  destruct Hcopied as (_ & _ & Hitems & (ti & Hit) & Hbms & (tb & Hbm)).
  exists it, bm. split; [exact Hitems|]. split; [exact Hbms|].
  split; [now rewrite Hbm|].
  rewrite Hit. cbn. now repeat split.
Qed.

(** The C10 theorem at a concrete call: Alice's "Dune" is done; Bob's copy
    of it is active. *)
Lemma bookmark_copy_is_active_witness :
  i_status dune = done /\
  exists result w2 it,
    bookmark_item bob_auth dune_id None sample_oracle sample_world
    = (Returned result, w2) /\
    items (db w2) = [dune; emma; it] /\
    i_status it = active /\ i_order_index it = 0.
Proof.
  split; [reflexivity|].
  destruct (bookmark_item bob_auth dune_id None sample_oracle sample_world)
    as [[result|e] w2] eqn:Hrun; [|vm_compute in Hrun; discriminate].
  assert (Hv : getViewer bob_auth sample_oracle sample_world
               = (Returned (Some bob), mkWorld sample_db [] 0 0 (Some bob)))
    by reflexivity.
  assert (Hne : s_owner_id dune_source <> u_id bob)
    by discriminate.
  destruct (bookmark_copy_is_active sample_oracle bob_auth sample_world _ w2 bob
              dune_id None _ result Hv eq_refl Hne Hrun)
    as (it & bm & Hi & _ & _ & _ & Hst & Hord & _).
  exists result, w2, it. repeat split; assumption.
Defined.

(** ** When a view can be assembled *)











(** ** LIKE on a query without wildcards is substring search *)

Lemma like_percent (t : string) : like "%" t = true.
Proof. induction t as [|c t IH]; [reflexivity | exact IH]. Qed.

Lemma like_plain_cons (c : ascii) (p t : string) :
  plain_char c = true ->
  like (String c p) t =
  match t with
  | EmptyString => false
  | String d t' => Ascii.eqb c d && like p t'
  end.
Proof.
  destruct c as [b0 b1 b2 b3 b4 b5 b6 b7].
  destruct b0, b1, b2, b3, b4, b5, b6, b7; intros H;
    try discriminate H; reflexivity.
Qed.

Lemma like_plain_prefix (q t : string) :
  plain q = true -> like (q ++ "%") t = String.prefix q t.
Proof.
  revert t. induction q as [|c q IH]; intros t Hp.
  - cbn [append]. rewrite like_percent. now destruct t.
  - cbn [plain] in Hp. apply andb_true_iff in Hp as [Hc Hq].
    cbn [append]. rewrite (like_plain_cons _ _ _ Hc).
    destruct t as [|d t]; [reflexivity|].
    cbn [String.prefix]. rewrite (IH _ Hq).
    destruct (ascii_dec c d) as [->|Hne].
    + now rewrite Ascii.eqb_refl.
    + apply Ascii.eqb_neq in Hne. now rewrite Hne.
Qed.

Lemma like_plain_contains (q t : string) :
  plain q = true -> like ("%" ++ q ++ "%") t = contains q t.
Proof.
  intros Hp. induction t as [|d t IH].
  - cbn [append like contains]. now rewrite (like_plain_prefix _ _ Hp).
  - change (like ("%" ++ q ++ "%") (String d t))
      with (like (q ++ "%") (String d t) || like ("%" ++ q ++ "%") t).
    cbn [contains]. now rewrite IH, (like_plain_prefix _ _ Hp).
Qed.

(** For a query whose lower-cased form has no [%], [_] or backslash, the
    search is the substring search of the contract: the matching users,
    newest first, at most twenty. *)
Lemma searchUsersByQuery_plain (o : oracle) (w : world) (queryText : string) :
  plain (toLowerCase queryText) = true ->
  searchUsersByQuery queryText o w =
  (Returned (limit 20 (order_by_desc u_created_at
                         (filter (user_contains queryText) (users (db w))))), w).
Proof.
  intros Hp. unfold searchUsersByQuery. rewrite query_read_run.
  unfold select_users_like. do 4 f_equal. apply filter_ext. intros u.
  unfold user_matches, user_contains.
  rewrite (like_plain_contains _ _ Hp).
  destruct (u_display_name u); [|reflexivity].
  now rewrite (like_plain_contains _ _ Hp).
Qed.

(** ** Two places where the handlers part from their contract *)

(** C9: [set_item_status] and [update_item] on an item id that the (owned,
    existing) list does not contain.  The claim asks for a not-found failure;
    the handlers send the [update], which matches no row, and report success.
    Here Alice addresses her empty list of films with an id no item has. *)
Theorem missing_item_reported_as_success :
  let missing := unknown_id in
  first_row (select_list_by_id films_id sample_db)
  = Some (mkListRecord films_id alice_id "Films" "film" "public") /\
  existsb (fun i => i_id i =? missing)%string (items sample_db) = false /\
  (exists vw w,
      set_item_status alice_auth films_id missing done sample_oracle sample_world
      = (Returned (buildStructuredResponse
                     (mkPayload vw (Some (lastMoved missing done))) "Item moved."), w) /\
      items (db w) = items sample_db /\
      log w = [UpdateItemStatus done missing films_id]) /\
  (exists vw w,
      update_item alice_auth films_id missing (Some "Alien") None None
        sample_oracle sample_world
      = (Returned (buildStructuredResponse (mkPayload vw None) "Item updated."), w) /\
      items (db w) = items sample_db /\
      log w = [UpdateItem [SetTitle "Alien"] missing films_id]).
Proof.
  cbv zeta. split; [reflexivity|]. split; [reflexivity|].
  split; eexists _, _; (split; [vm_compute; reflexivity|]); split; reflexivity.
Qed.

(** C8: user search with LIKE wildcards in the query.  The claim asks for
    the users whose handle or display name contains the query; the pattern
    is built from the raw query, so [_] and [%] in it act as wildcards.  The
    query ["b_b"] is contained in neither "bob" nor "alice", yet the search
    returns Bob; the query ["%"] returns every user. *)
Theorem search_treats_query_as_pattern :
  contains (toLowerCase "b_b") (toLowerCase (u_handle bob)) = false /\
  option_map (fun n => contains (toLowerCase "b_b") (toLowerCase n))
    (u_display_name bob) = Some false /\
  (exists vw w,
      search_users alice_auth "b_b" sample_oracle sample_world
      = (Returned (buildStructuredResponse (mkPayload vw None) "Search results."), w) /\
      v_searchResults vw = Some [user_summary bob]) /\
  (exists vw w,
      search_users alice_auth "%" sample_oracle sample_world
      = (Returned (buildStructuredResponse (mkPayload vw None) "Search results."), w) /\
      v_searchResults vw = Some [user_summary bob; user_summary alice]).
Proof.
  split; [reflexivity|]. split; [reflexivity|].
  split; eexists _, _; (split; [vm_compute; reflexivity | reflexivity]).
Qed.

(** * Further properties *)

(** ** Missing lists and sources *)

Lemma no_list_no_record (id : string) (d : database) :
  has_list_id id d = false -> select_list_by_id id d = [].
Proof.
  intros H. unfold select_list_by_id.
  destruct (filter (fun l => l_id l =? id)%string (lists d)) as [|l rest] eqn:E;
    [reflexivity|].
  assert (Hin : In l (filter (fun l => l_id l =? id)%string (lists d)))
    by (rewrite E; now left).
  apply filter_In in Hin as [Hin Hid]. apply String.eqb_eq in Hid.
  assert (Hhas : has_list_id id d = true) by (apply has_list_id_In; eauto).
  congruence.
Qed.

Lemma no_item_no_source (id : string) (d : database) :
  (forall i, In i (items d) -> i_id i <> id) -> select_source_item id d = [].
Proof.
  intros H. destruct (select_source_item id d) as [|src rest] eqn:E; [reflexivity|].
  assert (Hin : In src (select_source_item id d)) by (rewrite E; now left).
  apply select_source_item_In in Hin as (_ & (i & Hi & Hid & _) & _).
  now destruct (H i Hi).
Qed.

(** What the handlers do with an id that no row has.  Whatever viewer
    resolution does first (it touches [users] only), a [list_id] that no row
    of [lists] has before the call makes [add_item], [update_item] and
    [set_item_status] throw "List not found.", and a [source_item_id] that no
    row of [items] has makes [bookmark_item] throw "Source item not found.";
    if viewer resolution failed, they fail with its error instead.  They stop
    in the world viewer resolution left: [lists], [items] and [bookmarks] are
    those from before the call. *)
Theorem missing_target_fails :
  forall (o : oracle) (authContext : AuthContext) (w0 w1 : world)
         (viewer : outcome (option DbUser)),
    getViewer authContext o w0 = (viewer, w1) ->
    (forall list_id,
        has_list_id list_id (db w0) = false ->
        mutations_end authContext list_id o w0
          (stops_with "List not found." viewer w1)) /\
    (forall sid vl,
        (forall i, In i (items (db w0)) -> i_id i <> sid) ->
        bookmark_item authContext sid vl o w0
        = stops_with "Source item not found." viewer w1) /\
    lists (db w1) = lists (db w0) /\
    items (db w1) = items (db w0) /\
    bookmarks (db w1) = bookmarks (db w0).
Proof.
  intros o authContext w0 w1 viewer Hv.
  destruct (getViewer_users_only authContext _ _ _ _ Hv) as (Hls & His & Hbs & _).
  split; [|split; [|now repeat split]].
  - intros list_id Hno.
    assert (Hl : getListById list_id o w1 = (Returned None, w1)).
    { unfold getListById. rewrite query_read_run.
      rewrite no_list_no_record; [reflexivity|].
      unfold has_list_id in *. now rewrite Hls. }
    destruct viewer as [viewer|e]; cbn [stops_with].
    + split; [|split]; intros;
        unfold add_item, update_item, set_item_status;
        rewrite (bind_Returned _ _ _ _ _ _ Hv), (bind_Returned _ _ _ _ _ _ Hl);
        reflexivity.
    + split; [|split]; intros;
        unfold add_item, update_item, set_item_status; now apply bind_Thrown.
  - intros sid vl Hno.
    destruct viewer as [viewer|e]; cbn [stops_with].
    + destruct (getViewer_returns_some _ _ _ _ _ Hv) as (v & ->).
      unfold bookmark_item. rewrite (bind_Returned _ _ _ _ _ _ Hv).
      erewrite bind_Returned by reflexivity.
      unfold findSourceItem. erewrite bind_Returned by apply query_read_run.
      rewrite no_item_no_source; [reflexivity|]. now rewrite His.
    + unfold bookmark_item. now apply bind_Thrown.
Qed.

Lemma missing_target_fails_witness :
  has_list_id unknown_id (db sample_world) = false /\
  set_item_status bob_auth unknown_id dune_id done sample_oracle sample_world
  = (Thrown (Error "List not found."), mkWorld sample_db [] 0 0 (Some bob)) /\
  bookmark_item bob_auth unknown_id None sample_oracle sample_world
  = (Thrown (Error "Source item not found."), mkWorld sample_db [] 0 0 (Some bob)).
Proof.
  assert (Hv : getViewer bob_auth sample_oracle sample_world
               = (Returned (Some bob), mkWorld sample_db [] 0 0 (Some bob)))
    by reflexivity.
  destruct (missing_target_fails sample_oracle bob_auth sample_world _ _ Hv)
    as (Hlist & Hsrc & _).
  split; [reflexivity|]. split.
  - exact (proj2 (proj2 (Hlist unknown_id eq_refl)) dune_id done).
  - apply (Hsrc unknown_id None).
    intros i [<-|[<-|[]]]; discriminate.
Defined.

(** ** The two item updates *)

Lemma with_items_same (d : database) : with_items (items d) d = d.
Proof. now destruct d. Qed.

Lemma map_fixed {A : Type} (f : A -> A) (l : list A) :
  (forall x, In x l -> f x = x) -> map f l = l.
Proof.
  induction l as [|x l IH]; intros H; [reflexivity|].
  cbn. rewrite (H x (or_introl eq_refl)), IH; [reflexivity|].
  intros y Hy. apply H. now right.
Qed.

Lemma updateItem_run (o : oracle) (w : world) (itemId listId : string)
  (title : option string) (note url : option (option string)) :
  updateItem itemId listId title note url o w =
  match updateItem_updates title note url with
  | [] => (Returned tt, w)
  | sets =>
      (Returned tt,
       wrote (UpdateItem sets itemId listId)
         (with_items
            (map (fun i => if addressed itemId listId i
                           then touch_item (now o (length (log w)))
                                  (fold_left assign_item sets i)
                           else i) (items (db w))) (db w)) w)
  end.
Proof.
  unfold updateItem. now destruct (updateItem_updates title note url).
Qed.

(** Both item updates are scoped by item id and list id together: when no
    item has that id in that list (the id is unknown, or it is an item of
    another list), [setItemStatus] and [updateItem] leave every table exactly
    as before; [setItemStatus] returns normally, and so does [updateItem]
    when the text it is given holds no byte 0, which the database would
    refuse. *)
Theorem item_update_elsewhere_changes_nothing :
  forall (o : oracle) (w : world) (itemId listId : string),
    (forall i, In i (items (db w)) -> i_id i = itemId -> i_list_id i <> listId) ->
    (forall status,
        fst (setItemStatus itemId listId status o w) = Returned tt /\
        db (snd (setItemStatus itemId listId status o w)) = db w) /\
    (forall title note url,
        db (snd (updateItem itemId listId title note url o w)) = db w /\
        (text_without_nul title note url = true ->
         fst (updateItem itemId listId title note url o w) = Returned tt)).
Proof.
  intros o w itemId listId Hmiss.
  assert (Hno : forall i, In i (items (db w)) -> addressed itemId listId i = false).
  { intros i Hi. unfold addressed.
    destruct (String.eqb_spec (i_id i) itemId) as [E|]; [|reflexivity].
    destruct (String.eqb_spec (i_list_id i) listId) as [E'|]; [|reflexivity].
    now destruct (Hmiss i Hi E). }
  split.
  - intros status. unfold setItemStatus.
    rewrite query_write_UpdateItemStatus. cbn [fst snd db]. split; [reflexivity|].
    rewrite map_fixed; [apply with_items_same|].
    intros i Hi. apply Hno in Hi. unfold addressed in Hi. now rewrite Hi.
  - intros title note url. rewrite updateItem_run.
    destruct (updateItem_updates title note url) as [|s sets]; [now split|].
    cbn [fst snd db wrote]. split; [|reflexivity].
    rewrite map_fixed; [apply with_items_same|].
    intros i Hi. now rewrite (Hno i Hi).
Qed.

Lemma item_update_elsewhere_changes_nothing_witness :
  i_list_id dune <> films_id /\
  db (snd (setItemStatus dune_id films_id active sample_oracle sample_world))
  = sample_db /\
  updateItem dune_id films_id (Some "Arrakis") None None sample_oracle sample_world
  = (Returned tt,
     mkWorld sample_db [UpdateItem [SetTitle "Arrakis"] dune_id films_id] 0 0 None).
Proof.
  assert (Hmiss : forall i, In i (items (db sample_world)) -> i_id i = dune_id ->
                            i_list_id i <> films_id)
    by (intros i [<-|[<-|[]]] E; discriminate).
  destruct (item_update_elsewhere_changes_nothing sample_oracle sample_world
              dune_id films_id Hmiss) as [Hstatus Hupdate].
  split; [discriminate|]. split; [exact (proj2 (Hstatus active))|].
  destruct (Hupdate (Some "Arrakis") None None) as [Hdb Hret].
  specialize (Hret eq_refl).
  destruct (updateItem dune_id films_id (Some "Arrakis") None None sample_oracle
              sample_world) as [r w'] eqn:Hrun.
  cbn [fst snd] in Hdb, Hret. subst r.
  vm_compute in Hrun. now injection Hrun as <-.
Defined.

Lemma Forall2_map_self {A : Type} (P : A -> A -> Prop) (f : A -> A) (l : list A) :
  (forall x, P x (f x)) -> Forall2 P l (map f l).
Proof. intros H. induction l; cbn; constructor; auto. Qed.

Lemma updateItem_updates_fields (title : option string)
  (note url : option (option string)) (i : item_row) :
  let i' := fold_left assign_item (updateItem_updates title note url) i in
  i_id i' = i_id i /\ i_list_id i' = i_list_id i /\ i_status i' = i_status i /\
  i_order_index i' = i_order_index i /\ i_created_at i' = i_created_at i /\
  i_title i' = supplied title (i_title i) /\
  i_note i' = supplied note (i_note i) /\
  i_url i' = supplied url (i_url i).
Proof. destruct title, note, url; cbn; now repeat split. Qed.

(** [updateItem] is a partial update.  Whenever it returns: with no field
    supplied it has sent nothing and the world is untouched; otherwise it
    has touched the [items] table only; every row keeps its id, list, status,
    order index and creation time; rows it does not address are unchanged;
    and in an addressed row exactly the supplied fields among title, note and
    url are replaced (a supplied [null] clears the note or url). *)
Theorem updateItem_writes_supplied_fields :
  forall (o : oracle) (w : world) (itemId listId : string)
         (title : option string) (note url : option (option string))
         (w' : world),
    updateItem itemId listId title note url o w = (Returned tt, w') ->
    (title = None -> note = None -> url = None -> w' = w) /\
    users (db w') = users (db w) /\
    lists (db w') = lists (db w) /\
    bookmarks (db w') = bookmarks (db w) /\
    Forall2
      (fun i i' =>
         i_id i' = i_id i /\ i_list_id i' = i_list_id i /\
         i_status i' = i_status i /\ i_order_index i' = i_order_index i /\
         i_created_at i' = i_created_at i /\
         if addressed itemId listId i
         then i_title i' = supplied title (i_title i) /\
              i_note i' = supplied note (i_note i) /\
              i_url i' = supplied url (i_url i)
         else i' = i)
      (items (db w)) (items (db w')).
Proof.
  intros o w itemId listId title note url w' Hrun.
  replace w' with (snd (updateItem itemId listId title note url o w))
    by (now rewrite Hrun).
  clear Hrun w'.
  rewrite updateItem_run. split.
  { now intros -> -> ->. }
  pose proof (updateItem_updates_fields title note url) as Hf. cbv zeta in Hf.
  destruct (updateItem_updates title note url) as [|s sets] eqn:E.
  - cbn [snd]. repeat split.
    rewrite <- (map_id (items (db w))) at 2. apply Forall2_map_self.
    intros i. destruct (Hf i) as (_ & _ & _ & _ & _ & Ht & Hn & Hu).
    cbn in Ht, Hn, Hu. repeat split.
    destruct (addressed itemId listId i); [now repeat split | reflexivity].
  - cbn [snd db wrote with_items users lists bookmarks items]. repeat split.
    apply Forall2_map_self. intros i.
    destruct (addressed itemId listId i); [|now repeat split].
    destruct (Hf i) as (H1 & H2 & H3 & H4 & H5 & Ht & Hn & Hu).
    cbn [touch_item i_id i_list_id i_status i_order_index i_created_at
           i_title i_note i_url].
    now repeat split.
Qed.

Lemma updateItem_writes_supplied_fields_witness :
  exists w',
    updateItem dune_id books_id (Some "Arrakis") None (Some None)
      sample_oracle sample_world = (Returned tt, w') /\
    Forall2 (fun i i' => i_id i' = i_id i /\ i_note i' = i_note i)
      (items sample_db) (items (db w')) /\
    option_map i_title (hd_error (items (db w'))) = Some "Arrakis".
Proof.
  destruct (updateItem dune_id books_id (Some "Arrakis") None (Some None)
              sample_oracle sample_world) as [[[]|e] w'] eqn:Hrun;
    [|vm_compute in Hrun; discriminate].
  exists w'. split; [reflexivity|].
  destruct (updateItem_writes_supplied_fields _ _ _ _ _ _ _ _ Hrun)
    as (_ & _ & _ & _ & Hrows).
  split.
  - eapply Forall2_impl; [|exact Hrows].
    intros i i' (Hid & _ & _ & _ & _ & H). split; [exact Hid|].
    destruct (addressed dune_id books_id i); [tauto | now subst].
  - vm_compute in Hrun. now injection Hrun as <-.
Defined.

Lemma count_status_total (list_id : string) (its : list item_row) :
  count_status active list_id its + count_status done list_id its
  = Z.of_nat (length (filter (fun i => i_list_id i =? list_id)%string its)).
Proof.
  unfold count_status. induction its as [|i its IH]; [reflexivity|].
  cbn [filter]. destruct (i_list_id i =? list_id)%string; cbn [andb]; [|exact IH].
  destruct (i_status i); cbn [item_status_eqb filter length] in *; lia.
Qed.

(** [setItemStatus] moves the addressed item.  Afterwards the item is
    among the rows [getItemsByList] returns for its list and the new status,
    no row with its id is returned for that list under the other status, and
    every list has as many items (active plus done) as before. *)
Theorem setItemStatus_moves_item :
  forall (o : oracle) (w : world) (itemId listId : string) (status : item_status)
         (i : item_row),
    In i (items (db w)) -> i_id i = itemId -> i_list_id i = listId ->
    let w' := snd (setItemStatus itemId listId status o w) in
    (exists rows, getItemsByList listId status o w' = (Returned rows, w') /\
                  In (item_columns (with_status status i)) rows) /\
    (forall other rows r,
        other <> status ->
        getItemsByList listId other o w' = (Returned rows, w') ->
        In r rows -> ir_id r <> itemId) /\
    (forall l, count_status active l (items (db w'))
               + count_status done l (items (db w'))
               = count_status active l (items (db w))
                 + count_status done l (items (db w))).
Proof.
  intros o w itemId listId status i Hi Hid Hlist w'. subst w'.
  unfold setItemStatus. rewrite query_write_UpdateItemStatus. cbn [snd].
  match goal with
  | |- context [getItemsByList _ _ _ ?w] => set (w' := w)
  end.
  set (upd := fun i0 => if (i_id i0 =? itemId)%string && (i_list_id i0 =? listId)%string
                        then touch_item (now o (length (log w))) (with_status status i0)
                        else i0).
  assert (Hitems : items (db w') = map upd (items (db w))) by reflexivity.
  split; [|split].
  - exists (select_items_by_list listId status (db w')). split; [reflexivity|].
    unfold select_items_by_list. apply order_by_desc_In, in_map_iff.
    exists (upd i). assert (Hu : upd i = touch_item (now o (length (log w)))
                                             (with_status status i)).
    { unfold upd. now rewrite Hid, Hlist, !String.eqb_refl. }
    split; [now rewrite Hu|].
    apply filter_In. split; [rewrite Hitems; now apply in_map|].
    rewrite Hu. cbn. rewrite Hlist, String.eqb_refl.
    now destruct status.
  - intros other rows r Hother [= <-] Hr.
    unfold select_items_by_list in Hr.
    apply order_by_desc_In, in_map_iff in Hr as (j & <- & Hj).
    apply filter_In in Hj as [Hj Hp].
    change (In j (map upd (items (db w)))) in Hj.
    apply in_map_iff in Hj as (j0 & <- & _).
    apply andb_true_iff in Hp as [Hl Hs].
    apply String.eqb_eq in Hl. apply item_status_eqb_eq in Hs.
    cbn [item_columns ir_id]. intros Eid.
    unfold upd in *.
    destruct ((i_id j0 =? itemId)%string && (i_list_id j0 =? listId)%string) eqn:Ehit.
    + cbn in Hs. congruence.
    + apply andb_false_iff in Ehit as [E|E]; apply String.eqb_neq in E; congruence.
  - intros l. rewrite !count_status_total.
    change (items (db w')) with (map upd (items (db w))).
    rewrite filter_map_comm, length_map. do 2 f_equal. apply filter_ext.
    intros j. unfold upd.
    now destruct ((i_id j =? itemId)%string && (i_list_id j =? listId)%string).
Qed.

Lemma setItemStatus_moves_item_witness :
  In dune (items sample_db) /\
  In (item_columns (with_status active dune))
    (select_items_by_list books_id active
       (db (snd (setItemStatus dune_id books_id active sample_oracle sample_world)))).
Proof.
  assert (Hin : In dune (items (db sample_world))) by (now left).
  split; [exact Hin|].
  destruct (setItemStatus_moves_item sample_oracle sample_world dune_id books_id
              active dune Hin eq_refl eq_refl) as ((rows & Hrun & Hrow) & _).
  now injection Hrun as <-.
Defined.

(** [getOrCreateListByType] settles on one list: once it has returned an
    id, calling it again for the same owner and type returns the same id,
    whatever fallback title is given, and sends nothing. *)
Theorem getOrCreateListByType_settles :
  forall (o : oracle) (w w1 : world) (ownerId type title id : string),
    getOrCreateListByType ownerId type title o w = (Returned id, w1) ->
    forall title',
      getOrCreateListByType ownerId type title' o w1 = (Returned id, w1).
Proof.
  intros o w w1 ownerId type title id H title'.
  rewrite getOrCreateListByType_run in H. rewrite getOrCreateListByType_run.
  destruct (select_list_id_by_type ownerId type (db w)) as [|id0 rest] eqn:Esel.
  - pose proof (createList_run o w ownerId title type) as Hnew. cbv zeta in Hnew.
    destruct (has_list_id _ _ || negb _).
    + destruct Hnew as (c & w' & Hnew). congruence.
    + rewrite Hnew in H. injection H as <- <-.
      unfold select_list_id_by_type in *. cbn [db wrote with_lists lists].
      rewrite filter_app. unfold limit in Esel.
      destruct (order_by_desc l_created_at
                  (filter (fun l => (l_owner_id l =? ownerId)%string
                                    && (l_type l =? type)%string) (lists (db w))))
        as [|l ls] eqn:Eo; [|discriminate].
      apply order_by_desc_nil in Eo. rewrite Eo.
      cbn. now rewrite !String.eqb_refl.
  - injection H as <- <-. now rewrite Esel.
Qed.

Lemma getOrCreateListByType_settles_witness :
  exists id w1,
    getOrCreateListByType bob_id "book" "Books" sample_oracle sample_world
    = (Returned id, w1) /\
    getOrCreateListByType bob_id "book" "Reading" sample_oracle w1 = (Returned id, w1).
Proof.
  eexists _, _. split; [reflexivity|].
  exact (getOrCreateListByType_settles sample_oracle sample_world _ bob_id "book"
           "Books" _ eq_refl "Reading").
Defined.

(** ** Nothing is ever deleted *)

Lemma extends_refl {A : Type} (l : list A) : extends l l.
Proof. exists []. now rewrite app_nil_r. Qed.

Lemma extends_trans {A : Type} (l1 l2 l3 : list A) :
  extends l1 l2 -> extends l2 l3 -> extends l1 l3.
Proof. intros [a ->] [b ->]. exists (a ++ b)%list. now rewrite app_assoc. Qed.

Lemma extends_app {A : Type} (l more : list A) : extends l (l ++ more).
Proof. now exists more. Qed.

Lemma only_grows_refl (w : world) : only_grows w w.
Proof. repeat split; apply extends_refl. Qed.

Lemma only_grows_trans (w1 w2 w3 : world) :
  only_grows w1 w2 -> only_grows w2 w3 -> only_grows w1 w3.
Proof.
  intros (A1 & A2 & A3 & A4 & A5) (B1 & B2 & B3 & B4 & B5).
  repeat split; eapply extends_trans; eassumption.
Qed.

Lemma only_grows_same_tables (w w' : world) :
  db w' = db w -> log w' = log w -> only_grows w w'.
Proof.
  intros Hd Hl. unfold only_grows. rewrite Hd, Hl. repeat split; apply extends_refl.
Qed.

Lemma assign_items_identity (sets : list item_assignment) (i : item_row) :
  item_identity (fold_left assign_item sets i) = item_identity i.
Proof.
  revert i. induction sets as [|s sets IH]; intros i; [reflexivity|].
  cbn [fold_left]. rewrite IH. now destruct s.
Qed.

Lemma assign_users_identity (sets : list user_assignment) (u : DbUser) :
  user_identity (fold_left assign_user sets u) = user_identity u.
Proof.
  unfold user_identity.
  now destruct (assign_users_keep sets u) as (-> & -> & _ & ->).
Qed.

Lemma execute_only_grows (t : Z) (s : statement) (d d' : database) :
  execute t s d = Accepted d' ->
  extends (lists d) (lists d') /\
  extends (bookmarks d) (bookmarks d') /\
  extends (map item_identity (items d)) (map item_identity (items d')) /\
  extends (map user_identity (users d)) (map user_identity (users d')).
Proof.
  destruct s; cbn [execute]; intros H;
    repeat match type of H with
           | (if ?c then _ else _) = _ => destruct c; try discriminate
           end;
    injection H as <-; cbn [lists bookmarks items users with_users with_lists
                              with_items with_bookmarks];
    repeat split;
    try apply extends_refl; try apply extends_app;
    try (rewrite map_app; apply extends_app).
  - unfold update_users. rewrite map_map.
    erewrite map_ext; [apply extends_refl|].
    intros u. cbv beta. destruct (u_id u =? id)%string; [|reflexivity].
    symmetry. apply assign_users_identity.
  - rewrite map_map. erewrite map_ext; [apply extends_refl|].
    intros i. cbv beta.
    destruct ((i_id i =? id)%string && (i_list_id i =? list_id)%string);
      [|reflexivity].
    symmetry. exact (assign_items_identity sets i).
  - rewrite map_map. erewrite map_ext; [apply extends_refl|].
    intros i. cbv beta.
    now destruct ((i_id i =? id)%string && (i_list_id i =? list_id)%string).
Qed.

Lemma query_write_only_grows (s : statement) : respects only_grows (query_write s).
Proof.
  intros o w r w'. unfold query_write.
  destruct (execute (now o (length (log w))) s (db w)) as [d|c] eqn:E;
    intros [= _ <-]; unfold only_grows; cbn [db log].
  - destruct (execute_only_grows _ _ _ _ E) as (A & B & C & D).
    repeat split; try assumption. apply extends_app.
  - repeat split; try apply extends_refl. apply extends_app.
Qed.

Lemma draw_only_grows :
  respects only_grows uuidv4_call /\ respects only_grows Math_random_call /\
  respects only_grows read_viewerCache /\
  forall v, respects only_grows (write_viewerCache v).
Proof.
  unfold respects. repeat split; intros;
    match goal with
    | H : _ = (_, _) |- _ => injection H as _ <-
    end;
    now apply only_grows_same_tables.
Qed.

(** One step of a frame proof for [only_grows]. *)
Ltac grows_step :=
  cbv zeta;
  first
    [ apply respects_bind; [exact only_grows_trans | | intros ?]
    | apply respects_ret; exact only_grows_refl
    | apply respects_throw; exact only_grows_refl
    | apply respects_query_read; exact only_grows_refl
    | apply respects_read_DEV_TOOLS_ENABLED; exact only_grows_refl
    | apply query_write_only_grows
    | apply (proj1 draw_only_grows)
    | apply (proj1 (proj2 draw_only_grows))
    | apply (proj1 (proj2 (proj2 draw_only_grows)))
    | apply (proj2 (proj2 (proj2 draw_only_grows)))
    | match goal with
      | |- respects _ (match ?x with _ => _ end) => destruct x
      | |- respects _ (if ?b then _ else _) => destruct b
      end ].

Lemma ensureUser_only_grows (a h : string) (dn av : option (option string)) :
  respects only_grows (ensureUser a h dn av).
Proof.
  unfold ensureUser, resolveHandle, getUserByAuthProviderId, getUserById.
  repeat grows_step.
Qed.

Lemma getViewer_only_grows (authContext : AuthContext) :
  respects only_grows (getViewer authContext).
Proof.
  unfold getViewer. repeat (first [apply ensureUser_only_grows | grows_step]).
Qed.

Lemma buildListView_only_grows (viewerId : string) (listId : option string) :
  respects only_grows (buildListView viewerId listId).
Proof.
  unfold buildListView, buildViewerSummary, getListsByOwner, getListSummaryById,
    getItemsByList, getUserById.
  repeat grows_step.
Qed.

(** No tool handler deletes anything or rewrites history: across any run
    of [add_item], [update_item], [set_item_status], [bookmark_item],
    [create_list], [search_users], [list_my_lists], [get_list] or
    [get_user_profile], whether it returns or throws, the lists and the
    bookmarks are at most appended to, every item and every user row stays
    in place with its id, owner key and creation time, and the statements
    sent are only added to. *)
Theorem handlers_only_grow :
  forall authContext : AuthContext,
    (forall list_id title note url,
        respects only_grows (add_item authContext list_id title note url)) /\
    (forall list_id item_id title note url,
        respects only_grows (update_item authContext list_id item_id title note url)) /\
    (forall list_id item_id status,
        respects only_grows (set_item_status authContext list_id item_id status)) /\
    (forall source_item_id viewing_list_id,
        respects only_grows (bookmark_item authContext source_item_id viewing_list_id)) /\
    (forall title type, respects only_grows (create_list authContext title type)) /\
    (forall query, respects only_grows (search_users authContext query)) /\
    respects only_grows (list_my_lists authContext) /\
    (forall list_id, respects only_grows (get_list authContext list_id)) /\
    (forall user_id, respects only_grows (get_user_profile authContext user_id)).
Proof.
  intros authContext.
  repeat match goal with |- _ /\ _ => split end;
    repeat match goal with |- forall _, _ => intros ? end;
    unfold add_item, update_item, set_item_status, bookmark_item, create_list,
      search_users, list_my_lists, get_list, get_user_profile,
      buildSearchView, buildProfileView, buildViewerSummary, viewer_id,
      requireListOwner, getListById, findSourceItem, getOrCreateListByType,
      createList, addItem, createBookmark, updateItem, setItemStatus,
      searchUsersByQuery, getListsByOwner, getListSummaryById, getItemsByList,
      getUserById;
    repeat (first [ apply getViewer_only_grows
                  | apply buildListView_only_grows
                  | grows_step ]).
Qed.

(** ** Bookmarking another user's item *)

Lemma schema_ok_parts (d : database) :
  schema_ok d = true ->
  NoDup (map u_id (users d)) /\
  NoDup (map u_auth_provider_id (users d)) /\
  NoDup (map u_handle (users d)) /\
  NoDup (map l_id (lists d)) /\
  lists_have_owners d = true /\
  NoDup (map i_id (items d)) /\
  (forall i, In i (items d) -> has_list_id (i_list_id i) d = true).
Proof.
  unfold schema_ok. rewrite !andb_true_iff.
  intros ((((((((H1 & H2) & H3) & H4) & H5) & H6) & H7) & _) & _).
  repeat split; try (now apply distinct_NoDup).
  - exact H5.
  - now apply forallb_forall.
Qed.

Lemma same_key_same_row {A : Type} (key : A -> string) (l : list A) (x y : A) :
  NoDup (map key l) -> In x l -> In y l -> key x = key y -> x = y.
Proof.
  induction l as [|z l IH]; intros Hnd Hx Hy E; [contradiction|].
  cbn in Hnd. inversion Hnd as [|? ? Hz Hnd']; subst.
  destruct Hx as [->|Hx], Hy as [->|Hy].
  - reflexivity.
  - exfalso. apply Hz. rewrite E. now apply in_map.
  - exfalso. apply Hz. rewrite <- E. now apply in_map.
  - now apply IH.
Qed.

Lemma has_user_id_grows (w w' : world) (id : string) :
  only_grows w w' ->
  has_user_id id (db w) = true -> has_user_id id (db w') = true.
Proof.
  intros (_ & _ & _ & (more & Hus) & _) H.
  apply has_user_id_In in H as (u & Hu & Hid).
  assert (Hin : In (user_identity u) (map user_identity (users (db w'))))
    by (rewrite Hus; apply in_or_app; left; now apply in_map).
  apply in_map_iff in Hin as (u' & E & Hu').
  apply has_user_id_In. exists u'. split; [exact Hu'|].
  unfold user_identity in E. congruence.
Qed.

(** With item ids and list ids unique, what [findSourceItem] returns for the
    id of the item row [i] is made of [i] and of the row [l] of its list. *)
Lemma findSourceItem_rows (o : oracle) (w : world) (i : item_row) (l : list_row) :
  NoDup (map i_id (items (db w))) ->
  NoDup (map l_id (lists (db w))) ->
  In i (items (db w)) -> In l (lists (db w)) -> l_id l = i_list_id i ->
  has_user_id (l_owner_id l) (db w) = true ->
  exists src,
    findSourceItem (i_id i) o w = (Returned (Some src), w) /\
    s_id src = i_id i /\ s_title src = i_title i /\ s_note src = i_note i /\
    s_url src = i_url i /\ s_list_id src = l_id l /\
    s_list_title src = l_title l /\ s_list_type src = l_type l /\
    s_owner_id src = l_owner_id l.
Proof.
  intros Hni Hnl Hi Hl Hil Hu.
  apply has_user_id_In in Hu as (u & Hu & Huid).
  unfold findSourceItem. rewrite query_read_run.
  destruct (select_source_item (i_id i) (db w)) as [|src rest] eqn:E.
  - exfalso.
    assert (Hin : In (mkSource (i_id i) (i_title i) (i_note i) (i_url i)
                        (i_list_id i) (l_title l) (l_type l) (l_owner_id l)
                        (u_handle u))
                     (select_source_item (i_id i) (db w))).
    { unfold select_source_item. apply in_flat_map. exists i. split.
      - apply filter_In. split; [exact Hi | apply String.eqb_refl].
      - apply in_flat_map. exists l. split.
        + apply filter_In. split; [exact Hl | now apply String.eqb_eq].
        + apply in_map_iff. exists u. split; [reflexivity|].
          apply filter_In. split; [exact Hu | now apply String.eqb_eq]. }
    now rewrite E in Hin.
  - exists src. split; [reflexivity|].
    assert (Hin : In src (select_source_item (i_id i) (db w)))
      by (rewrite E; now left).
    apply select_source_item_In in Hin
      as (Hsid & (i' & Hi' & Eid & Eil & Et & En & Eu)
          & (l' & Hl' & Elid & Eo & Elt & Ety) & _).
    assert (i' = i) by (now apply (same_key_same_row i_id (items (db w)))).
    subst i'.
    assert (l' = l)
      by (apply (same_key_same_row l_id (lists (db w))); auto; congruence).
    subst l'.
    repeat split; congruence.
Qed.

(** C2 (amended): bookmarking another user's item.  The source is the item
    row [i], of the list row [l], in a database that satisfies the schema, on
    a connection whose cached viewer, if any, has a row.  When resolving the
    viewer fails, the call fails with that error and the [lists], [items] and
    [bookmarks] tables are as before.  When it yields a viewer [v] other than
    the owner of [l], and [uuidv4()] draws unused ids: the destination is the
    viewer's most recently created list of the type of [l], left as it is, or,
    when the viewer has none, one new list with the title and type of [l] (so
    the viewer's count of lists of that type grows by at most one); one item
    is added, in the destination list, with the title, note and url of [i]
    (the destination's item count grows by exactly one); and one bookmark row
    is added, naming the viewer, [i], [l], the owner of [l] and the new
    item.  This holds whatever the closing view step does. *)
Theorem bookmark_item_copies :
  forall (o : oracle) (authContext : AuthContext) (w0 : world)
         (vl : option string) (i : item_row) (l : list_row),
    schema_ok (db w0) = true ->
    (forall c, viewerCache w0 = Some c -> has_user_id (u_id c) (db w0) = true) ->
    In i (items (db w0)) ->
    In l (lists (db w0)) -> l_id l = i_list_id i ->
    let run := bookmark_item authContext (i_id i) vl o w0 in
    let w2 := snd run in
    let type := l_type l in
    (forall e w1,
        getViewer authContext o w0 = (Thrown e, w1) ->
        run = (Thrown e, w1) /\
        lists (db w2) = lists (db w0) /\ items (db w2) = items (db w0) /\
        bookmarks (db w2) = bookmarks (db w0)) /\
    (forall v w1,
        getViewer authContext o w0 = (Returned (Some v), w1) ->
        l_owner_id l <> u_id v ->
        (forall n, (uuids_drawn w1 <= n)%nat ->
                   uuid_unused (uuidv4 o n) (db w1) = true) ->
        exists (dest : string) (it : item_row) (bm : bookmark_row),
          ((lists (db w2) = lists (db w0) /\
            exists l', In l' (lists (db w0)) /\ l_id l' = dest /\
                       l_owner_id l' = u_id v /\ l_type l' = type /\
                       forall l'', In l'' (lists (db w0)) ->
                                   l_owner_id l'' = u_id v -> l_type l'' = type ->
                                   l_created_at l'' <= l_created_at l')
           \/
           (count_lists_of_type (u_id v) type (db w0) = 0%nat /\
            exists t, lists (db w2) =
                      (lists (db w0) ++
                       [mkList dest (u_id v) (l_title l) type "public" t t])%list)) /\
          (count_lists_of_type (u_id v) type (db w2)
           <= S (count_lists_of_type (u_id v) type (db w0)))%nat /\
          items (db w2) = (items (db w0) ++ [it])%list /\
          i_list_id it = dest /\ i_title it = i_title i /\
          i_note it = i_note i /\ i_url it = i_url i /\
          count_items_in dest (db w2) = S (count_items_in dest (db w0)) /\
          bookmarks (db w2) = (bookmarks (db w0) ++ [bm])%list /\
          b_user_id bm = u_id v /\
          b_source_item_id bm = i_id i /\
          b_source_list_id bm = l_id l /\
          b_source_user_id bm = l_owner_id l /\
          b_created_item_id bm = i_id it).
Proof.
  intros o authContext w0 vl i l Hok Hcache Hi Hl Hil run w2 type.
  split.
  - intros e w1 Hv. subst w2 run.
    unfold bookmark_item. rewrite (bind_Thrown _ _ _ _ _ _ Hv). cbn [snd].
    split; [reflexivity|].
    now destruct (getViewer_users_only authContext _ _ _ _ Hv) as (H1 & H2 & H3 & _).
  - intros v w1 Hv Hne Hfresh.
    destruct (getViewer_users_only authContext _ _ _ _ Hv) as (Hls & His & Hbs & _).
    pose proof (getViewer_only_grows authContext _ _ _ _ Hv) as Hgrows.
    apply schema_ok_parts in Hok as (_ & _ & _ & Hnl & Hfk & Hni & _).
    assert (Howner : has_user_id (l_owner_id l) (db w1) = true).
    { apply (has_user_id_grows w0 w1 _ Hgrows).
      unfold lists_have_owners in Hfk. rewrite forallb_forall in Hfk.
      now apply Hfk. }
    destruct (findSourceItem_rows o w1 i l) as
      (src & Hs & Esid & Et & En & Eu & Elid & Elt & Ety & Eo);
      try (rewrite ?Hls, ?His; assumption).
    destruct (bookmark_item_copies_source o authContext w0 w1 v (i_id i) vl src
                Hcache Hv Hs) as (dest & it & bm & H);
      [congruence | exact Hfresh |].
    fold run w2 in H. cbv zeta in H.
    unfold count_lists_of_type, count_items_in in *.
    rewrite Hls, His, Hbs, Elt, Ety, Et, En, Eu, Elid, Eo in H.
    exists dest, it, bm. exact H.
Qed.

(** The C2 theorem at a concrete call: Bob, who has no list yet,
    bookmarks Alice's "Dune". *)
Lemma bookmark_item_copies_witness :
  schema_ok sample_db = true /\
  getViewer bob_auth sample_oracle sample_world
  = (Returned (Some bob), mkWorld sample_db [] 0 0 (Some bob)) /\
  l_owner_id books <> u_id bob /\
  exists it bm,
    items (db (snd (bookmark_item bob_auth dune_id None sample_oracle sample_world)))
    = [dune; emma; it] /\
    i_title it = "Dune" /\ i_note it = Some "Herbert" /\
    bookmarks (db (snd (bookmark_item bob_auth dune_id None sample_oracle sample_world)))
    = [bm] /\
    b_user_id bm = bob_id /\ b_source_list_id bm = books_id /\
    b_source_user_id bm = alice_id /\ b_created_item_id bm = i_id it.
Proof.
  assert (Hv : getViewer bob_auth sample_oracle sample_world
               = (Returned (Some bob), mkWorld sample_db [] 0 0 (Some bob)))
    by reflexivity.
  assert (Hne : l_owner_id books <> u_id bob) by discriminate.
  split; [reflexivity|]. split; [exact Hv|]. split; [exact Hne|].
  assert (Hcache : forall c, viewerCache sample_world = Some c ->
                             has_user_id (u_id c) (db sample_world) = true)
    by discriminate.
  assert (Hi : In dune (items (db sample_world))) by (now left).
  assert (Hl : In books (lists (db sample_world))) by (now left).
  destruct (proj2 (bookmark_item_copies sample_oracle bob_auth sample_world None
                     dune books eq_refl Hcache Hi Hl eq_refl)
              bob _ Hv Hne (fun n _ => sample_uuids_unused n))
    as (dest & it & bm & _ & _ & Hitems & _ & Ht & Hn & _ & _ & Hbms & Hu & _ & Hsl
        & Hsu & Hc).
  exists it, bm. repeat split; assumption.
Defined.

(** C2 as stated fails when the viewer cannot be resolved.  Dan's provider
    proposes the handle [abc]; that handle and the suffixed one drawn for him
    are both taken, so the insert of his row is rejected: he asks to bookmark
    Alice's "Dune", which exists and is not his, and the call fails with the
    database error; no list, no item and no bookmark row is added. *)
Lemma bookmark_item_unresolved_viewer :
  schema_ok crowded_db = true /\
  In dune (items crowded_db) /\ In books (lists crowded_db) /\
  l_id books = i_list_id dune /\ l_owner_id books = alice_id /\
  first_row (select_users_by_auth "sub-4" crowded_db) = None /\
  exists w',
    bookmark_item dan_auth dune_id None sample_oracle crowded_world
    = (Thrown (DatabaseError "users_handle_key"), w') /\
    db w' = crowded_db.
Proof.
  split; [reflexivity|]. split; [now left|]. split; [now left|].
  split; [reflexivity|]. split; [reflexivity|]. split; [reflexivity|].
  eexists. split; [vm_compute; reflexivity | reflexivity].
Qed.

(** ** Search and the user list *)

Lemma sorted_app_ordered {A : Type} (R : A -> A -> Prop) (a b : list A) :
  StronglySorted R (a ++ b) -> forall x y, In x a -> In y b -> R x y.
Proof.
  induction a as [|h a IH]; intros S x y Hx Hy; [contradiction|].
  cbn in S. inversion S as [|? ? S' Hall]; subst.
  destruct Hx as [<-|Hx].
  - rewrite Forall_forall in Hall. apply Hall, in_or_app. now right.
  - now apply IH.
Qed.

Lemma sorted_app_l {A : Type} (R : A -> A -> Prop) (a b : list A) :
  StronglySorted R (a ++ b) -> StronglySorted R a.
Proof.
  induction a as [|h a IH]; intros S; [constructor|].
  cbn in S. inversion S as [|? ? S' Hall]; subst. constructor; [auto|].
  rewrite Forall_forall in *. intros x Hx. apply Hall, in_or_app. now left.
Qed.

(** [searchUsersByQuery] returns the newest twenty matches.  Its result
    has at most twenty rows, ordered by [created_at] descending, each a user
    row that satisfies the LIKE condition; and a user that satisfies it is
    either among them or is outranked: twenty rows were returned and none of
    them is older than that user.  [buildSearchView] puts exactly these rows
    in [searchResults], and none at all, without querying, for the empty
    query. *)
Theorem searchUsersByQuery_newest_twenty :
  forall (o : oracle) (w : world) (queryText : string),
    let condition := user_matches ("%" ++ toLowerCase queryText ++ "%") in
    exists rows : list DbUser,
      searchUsersByQuery queryText o w = (Returned rows, w) /\
      (length rows <= 20)%nat /\
      StronglySorted (newest_first u_created_at) rows /\
      (forall u, In u rows -> In u (users (db w)) /\ condition u = true) /\
      (forall u, In u (users (db w)) -> condition u = true ->
                 In u rows \/
                 (length rows = 20%nat /\
                  forall r, In r rows -> u_created_at u <= u_created_at r)) /\
      (forall viewerId vw w',
          buildSearchView viewerId queryText o w = (Returned vw, w') ->
          w' = w /\ v_mode vw = "search" /\
          v_searchResults vw =
          Some (match queryText with
                | EmptyString => []
                | _ => map user_summary rows
                end)).
Proof.
  intros o w queryText condition.
  set (sorted := order_by_desc u_created_at (filter condition (users (db w)))).
  exists (limit 20 sorted).
  assert (Hsorted : StronglySorted (newest_first u_created_at) sorted)
    by apply order_by_desc_sorted.
  assert (Hsplit : sorted = (limit 20 sorted ++ skipn 20 sorted)%list)
    by (symmetry; apply firstn_skipn).
  split; [reflexivity|]. split; [apply firstn_le_length|]. split.
  { rewrite Hsplit in Hsorted. now apply sorted_app_l in Hsorted. }
  split.
  { intros u Hu.
    assert (Hin : In u sorted) by (rewrite Hsplit; apply in_or_app; now left).
    apply order_by_desc_In in Hin. now apply filter_In in Hin. }
  split.
  { intros u Hu Hc.
    assert (Hin : In u sorted) by (apply order_by_desc_In, filter_In; now split).
    rewrite Hsplit in Hin. apply in_app_or in Hin as [Hin|Hin]; [now left|].
    right. split.
    - unfold limit. rewrite length_firstn.
      destruct (Nat.le_gt_cases 20 (length sorted)) as [Hle|Hlt]; [lia|].
      rewrite skipn_all2 in Hin by lia. contradiction.
    - intros r Hr. rewrite Hsplit in Hsorted.
      exact (sorted_app_ordered _ _ _ Hsorted r u Hr Hin). }
  intros viewerId vw w' H. unfold buildSearchView in H.
  apply bind_Returned_inv in H as (viewer & w1 & Hv & H).
  apply buildViewerSummary_reads in Hv. subst w1.
  apply bind_Returned_inv in H as (ls & w1 & [= _ <-] & H).
  apply bind_Returned_inv in H as (results & w1 & Hres & H).
  apply bind_Returned_inv in H as (dev & w2 & [= _ <-] & H).
  injection H as <- <-. cbn [v_mode v_searchResults].
  destruct queryText as [|c q].
  - now injection Hres as <- <-.
  - now injection Hres as <- <-.
Qed.

(** [listUserSummaries] returns every user row exactly once, newest
    account first, and changes nothing. *)
Theorem listUserSummaries_newest_first :
  forall (o : oracle) (w : world),
  exists rows : list DbUser,
    listUserSummaries o w = (Returned rows, w) /\
    Permutation rows (users (db w)) /\
    StronglySorted (newest_first u_created_at) rows.
Proof.
  intros o w. exists (order_by_desc u_created_at (users (db w))).
  split; [reflexivity|]. split.
  - apply order_by_desc_perm.
  - apply order_by_desc_sorted.
Qed.

(** ** What a list view holds *)

Lemma select_summary_by_id_In (id : string) (d : database) (s : ListSummary) :
  In s (select_summary_by_id id d) ->
  ls_id s = id /\
  ls_active_count s = count_status active id (items d) /\
  ls_done_count s = count_status done id (items d) /\
  exists l u, In l (lists d) /\ In u (users d) /\ l_id l = id /\
              u_id u = l_owner_id l /\ s = summary_row d (l, u).
Proof.
  unfold select_summary_by_id, lists_join_users. intros H.
  apply in_map_iff in H as ([l u] & <- & H).
  apply in_flat_map in H as (l' & Hl & H). apply filter_In in Hl as [Hl E].
  apply in_map_iff in H as (u' & [= <- <-] & Hu).
  apply filter_In in Hu as [Hu Eu].
  apply String.eqb_eq in E, Eu. cbn [summary_row ls_id ls_active_count ls_done_count].
  split; [exact E|]. split; [now rewrite E|]. split; [now rewrite E|].
  exists l', u'. now repeat split.
Qed.

Lemma select_items_by_list_In (id : string) (st : item_status) (d : database)
  (r : ItemRow) :
  In r (select_items_by_list id st d) -> ir_list_id r = id /\ ir_status r = st.
Proof.
  unfold select_items_by_list. intros H.
  apply order_by_desc_In, in_map_iff in H as (i & <- & H).
  apply filter_In in H as [_ H]. apply andb_true_iff in H as [Hl Hs].
  apply String.eqb_eq in Hl. apply item_status_eqb_eq in Hs. now split.
Qed.

Lemma select_items_by_list_length (id : string) (st : item_status) (d : database) :
  Z.of_nat (length (select_items_by_list id st d)) = count_status st id (items d).
Proof.
  unfold select_items_by_list, count_status.
  now rewrite (Permutation_length (order_by_desc_perm _ _)), length_map.
Qed.

(** A view [buildListView] returns is consistent.  It is assembled
    without any write.  With a list selected, the list's active and done
    counts are the lengths of [itemsActive] and [itemsDone], whose rows all
    belong to that list with that status, and the mode is "mine" with no
    profile attached exactly when the list's owner is the viewer, "profile"
    with the owner's profile and lists attached otherwise.  With no list
    selected the view is the viewer's own, with no items. *)
Theorem buildListView_consistent :
  forall (o : oracle) (w w' : world) (viewerId : string) (listId : option string)
         (vw : View),
    buildListView viewerId listId o w = (Returned vw, w') ->
    w' = w /\
    v_lists vw = select_summaries_by_owner viewerId (db w) /\
    v_searchResults vw = None /\
    match v_selectedList vw with
    | Some s =>
        ls_active_count s = Z.of_nat (length (v_itemsActive vw)) /\
        ls_done_count s = Z.of_nat (length (v_itemsDone vw)) /\
        Forall (fun r => ir_list_id r = ls_id s /\ ir_status r = active)
          (v_itemsActive vw) /\
        Forall (fun r => ir_list_id r = ls_id s /\ ir_status r = done)
          (v_itemsDone vw) /\
        ((ls_owner_id s = viewerId /\ v_mode vw = "mine" /\
          v_profileUser vw = None /\ v_profileLists vw = None)
         \/
         (ls_owner_id s <> viewerId /\ v_mode vw = "profile" /\
          (exists p, v_profileUser vw = Some p /\ us_id p = ls_owner_id s) /\
          v_profileLists vw
          = Some (select_summaries_by_owner (ls_owner_id s) (db w))))
    | None =>
        v_mode vw = "mine" /\ v_itemsActive vw = [] /\ v_itemsDone vw = [] /\
        v_profileUser vw = None /\ v_profileLists vw = None
    end.
Proof.
  intros o w w' viewerId listId vw H.
  pose proof (buildListView_reads _ _ _ _ _ _ H) as Hw. subst w'.
  split; [reflexivity|].
  unfold buildListView in H.
  apply bind_Returned_inv in H as (viewer & w1 & Hv & H).
  apply buildViewerSummary_reads in Hv. subst w1.
  apply bind_Returned_inv in H as (ls & w1 & [= <- <-] & H).
  apply bind_Returned_inv in H as (dev & w1 & [= _ <-] & H).
  cbv zeta in H.
  set (chosen := match select_summaries_by_owner viewerId (db w) with
                 | [] => listId
                 | l :: _ => if negb (truthy listId) then Some (ls_id l) else listId
                 end) in H.
  destruct chosen as [[|c id]|].
  1, 3: injection H as <-; cbn; now repeat split.
  set (lid := String c id) in *.
  apply bind_Returned_inv in H as (selected & w1 & [= <- <-] & H).
  destruct (first_row (select_summary_by_id lid (db w))) as [s|] eqn:Es;
    [|discriminate].
  apply first_row_In, select_summary_by_id_In in Es as (Hid & Ha & Hd & _).
  apply bind_Returned_inv in H as (act & w1 & [= <- <-] & H).
  apply bind_Returned_inv in H as (don & w1 & [= <- <-] & H).
  assert (Hact : Forall (fun r => ir_list_id r = ls_id s /\ ir_status r = active)
                   (select_items_by_list lid active (db w))).
  { apply Forall_forall. intros r Hr. rewrite Hid.
    now apply select_items_by_list_In in Hr. }
  assert (Hdon : Forall (fun r => ir_list_id r = ls_id s /\ ir_status r = done)
                   (select_items_by_list lid done (db w))).
  { apply Forall_forall. intros r Hr. rewrite Hid.
    now apply select_items_by_list_In in Hr. }
  destruct (String.eqb_spec (ls_owner_id s) viewerId) as [Eo|Eo]; cbn [negb] in H.
  - injection H as <-. cbn.
    rewrite !select_items_by_list_length. repeat split; try assumption.
    left. now repeat split.
  - apply bind_Returned_inv in H as (pr & w1 & [= <- <-] & H).
    apply bind_Returned_inv in H as (pl & w1 & [= <- <-] & H).
    injection H as <-. cbn.
    rewrite !select_items_by_list_length. repeat split; try assumption.
    right. repeat split; try assumption.
    eexists. split; [reflexivity|].
    destruct (first_row (select_users_by_id (ls_owner_id s) (db w))) as [r|] eqn:Er;
      [|reflexivity].
    apply first_row_In, filter_In in Er as [_ Er]. now apply String.eqb_eq in Er.
Qed.

Lemma buildListView_consistent_witness :
  exists vw s,
    buildListView bob_id (Some books_id) sample_oracle sample_world
    = (Returned vw, sample_world) /\
    v_selectedList vw = Some s /\ v_mode vw = "profile" /\
    ls_active_count s = Z.of_nat (length (v_itemsActive vw)).
Proof.
  destruct (buildListView bob_id (Some books_id) sample_oracle sample_world)
    as [[vw|e] w'] eqn:Hrun; [|vm_compute in Hrun; discriminate].
  pose proof (buildListView_consistent _ _ _ _ _ _ Hrun) as (-> & _ & _ & Hsel).
  destruct (v_selectedList vw) as [s|] eqn:Es.
  - destruct Hsel as (Ha & _ & _ & _ & [(Eo & _)|(_ & Hm & _)]).
    + exfalso. vm_compute in Hrun. injection Hrun as <-.
      injection Es as <-. discriminate Eo.
    + now exists vw, s.
  - exfalso. vm_compute in Hrun. injection Hrun as <-. discriminate Es.
Defined.

(** ** A bookmark whose view cannot be assembled *)

Lemma unknown_list_no_summary (id : string) (d : database) :
  has_list_id id d = false -> select_summary_by_id id d = [].
Proof.
  intros H. destruct (select_summary_by_id id d) as [|s rest] eqn:E; [reflexivity|].
  assert (Hin : In s (select_summary_by_id id d)) by (rewrite E; now left).
  apply select_summary_by_id_In in Hin as (_ & _ & _ & l & u & Hl & _ & Hid & _).
  assert (Hhas : has_list_id id d = true) by (apply has_list_id_In; eauto).
  congruence.
Qed.

Lemma buildListView_unknown_list (o : oracle) (w : world) (viewerId : string)
  (c : ascii) (id : string) :
  has_user_id viewerId (db w) = true ->
  has_list_id (String c id) (db w) = false ->
  buildListView viewerId (Some (String c id)) o w
  = (Thrown (Error "List not found."), w).
Proof.
  intros Hu Hl. unfold buildListView.
  apply has_user_id_In in Hu as (u & Hu & Eu).
  assert (Hrow : exists u0, first_row (select_users_by_id viewerId (db w)) = Some u0).
  { destruct (select_users_by_id viewerId (db w)) as [|u0 us] eqn:E; [|cbn; eauto].
    assert (Hin : In u (select_users_by_id viewerId (db w)))
      by (apply filter_In; split; [exact Hu | now apply String.eqb_eq]).
    now rewrite E in Hin. }
  destruct Hrow as (u0 & Hrow).
  erewrite bind_Returned.
  2:{ unfold buildViewerSummary, getUserById.
      erewrite bind_Returned by apply query_read_run. rewrite Hrow. reflexivity. }
  unfold getListsByOwner. erewrite bind_Returned by apply query_read_run.
  erewrite bind_Returned by reflexivity.
  assert (Hchosen : match select_summaries_by_owner viewerId (db w) with
                    | [] => Some (String c id)
                    | l :: _ => if negb (truthy (Some (String c id)))
                                then Some (ls_id l) else Some (String c id)
                    end = Some (String c id))
    by (now destruct (select_summaries_by_owner viewerId (db w))).
  cbv zeta. rewrite Hchosen.
  unfold getListSummaryById.
  erewrite bind_Returned by apply query_read_run.
  now rewrite (unknown_list_no_summary _ _ Hl).
Qed.

(** [bookmark_item] can fail after it has written.  When another user's
    item is bookmarked with a [viewing_list_id] that names no list, the copy
    is made as usual (one item and one bookmark row are added) and only then
    does assembling the view throw "List not found.": the caller gets an
    error although the bookmark exists. *)
Theorem bookmark_item_fails_after_copy :
  forall (o : oracle) (authContext : AuthContext) (w0 w1 : world) (v : DbUser)
         (sid : string) (c : ascii) (id : string) (src : SourceItem),
    (forall cached, viewerCache w0 = Some cached ->
                    has_user_id (u_id cached) (db w0) = true) ->
    getViewer authContext o w0 = (Returned (Some v), w1) ->
    findSourceItem sid o w1 = (Returned (Some src), w1) ->
    s_owner_id src <> u_id v ->
    (forall n, (uuids_drawn w1 <= n)%nat -> uuid_unused (uuidv4 o n) (db w1) = true) ->
    let run := bookmark_item authContext sid (Some (String c id)) o w0 in
    has_list_id (String c id) (db (snd run)) = false ->
    fst run = Thrown (Error "List not found.") /\
    exists it bm,
      items (db (snd run)) = (items (db w1) ++ [it])%list /\
      bookmarks (db (snd run)) = (bookmarks (db w1) ++ [bm])%list /\
      b_created_item_id bm = i_id it /\ b_user_id bm = u_id v.
Proof.
  intros o authContext w0 w1 v sid c id src Hcache Hv Hs Hne Hfresh run.
  pose proof (getViewer_known _ _ _ _ _ Hcache Hv) as Hknown.
  subst run. rewrite (bookmark_item_foreign _ _ _ _ _ _ _ _ Hv Hs Hne).
  destruct (copy_then o w1 (u_id v) src
              (fun targetListId _ =>
                 view <- (if truthy (Some (String c id))
                          then buildListView (u_id v) (Some (String c id))
                          else buildListView (u_id v) (Some targetListId)) ;;
                 ret (buildStructuredResponse
                        (mkPayload view (Some (lastBookmarkItemId sid)))
                        "Item bookmarked.")))
    as [(e & w' & _ & [Hwhy | (n & Hn & Hwhy)])
       | (dest & it & bm & w2 & Hcopied & Hrun)].
  { congruence. }
  { rewrite (Hfresh n Hn) in Hwhy. discriminate. }
  rewrite Hrun. clear Hrun.
  destruct Hcopied as (Hu & _ & Hitems & _ & Hbms & (tb & Hbm)).
  assert (Hknown2 : has_user_id (u_id v) (db w2) = true)
    by (unfold has_user_id in *; now rewrite Hu).
  cbn [truthy].
  destruct (has_list_id (String c id) (db w2)) eqn:Hl.
  - intros Hfinal. exfalso.
    match type of Hfinal with
    | has_list_id _ (db (snd (?m o w2))) = false =>
        destruct (m o w2) as [r w3] eqn:Ev;
        assert (w2 = w3)
          by (revert Ev; apply respects_bind;
              [congruence | apply buildListView_reads
              | intros ?; apply respects_ret; reflexivity]);
        subst w3
    end.
    cbn [snd] in Hfinal. congruence.
  - intros _.
    rewrite (bind_Thrown _ _ _ _ _ _ (buildListView_unknown_list o w2 _ c id Hknown2 Hl)).
    cbn [fst snd]. split; [reflexivity|].
    exists it, bm. split; [exact Hitems|]. split; [exact Hbms|].
    rewrite Hbm. now split.
Qed.

Lemma bookmark_item_fails_after_copy_witness :
  exists it,
    fst (bookmark_item bob_auth dune_id (Some unknown_id) sample_oracle sample_world)
    = Thrown (Error "List not found.") /\
    items (db (snd (bookmark_item bob_auth dune_id (Some unknown_id)
                      sample_oracle sample_world)))
    = [dune; emma; it].
Proof.
  assert (Hcache : forall c, viewerCache sample_world = Some c ->
                             has_user_id (u_id c) (db sample_world) = true)
    by discriminate.
  assert (Hv : getViewer bob_auth sample_oracle sample_world
               = (Returned (Some bob), mkWorld sample_db [] 0 0 (Some bob)))
    by reflexivity.
  assert (Hne : s_owner_id dune_source <> u_id bob) by discriminate.
  destruct (bookmark_item_fails_after_copy sample_oracle bob_auth sample_world _ bob
              dune_id "9"%char "9999999-0000-4000-8000-0000000000aa" dune_source
              Hcache Hv eq_refl Hne (fun n _ => sample_uuids_unused n))
    as (Hthrown & it & bm & Hi & _).
  - vm_compute. reflexivity.
  - exists it. split; [exact Hthrown | exact Hi].
Defined.

(** ** Creating a list *)

Lemma unique_rows {A : Type} (key : A -> string) (l : list A) (x : A) :
  NoDup (map key l) -> In x l ->
  filter (fun r => key r =? key x)%string l = [x].
Proof.
  induction l as [|y l IH]; intros Hnd Hin; [contradiction|].
  cbn in Hnd. inversion Hnd as [|? ? Hy Hnd']; subst.
  cbn [filter]. destruct Hin as [->|Hin].
  - rewrite String.eqb_refl. f_equal.
    clear IH Hnd Hnd'. induction l as [|z l IH]; [reflexivity|].
    cbn in *. destruct (String.eqb_spec (key z) (key x)) as [E|E].
    + exfalso. apply Hy. now left.
    + apply IH. intros H. apply Hy. now right.
  - destruct (String.eqb_spec (key y) (key x)) as [E|E].
    + exfalso. apply Hy. rewrite E. now apply in_map.
    + now apply IH.
Qed.

Lemma no_items_in_new_list (id : string) (d : database) :
  (forall i, In i (items d) -> has_list_id (i_list_id i) d = true) ->
  has_list_id id d = false ->
  filter (fun i => i_list_id i =? id)%string (items d) = [].
Proof.
  intros Hfk Hnew. induction (items d) as [|i its IH]; [reflexivity|].
  cbn. destruct (String.eqb_spec (i_list_id i) id) as [E|_].
  - rewrite <- E, (Hfk i (or_introl eq_refl)) in Hnew. discriminate.
  - apply IH. intros j Hj. apply Hfk. now right.
Qed.

Lemma filter_and_nil {A : Type} (p q : A -> bool) (l : list A) :
  filter p l = [] -> filter (fun x => p x && q x) l = [].
Proof.
  induction l as [|x l IH]; [reflexivity|]. cbn.
  destruct (p x); [discriminate|]. cbn. exact IH.
Qed.

(** The tables after a list was inserted, as the reads see them. *)
Lemma new_list_reads (d : database) (id owner title type : string) (t : Z) :
  schema_ok d = true ->
  has_list_id id d = false ->
  has_user_id owner d = true ->
  let d' := with_lists (lists d ++ [mkList id owner title type "public" t t]) d in
  exists u,
    first_row (select_users_by_id owner d) = Some u /\
    let s := mkSummary id owner title type "public" 0 0 (u_handle u)
               (u_display_name u) in
    select_summary_by_id id d' = [s] /\
    (forall st, select_items_by_list id st d' = []) /\
    Permutation (select_summaries_by_owner owner d')
      (s :: select_summaries_by_owner owner d).
Proof.
  intros Hok Hnew Howner d'.
  destruct (schema_ok_parts d Hok) as (Hids & _ & _ & _ & _ & _ & Hfk).
  apply has_user_id_In in Howner as (u & Hu & Eu).
  assert (Hrows : filter (fun r => u_id r =? owner)%string (users d) = [u]).
  { rewrite <- Eu. now apply (unique_rows u_id). }
  assert (Hnone : filter (fun i => i_list_id i =? id)%string (items d) = [])
    by now apply no_items_in_new_list.
  assert (Hcount : forall st, count_status st id (items d) = 0).
  { intros st. unfold count_status. now rewrite (filter_and_nil _ _ _ Hnone). }
  assert (Hold : filter (fun l => l_id l =? id)%string (lists d) = []).
  { destruct (filter (fun l => l_id l =? id)%string (lists d)) as [|l ls] eqn:E;
      [reflexivity|].
    assert (Hin : In l (filter (fun l => l_id l =? id)%string (lists d)))
      by (rewrite E; now left).
    apply filter_In in Hin as [Hin Hid]. apply String.eqb_eq in Hid.
    assert (has_list_id id d = true) by (apply has_list_id_In; eauto).
    congruence. }
  exists u. split; [unfold select_users_by_id; now rewrite Hrows|].
  intros s. split; [|split].
  - unfold select_summary_by_id, lists_join_users. subst d'.
    cbn [lists users with_lists]. rewrite filter_app, Hold.
    cbn [app filter l_id]. rewrite String.eqb_refl. cbn [flat_map l_owner_id].
    rewrite Hrows. cbn. now rewrite !Hcount.
  - intros st. unfold select_items_by_list. subst d'. cbn [items with_lists].
    now rewrite (filter_and_nil _ _ _ Hnone).
  - unfold select_summaries_by_owner, lists_join_users. subst d'.
    cbn [lists users with_lists]. rewrite filter_app, flat_map_app.
    cbn [filter l_owner_id]. rewrite String.eqb_refl.
    cbn [flat_map l_owner_id]. rewrite Hrows. cbn [map app].
    set (old := flat_map _ (filter _ (lists d))).
    eapply perm_trans.
    { apply Permutation_map. eapply perm_trans; [apply order_by_desc_perm|].
      apply Permutation_sym, Permutation_cons_append. }
    cbn [map]. apply Permutation_cons.
    + cbn. now rewrite !Hcount.
    + erewrite map_ext; [apply Permutation_map, Permutation_sym, order_by_desc_perm|].
      now intros [l0 u0].
Qed.

(** [buildListView] on one of the viewer's own lists, step by step. *)
Lemma buildListView_own_list (o : oracle) (w : world) (viewerId : string)
  (c : ascii) (id : string) (u : DbUser) (s : ListSummary) :
  first_row (select_users_by_id viewerId (db w)) = Some u ->
  first_row (select_summary_by_id (String c id) (db w)) = Some s ->
  ls_owner_id s = viewerId ->
  buildListView viewerId (Some (String c id)) o w =
  (Returned
     (mkView (user_summary u) (DEV_TOOLS_ENABLED o) "mine"
        (select_summaries_by_owner viewerId (db w)) (Some s)
        (select_items_by_list (String c id) active (db w))
        (select_items_by_list (String c id) done (db w)) None None None), w).
Proof.
  intros Hu Hs Ho. unfold buildListView.
  erewrite bind_Returned.
  2:{ unfold buildViewerSummary, getUserById.
      erewrite bind_Returned by apply query_read_run. rewrite Hu. reflexivity. }
  unfold getListsByOwner. erewrite bind_Returned by apply query_read_run.
  erewrite bind_Returned by reflexivity.
  assert (Hchosen : match select_summaries_by_owner viewerId (db w) with
                    | [] => Some (String c id)
                    | l :: _ => if negb (truthy (Some (String c id)))
                                then Some (ls_id l) else Some (String c id)
                    end = Some (String c id))
    by (now destruct (select_summaries_by_owner viewerId (db w))).
  cbv zeta. rewrite Hchosen.
  unfold getListSummaryById. erewrite bind_Returned by apply query_read_run.
  rewrite Hs. unfold getItemsByList.
  erewrite bind_Returned by apply query_read_run.
  erewrite bind_Returned by apply query_read_run.
  now rewrite Ho, String.eqb_refl.
Qed.

(** [create_list] creates one public list and shows it.  Whenever it
    returns, on a database that satisfies the schema once the viewer is
    resolved, and with [uuidv4()] drawing a non-empty id: that id was not in
    use; exactly one [insert] was sent after viewer resolution; the new list
    belongs to the viewer with the given title and type and visibility
    "public"; the answer is "List created." with that id as
    [lastCreatedListId]; the returned view is the viewer's own ("mine"),
    selects the new list with zero active and zero done items and no item
    rows, and its [lists] are the viewer's earlier lists plus this one, once. *)
Theorem create_list_shows_new_list :
  forall (o : oracle) (authContext : AuthContext) (w0 w1 w2 : world) (v : DbUser)
         (title type : string) (r : CallToolResult),
    getViewer authContext o w0 = (Returned (Some v), w1) ->
    schema_ok (db w1) = true ->
    let id := uuidv4 o (uuids_drawn w1) in
    id <> "" ->
    create_list authContext title type o w0 = (Returned r, w2) ->
    has_list_id id (db w1) = false /\
    exists (vw : View) (s : ListSummary) (t : Z),
      r = buildStructuredResponse
            (mkPayload vw (Some (lastCreatedListId id))) "List created." /\
      log w2 = (log w1 ++ [InsertList id (u_id v) title type])%list /\
      lists (db w2)
      = (lists (db w1) ++ [mkList id (u_id v) title type "public" t t])%list /\
      items (db w2) = items (db w1) /\
      v_selectedList vw = Some s /\
      ls_id s = id /\ ls_owner_id s = u_id v /\ ls_title s = title /\
      ls_type s = type /\ ls_visibility s = "public" /\
      ls_active_count s = 0 /\ ls_done_count s = 0 /\
      v_mode vw = "mine" /\ v_itemsActive vw = [] /\ v_itemsDone vw = [] /\
      Permutation (v_lists vw) (s :: select_summaries_by_owner (u_id v) (db w1)).
Proof.
  intros o authContext w0 w1 w2 v title type r Hv Hok id Hid H.
  unfold create_list in H.
  rewrite (bind_Returned _ _ _ _ _ _ Hv) in H.
  erewrite bind_Returned in H by reflexivity.
  pose proof (createList_run o w1 (u_id v) title type) as Hrun. cbv zeta in Hrun.
  fold id in Hrun.
  destruct (has_list_id id (db w1)) eqn:Hnew.
  { destruct Hrun as (c & w' & Hrun).
    rewrite (bind_Thrown _ _ _ _ _ _ Hrun) in H. discriminate. }
  destruct (has_user_id (u_id v) (db w1)) eqn:Hknown.
  2: { destruct Hrun as (c & w' & Hrun).
       rewrite (bind_Thrown _ _ _ _ _ _ Hrun) in H. discriminate. }
  cbn [orb negb] in Hrun.
  rewrite (bind_Returned _ _ _ _ _ _ Hrun) in H. clear Hrun.
  erewrite bind_Returned in H by reflexivity.
  split; [reflexivity|].
  set (t := now o (length (log w1))) in *.
  destruct (new_list_reads (db w1) id (u_id v) title type t Hok Hnew Hknown)
    as (u & Hu & Hs & Hitems & Hperm).
  destruct id as [|c id'] eqn:Eid; [congruence|]. rewrite <- Eid in *.
  match type of H with
  | context [bind (buildListView _ _) _ o ?w] => set (wA := w) in *
  end.
  assert (Hview := buildListView_own_list o wA (u_id v) c id' u
                     (mkSummary id (u_id v) title type "public" 0 0 (u_handle u)
                        (u_display_name u))).
  rewrite <- Eid in Hview.
  rewrite (bind_Returned _ _ _ _ _ _
             (Hview Hu ltac:(cbn [db wrote wA]; now rewrite Hs) eq_refl)) in H.
  injection H as <- <-.
  eexists _, _, t. split; [reflexivity|].
  cbn [v_selectedList v_mode v_itemsActive v_itemsDone v_lists wA wrote db log
         bump_uuids lists items with_lists ls_id ls_owner_id ls_title ls_type
         ls_visibility ls_active_count ls_done_count].
  rewrite !Hitems. repeat split. exact Hperm.
Qed.

Lemma create_list_shows_new_list_witness :
  exists r w2 vw s,
    create_list bob_auth "Films" "film" sample_oracle sample_world = (Returned r, w2) /\
    r = buildStructuredResponse
          (mkPayload vw (Some (lastCreatedListId (uuidv4 sample_oracle 0))))
          "List created." /\
    v_selectedList vw = Some s /\ ls_title s = "Films" /\ ls_active_count s = 0.
Proof.
  assert (Hv : getViewer bob_auth sample_oracle sample_world
               = (Returned (Some bob), mkWorld sample_db [] 0 0 (Some bob)))
    by reflexivity.
  destruct (create_list bob_auth "Films" "film" sample_oracle sample_world)
    as [[r|e] w2] eqn:Hrun; [|vm_compute in Hrun; discriminate].
  destruct (create_list_shows_new_list sample_oracle bob_auth sample_world _ w2 bob
              "Films" "film" r Hv eq_refl)
    as (_ & vw & s & t & Hr & _ & _ & _ & Hsel & _ & _ & Ht & _ & _ & Ha & _).
  - discriminate.
  - exact Hrun.
  - exists r, w2, vw, s. repeat split; assumption.
Defined.

(** ** Registering and re-registering a user *)

Lemma first_row_None {A : Type} (rows : list A) : first_row rows = None -> rows = [].
Proof. now destruct rows. Qed.

Lemma ensureUser_new_run (o : oracle) (w w1 : world) (a h safe : string)
  (dn av : option (option string)) :
  resolveHandle a h o w = (Returned safe, w1) ->
  db w1 = db w -> log w1 = log w ->
  first_row (select_users_by_auth a (db w)) = None ->
  let id := uuidv4 o (uuids_drawn w1) in
  let row := mkUser id a safe (or_null dn) None (or_null av)
               (now o (length (log w))) in
  if has_user_id id (db w)
     || existsb (fun u => u_handle u =? safe)%string (users (db w))
  then exists c w', ensureUser a h dn av o w = (Thrown (DatabaseError c), w')
  else ensureUser a h dn av o w
       = (Returned (Some row),
          mkWorld (with_users (users (db w) ++ [row]) (db w))
            (log w ++ [InsertUser id a safe (or_null dn) (or_null av)])
            (S (uuids_drawn w1)) (randoms_drawn w1) (viewerCache w1)).
Proof.
  intros Hres Hdb Hlog He id row. unfold ensureUser.
  rewrite (bind_Returned _ _ _ _ _ _ Hres).
  erewrite bind_Returned
    by (unfold getUserByAuthProviderId; rewrite query_read_run, Hdb, He; reflexivity).
  cbv beta iota. erewrite bind_Returned by reflexivity.
  unfold bind, query_write. cbn [execute db log]. rewrite Hdb, Hlog. fold id.
  apply first_row_None in He.
  assert (Hauth : existsb (fun u => u_auth_provider_id u =? a)%string (users (db w))
                  = false).
  { destruct (existsb _ (users (db w))) eqn:E; [|reflexivity].
    apply existsb_exists in E as (u & Hu & E).
    assert (Hin : In u (select_users_by_auth a (db w))) by (now apply filter_In).
    now rewrite He in Hin. }
  rewrite Hauth.
  destruct (has_user_id id (db w)) eqn:Eid; cbn [orb]; [eauto|].
  destruct (existsb (fun u => u_handle u =? safe)%string (users (db w)));
    [eauto|].
  unfold getUserById. rewrite query_read_run.
  unfold select_users_by_id. cbn [db with_users users].
  fold row. change id with (u_id row).
  now rewrite (inserted_user_found (users (db w)) row Eid).
Qed.

Lemma ensureUser_updates_fields (dn av : option (option string))
  (safeHandle : string) (e : DbUser) :
  let e' := fold_left assign_user (ensureUser_updates dn av safeHandle e) e in
  u_display_name e' = supplied dn (u_display_name e) /\
  u_avatar_url e' = supplied av (u_avatar_url e) /\
  u_handle e' = safeHandle.
Proof.
  unfold ensureUser_updates.
  destruct dn as [dn|], av as [av|]; cbn [supplied];
    repeat match goal with
    | |- context [negb (option_string_eqb ?x ?y)] =>
        let E := fresh "E" in
        destruct (option_string_eqb x y) eqn:E;
        [apply option_string_eqb_eq in E|]
    end;
    destruct (String.eqb_spec safeHandle (u_handle e)); cbn; subst;
    repeat split; congruence.
Qed.

Lemma ensureUser_updates_settled (dn av : option (option string)) (e : DbUser) :
  u_display_name e = supplied dn (u_display_name e) ->
  u_avatar_url e = supplied av (u_avatar_url e) ->
  ensureUser_updates dn av (u_handle e) e = [].
Proof.
  unfold ensureUser_updates. intros Hd Ha.
  rewrite String.eqb_refl.
  destruct dn as [dn|], av as [av|]; cbn [supplied] in *;
    repeat match goal with
    | |- context [option_string_eqb ?x ?y] =>
        replace (option_string_eqb x y) with true
          by (symmetry; apply option_string_eqb_eq; congruence)
    end; reflexivity.
Qed.

Lemma ensureUser_fields :
  forall (o : oracle) (w w1 : world) (a h : string)
         (dn av : option (option string)) (u : DbUser),
    ensureUser a h dn av o w = (Returned (Some u), w1) ->
    u_auth_provider_id u = a /\
    u_display_name u = supplied dn (u_display_name u) /\
    u_avatar_url u = supplied av (u_avatar_url u).
Proof.
  intros o w w1 a h dn av u H.
  destruct (resolveHandle_reads_only o w a h) as (safe & wr & Hres & Hdb & Hlog & _).
  destruct (first_row (select_users_by_auth a (db w))) as [e|] eqn:He.
  - rewrite (ensureUser_known _ _ _ _ _ _ dn av _ Hres Hdb He) in H.
    destruct (ensureUser_updates_fields dn av safe e) as (Fd & Fa & _).
    destruct (assign_users_keep (ensureUser_updates dn av safe e) e)
      as (_ & Kauth & _).
    assert (Hauth : u_auth_provider_id e = a).
    { apply first_row_In, filter_In in He as [_ He]. now apply String.eqb_eq. }
    assert (Hu : u = fold_left assign_user (ensureUser_updates dn av safe e) e).
    { destruct (ensureUser_updates dn av safe e) as [|s sets] eqn:Es.
      - now injection H as <- _.
      - rewrite <- Es in *. unfold bind, query_write in H. cbn [execute] in H.
        rewrite Hdb in H.
        destruct (update_users_clash _ _ _); [discriminate|].
        unfold getUserByAuthProviderId in H. rewrite query_read_run in H.
        unfold select_users_by_auth in *. cbn [db with_users users] in H.
        rewrite (update_users_first_by_auth _ _ _ _ He) in H.
        now injection H as <- _. }
    subst u. rewrite Fd, Fa. repeat split; [congruence | |].
    + now destruct dn.
    + now destruct av.
  - pose proof (ensureUser_new_run o w wr a h safe dn av Hres Hdb Hlog He) as Hrun.
    cbv zeta in Hrun.
    destruct (has_user_id _ _ || existsb _ _).
    + destruct Hrun as (c & w' & Hrun). congruence.
    + rewrite Hrun in H. injection H as <- _. cbn.
      repeat split; [now destruct dn | now destruct av].
Qed.

(** [ensureUser] hands back the stored record of the identity.  Whenever
    it returns a record, that record belongs to [authProviderId], is the one
    a lookup by [authProviderId] now finds, and carries every display name
    and avatar that was supplied; an identity seen for the first time has
    added exactly one row, with no bio, and a known identity none. *)
Theorem ensureUser_registers :
  forall (o : oracle) (w w1 : world) (a h : string)
         (dn av : option (option string)) (u : DbUser),
    ensureUser a h dn av o w = (Returned (Some u), w1) ->
    u_auth_provider_id u = a /\
    getUserByAuthProviderId a o w1 = (Returned (Some u), w1) /\
    (forall x, dn = Some x -> u_display_name u = x) /\
    (forall y, av = Some y -> u_avatar_url u = y) /\
    match first_row (select_users_by_auth a (db w)) with
    | None => users (db w1) = (users (db w) ++ [u])%list /\ u_bio u = None /\
              u_display_name u = or_null dn /\ u_avatar_url u = or_null av
    | Some e => length (users (db w1)) = length (users (db w)) /\
                u_id u = u_id e /\ u_bio u = u_bio e
    end.
Proof.
  intros o w w1 a h dn av u H.
  destruct (resolveHandle_reads_only o w a h) as (safe & wr & Hres & Hdb & Hlog & _).
  destruct (first_row (select_users_by_auth a (db w))) as [e|] eqn:He.
  - rewrite (ensureUser_known _ _ _ _ _ _ dn av _ Hres Hdb He) in H.
    destruct (ensureUser_updates_fields dn av safe e) as (Fd & Fa & _).
    assert (Hauth : u_auth_provider_id e = a).
    { apply first_row_In, filter_In in He as [_ He]. now apply String.eqb_eq. }
    destruct (ensureUser_updates dn av safe e) as [|s sets] eqn:Es.
    + injection H as <- <-. cbn [fold_left] in Fd, Fa.
      unfold getUserByAuthProviderId. rewrite query_read_run, Hdb, He.
      repeat split; try assumption.
      * intros x ->. now rewrite Fd.
      * intros y ->. now rewrite Fa.
    + rewrite <- Es in *. unfold bind, query_write in H. cbn [execute] in H.
      rewrite Hdb in H.
      destruct (update_users_clash _ _ _); [discriminate|].
      unfold getUserByAuthProviderId in *. rewrite query_read_run in *.
      unfold select_users_by_auth in *. cbn [db with_users users] in *.
      rewrite (update_users_first_by_auth _ _ _ _ He) in H.
      injection H as <- <-. cbn [db with_users users].
      rewrite (update_users_first_by_auth _ _ _ _ He).
      destruct (assign_users_keep (ensureUser_updates dn av safe e) e)
        as (Kid & Kauth & Kbio & _).
      repeat split; try assumption; try congruence.
      * intros x ->. now rewrite Fd.
      * intros y ->. now rewrite Fa.
      * unfold update_users. now rewrite length_map.
  - pose proof (ensureUser_new_run o w wr a h safe dn av Hres Hdb Hlog He) as Hrun.
    cbv zeta in Hrun.
    destruct (has_user_id _ _ || existsb _ _).
    + destruct Hrun as (c & w' & Hrun). congruence.
    + rewrite Hrun in H. injection H as <- <-.
      unfold getUserByAuthProviderId. rewrite query_read_run.
      unfold select_users_by_auth in *. cbn [db with_users users u_auth_provider_id
                                               u_display_name u_avatar_url u_bio].
      apply first_row_None in He. rewrite filter_app, He.
      cbn. rewrite String.eqb_refl.
      repeat split; try reflexivity.
      * now intros x ->.
      * now intros y ->.
Qed.

Lemma ensureUser_registers_witness :
  exists u w1,
    ensureUser "dev-carol" "carol" (Some (Some "Carol")) None sample_oracle sample_world
    = (Returned (Some u), w1) /\
    users (db w1) = [alice; bob; u] /\ u_display_name u = Some "Carol".
Proof.
  destruct (ensureUser "dev-carol" "carol" (Some (Some "Carol")) None sample_oracle
              sample_world) as [[[u|]|e] w1] eqn:Hrun;
    [|vm_compute in Hrun; discriminate..].
  destruct (ensureUser_registers _ _ _ _ _ _ _ _ Hrun) as (_ & _ & Hd & _ & Hnew).
  exists u, w1. split; [reflexivity|].
  destruct Hnew as (Hus & _). split; [exact Hus | exact (Hd _ eq_refl)].
Defined.

Lemma resolveHandle_own (o : oracle) (w : world) (a h : string) :
  (forall r, In r (users (db w)) -> u_handle r = h -> u_auth_provider_id r = a) ->
  resolveHandle a h o w = (Returned h, w).
Proof.
  intros Hown. unfold resolveHandle, bind. rewrite query_read_run.
  unfold select_auth_by_handle.
  destruct (filter (fun u => u_handle u =? h)%string (users (db w)))
    as [|r rest] eqn:E; [reflexivity|].
  assert (Hr : In r (filter (fun u => u_handle u =? h)%string (users (db w))))
    by (rewrite E; now left).
  apply filter_In in Hr as [Hin Hh]. apply String.eqb_eq in Hh.
  cbn [map]. rewrite (Hown r Hin Hh), String.eqb_refl. reflexivity.
Qed.

(** Signing in twice is signing in once: when the requested handle is free
    or already the caller's own, a second [ensureUser] with the same
    parameters returns the same record and leaves the world as the first
    call left it, with no statement sent. *)
Theorem ensureUser_settles :
  forall (o : oracle) (w w1 : world) (a h : string)
         (dn av : option (option string)) (u : DbUser),
    schema_ok (db w) = true ->
    (forall r, In r (users (db w)) -> u_handle r = h -> u_auth_provider_id r = a) ->
    ensureUser a h dn av o w = (Returned (Some u), w1) ->
    ensureUser a h dn av o w1 = (Returned (Some u), w1).
Proof.
  intros o w w1 a h dn av u Hok Hown H.
  pose proof (resolveHandle_own o w a h Hown) as Hres.
  apply schema_ok_parts in Hok as (Hids & _).
  destruct (first_row (select_users_by_auth a (db w))) as [e|] eqn:He.
  - pose proof H as H0.
    rewrite (ensureUser_known _ _ _ _ _ _ dn av _ Hres eq_refl He) in H.
    destruct (ensureUser_updates_fields dn av h e) as (Fd & Fa & Fh).
    pose proof (first_row_In _ _ He) as Hine.
    apply filter_In in Hine as [Hine Hauth]. apply String.eqb_eq in Hauth.
    destruct (ensureUser_updates dn av h e) as [|s sets] eqn:Es.
    + injection H as <- <-. exact H0.
    + rewrite <- Es in *. clear H0. unfold bind, query_write in H. cbn [execute] in H.
      destruct (update_users_clash _ _ _); [discriminate|].
      unfold getUserByAuthProviderId in H. rewrite query_read_run in H.
      unfold select_users_by_auth in *. cbn [db with_users users] in H.
      rewrite (update_users_first_by_auth _ _ _ _ He) in H.
      injection H as <- <-.
      set (e' := fold_left assign_user (ensureUser_updates dn av h e) e) in *.
      set (w1 := mkWorld _ _ _ _ _).
      assert (Hus : users (db w1)
                    = update_users (ensureUser_updates dn av h e) (u_id e)
                        (users (db w))) by reflexivity.
      assert (Hres1 : resolveHandle a h o w1 = (Returned h, w1)).
      { apply resolveHandle_own. rewrite Hus. intros r Hr Hh.
        unfold update_users in Hr. apply in_map_iff in Hr as (r0 & <- & Hr0).
        destruct (String.eqb_spec (u_id r0) (u_id e)) as [E|E].
        - destruct (assign_users_keep (ensureUser_updates dn av h e) r0)
            as (_ & -> & _).
          assert (Hf : In r0 (filter (fun r => u_id r =? u_id e)%string
                                (users (db w))))
            by (apply filter_In; split; [assumption | now apply String.eqb_eq]).
          rewrite (unique_rows u_id _ e Hids Hine) in Hf.
          destruct Hf as [<-|[]]. exact Hauth.
        - now apply Hown. }
      assert (He1 : first_row (select_users_by_auth a (db w1)) = Some e').
      { unfold select_users_by_auth. rewrite Hus.
        now apply update_users_first_by_auth. }
      rewrite (ensureUser_known _ _ _ _ _ _ dn av _ Hres1 eq_refl He1).
      rewrite <- Fh at 1. fold e'.
      rewrite ensureUser_updates_settled; [reflexivity| |].
      * fold e' in Fd. rewrite Fd. now destruct dn.
      * fold e' in Fa. rewrite Fa. now destruct av.
  - pose proof (ensureUser_new_run o w w a h h dn av Hres eq_refl eq_refl He) as Hrun.
    cbv zeta in Hrun.
    destruct (has_user_id _ _ || existsb _ _).
    + destruct Hrun as (c & w' & Hrun). congruence.
    + rewrite Hrun in H. injection H as <- <-.
      set (row := mkUser _ _ _ _ _ _ _).
      set (w1 := mkWorld _ _ _ _ _).
      apply first_row_None in He.
      assert (Hres1 : resolveHandle a h o w1 = (Returned h, w1)).
      { apply resolveHandle_own. cbn [w1 db with_users users].
        intros r Hr Hh. apply in_app_iff in Hr as [Hr|[<-|[]]];
          [now apply Hown | reflexivity]. }
      assert (He1 : first_row (select_users_by_auth a (db w1)) = Some row).
      { unfold select_users_by_auth in *. cbn [w1 db with_users users].
        rewrite filter_app, He. cbn. now rewrite String.eqb_refl. }
      rewrite (ensureUser_known _ _ _ _ _ _ dn av _ Hres1 eq_refl He1).
      change h with (u_handle row) at 1.
      rewrite ensureUser_updates_settled; [reflexivity| |].
      * cbn. now destruct dn.
      * cbn. now destruct av.
Qed.

Lemma ensureUser_settles_witness :
  exists u w1,
    ensureUser "dev-carol" "carol" (Some (Some "Carol")) None sample_oracle sample_world
    = (Returned (Some u), w1) /\
    ensureUser "dev-carol" "carol" (Some (Some "Carol")) None sample_oracle w1
    = (Returned (Some u), w1).
Proof.
  destruct (ensureUser "dev-carol" "carol" (Some (Some "Carol")) None sample_oracle
              sample_world) as [[[u|]|e] w1] eqn:Hrun;
    [|vm_compute in Hrun; discriminate..].
  exists u, w1. split; [reflexivity|].
  apply (ensureUser_settles sample_oracle sample_world w1 "dev-carol" "carol"
           (Some (Some "Carol")) None u).
  - reflexivity.
  - intros r [<-|[<-|[]]]; discriminate.
  - exact Hrun.
Defined.

(** ** Handles and bearer tokens *)

Lemma slug_char_lower (c : ascii) : slug_char c = true -> lower_ascii c = c.
Proof.
  unfold slug_char, lower_ascii. cbv zeta.
  destruct (Nat.leb 65 (nat_of_ascii c) && Nat.leb (nat_of_ascii c) 90)%bool eqn:E;
    [|reflexivity].
  rewrite !orb_true_iff, !andb_true_iff, !Nat.leb_le, Nat.eqb_eq.
  apply andb_true_iff in E. rewrite !Nat.leb_le in E. lia.
Qed.

Lemma keep_slug_chars_all (s : string) : all_slug_chars (keep_slug_chars s) = true.
Proof.
  unfold all_slug_chars. induction s as [|c s IH]; [reflexivity|].
  cbn [keep_slug_chars]. destruct (slug_char c) eqn:E; [|exact IH].
  cbn. now rewrite E.
Qed.

Lemma collapse_underscores_all (s : string) :
  all_slug_chars s = true -> all_slug_chars (collapse_underscores s) = true.
Proof.
  unfold all_slug_chars. induction s as [|c s IH]; [reflexivity|].
  cbn [list_ascii_of_string forallb]. intros H. apply andb_true_iff in H as [Hc Hs].
  cbn [collapse_underscores]. destruct s as [|d s]; [cbn; now rewrite Hc|].
  destruct (Ascii.eqb c "_" && Ascii.eqb d "_")%bool; [now apply IH|].
  cbn [list_ascii_of_string forallb]. rewrite Hc. now apply IH.
Qed.

Lemma collapse_underscores_first (s : string) :
  first_char (collapse_underscores s) = first_char s.
Proof.
  induction s as [|c s IH]; [reflexivity|].
  cbn [collapse_underscores]. destruct s as [|d s]; [reflexivity|].
  destruct (Ascii.eqb c "_" && Ascii.eqb d "_")%bool eqn:E; [|reflexivity].
  rewrite IH. apply andb_true_iff in E as [Ec Ed].
  apply Ascii.eqb_eq in Ec, Ed. now subst.
Qed.

Lemma collapse_underscores_none (s : string) :
  no_double_underscore (collapse_underscores s) = true.
Proof.
  induction s as [|c s IH]; [reflexivity|].
  cbn [collapse_underscores]. destruct s as [|d s]; [reflexivity|].
  destruct (Ascii.eqb c "_" && Ascii.eqb d "_")%bool eqn:E; [exact IH|].
  pose proof (collapse_underscores_first (String d s)) as Hf.
  destruct (collapse_underscores (String d s)) as [|d' s'] eqn:Ec;
    [reflexivity|].
  cbn in Hf. injection Hf as ->.
  change (negb (Ascii.eqb c "_" && Ascii.eqb d "_")
          && no_double_underscore (String d s') = true).
  now rewrite E, IH.
Qed.

Lemma trim_leading_underscores_props (s : string) :
  is_underscore (first_char (trim_leading_underscores s)) = false /\
  (all_slug_chars s = true ->
   all_slug_chars (trim_leading_underscores s) = true) /\
  (no_double_underscore s = true ->
   no_double_underscore (trim_leading_underscores s) = true).
Proof.
  unfold all_slug_chars. induction s as [|c s (IH1 & IH2 & IH3)]; [now repeat split|].
  cbn [trim_leading_underscores]. destruct (Ascii.eqb c "_") eqn:E.
  - repeat split; [exact IH1 | |].
    + cbn [list_ascii_of_string forallb]. intros H.
      apply andb_true_iff in H as [_ H]. now apply IH2.
    + intros H. apply IH3. destruct s as [|d s]; [reflexivity|].
      cbn [no_double_underscore] in H. now apply andb_true_iff in H as [_ H].
  - repeat split; [exact E | tauto | tauto].
Qed.

Lemma trim_trailing_underscores_props (s : string) :
  is_underscore (last_char (trim_trailing_underscores s)) = false /\
  (is_underscore (first_char s) = false ->
   is_underscore (first_char (trim_trailing_underscores s)) = false) /\
  (all_slug_chars s = true ->
   all_slug_chars (trim_trailing_underscores s) = true) /\
  (no_double_underscore s = true ->
   no_double_underscore (trim_trailing_underscores s) = true) /\
  (first_char (trim_trailing_underscores s) = None \/
   first_char (trim_trailing_underscores s) = first_char s).
Proof.
  unfold all_slug_chars.
  induction s as [|c s (IH1 & IH2 & IH3 & IH4 & IH5)]; [now repeat split; auto|].
  cbn [trim_trailing_underscores].
  destruct (trim_trailing_underscores s) as [|d t] eqn:Et.
  - destruct (Ascii.eqb c "_") eqn:E.
    + repeat split; auto.
    + repeat split; auto; cbn; try (now rewrite E).
      intros H. apply andb_true_iff in H as [-> _]. reflexivity.
  - repeat split.
    + exact IH1.
    + auto.
    + cbn [list_ascii_of_string forallb]. intros H.
      apply andb_true_iff in H as [-> H]. now apply IH3.
    + intros H. destruct s as [|d' s']; [discriminate|].
      cbn [no_double_underscore] in H. apply andb_true_iff in H as [Hcd H].
      destruct IH5 as [IH5|IH5]; [discriminate|].
      cbn in IH5. injection IH5 as ->.
      change (negb (Ascii.eqb c "_" && Ascii.eqb d' "_")
              && no_double_underscore (String d' t) = true).
      now rewrite Hcd, (IH4 H).
    + now right.
Qed.

Lemma slugifyHandle_valid (value : string) :
  valid_handle (slugifyHandle value) = true.
Proof.
  unfold slugifyHandle. cbv zeta.
  set (s := collapse_underscores (keep_slug_chars (toLowerCase value))).
  assert (Ha : all_slug_chars s = true)
    by apply collapse_underscores_all, keep_slug_chars_all.
  assert (Hn : no_double_underscore s = true) by apply collapse_underscores_none.
  destruct (trim_leading_underscores_props s) as (L1 & L2 & L3).
  destruct (trim_trailing_underscores_props (trim_leading_underscores s))
    as (T1 & T2 & T3 & T4 & _).
  destruct (trim_trailing_underscores (trim_leading_underscores s)) as [|c t] eqn:E;
    [reflexivity|].
  cbn [or_string]. unfold valid_handle.
  rewrite T1, (T2 L1), (T3 (L2 Ha)), (T4 (L3 Hn)). reflexivity.
Qed.

Lemma valid_handle_fixed (h : string) :
  valid_handle h = true -> slugifyHandle h = h.
Proof.
  unfold valid_handle. rewrite !andb_true_iff, !negb_true_iff.
  intros ((((Hne & Hall) & Hfirst) & Hlast) & Hdouble).
  unfold slugifyHandle. cbv zeta.
  assert (E1 : toLowerCase h = h).
  { clear -Hall. unfold all_slug_chars in Hall. induction h as [|c h IH]; [reflexivity|].
    cbn in Hall. apply andb_true_iff in Hall as [Hc Hh].
    cbn. now rewrite (slug_char_lower c Hc), IH. }
  assert (E2 : keep_slug_chars h = h).
  { clear -Hall. unfold all_slug_chars in Hall. induction h as [|c h IH]; [reflexivity|].
    cbn in Hall. apply andb_true_iff in Hall as [Hc Hh].
    cbn. now rewrite Hc, IH. }
  assert (E3 : collapse_underscores h = h).
  { clear -Hdouble. induction h as [|c h IH]; [reflexivity|].
    cbn [collapse_underscores]. destruct h as [|d h]; [reflexivity|].
    cbn [no_double_underscore] in Hdouble.
    apply andb_true_iff in Hdouble as [Hcd Hh]. apply negb_true_iff in Hcd.
    now rewrite Hcd, (IH Hh). }
  assert (E4 : trim_leading_underscores h = h).
  { destruct h as [|c h]; [reflexivity|]. cbn in Hfirst. cbn. now rewrite Hfirst. }
  assert (E5 : trim_trailing_underscores h = h).
  { clear -Hlast. induction h as [|c h IH]; [reflexivity|].
    cbn [trim_trailing_underscores]. destruct h as [|d h].
    - cbn in *. now rewrite Hlast.
    - now rewrite (IH Hlast). }
  rewrite E1, E2, E3, E4, E5. destruct h; [discriminate|reflexivity].
Qed.

(** [slugifyHandle] normalises, whatever it is given: the result is never
    empty, consists of lower-case letters, digits and underscores only, and
    has no underscore at either end nor two in a row.  The handles it leaves
    unchanged are exactly those of that shape, so slugifying twice is
    slugifying once; [pickHandle] yields such a handle for every payload. *)
Theorem slugifyHandle_normalises :
  forall (value : string) (payload : JWTPayload),
    valid_handle (slugifyHandle value) = true /\
    (slugifyHandle value = value <-> valid_handle value = true) /\
    slugifyHandle (slugifyHandle value) = slugifyHandle value /\
    valid_handle (pickHandle payload) = true.
Proof.
  intros value payload. repeat split.
  - apply slugifyHandle_valid.
  - intros <-. apply slugifyHandle_valid.
  - apply valid_handle_fixed.
  - apply valid_handle_fixed, slugifyHandle_valid.
  - apply slugifyHandle_valid.
Qed.

Lemma split_spaces_app (a b : string) :
  no_space a = true -> split_spaces (a ++ " " ++ b) = a :: split_spaces b.
Proof.
  unfold no_space. induction a as [|c a IH]; intros H; [reflexivity|].
  cbn in H. apply andb_true_iff in H as [Hc Ha]. apply negb_true_iff in Hc.
  cbn [append split_spaces]. rewrite Hc.
  change (a ++ String " " b) with (a ++ " " ++ b). now rewrite (IH Ha).
Qed.

Lemma split_spaces_word (a : string) :
  no_space a = true -> split_spaces a = [a].
Proof.
  unfold no_space. induction a as [|c a IH]; intros H; [reflexivity|].
  cbn in H. apply andb_true_iff in H as [Hc Ha]. apply negb_true_iff in Hc.
  cbn [split_spaces]. now rewrite Hc, (IH Ha).
Qed.

Lemma append_empty (s : string) : s ++ "" = s.
Proof. induction s as [|c s IH]; [reflexivity|]. cbn. now rewrite IH. Qed.

(** [parseBearerToken] reads the first two space-separated words of the
    [authorization] header.  For [<scheme> <token>], whatever follows a
    further space, the result is the trimmed token when the scheme is
    "bearer" in any case and the token is not empty, and [null] otherwise, so
    two spaces after the scheme lose the token; a header of one word, and no
    header, give [null]. *)
Theorem parseBearerToken_splits :
  forall (scheme token : string) (more xh xi : option string),
    no_space scheme = true ->
    no_space token = true ->
    parseBearerToken (mkHeaders (Some (bearer_header scheme token more)) xh xi)
    = (if (toLowerCase scheme =? "bearer")%string && negb (token =? "")%string
       then Some (trim token) else None) /\
    parseBearerToken (mkHeaders (Some scheme) xh xi) = None /\
    parseBearerToken (mkHeaders None xh xi) = None.
Proof.
  intros scheme token more xh xi Hs Ht. repeat split.
  - assert (Hsplit : exists rest,
               split_spaces (bearer_header scheme token more)
               = scheme :: token :: rest).
    { unfold bearer_header. rewrite (split_spaces_app _ _ Hs).
      destruct more as [m|].
      - rewrite (split_spaces_app _ _ Ht). eauto.
      - rewrite append_empty, (split_spaces_word _ Ht). eauto. }
    destruct Hsplit as (rest & Hsplit).
    unfold parseBearerToken. cbn [authorization].
    destruct (bearer_header scheme token more) as [|c v] eqn:Ev.
    { unfold bearer_header in Ev. destruct scheme; discriminate. }
    rewrite Hsplit.
    destruct (toLowerCase scheme =? "bearer")%string; cbn [negb andb];
      [|reflexivity].
    now destruct token.
  - unfold parseBearerToken. cbn [authorization].
    destruct scheme as [|c v]; [reflexivity|].
    now rewrite (split_spaces_word _ Hs).
Qed.

Lemma parseBearerToken_splits_witness :
  parseBearerToken (mkHeaders (Some "Bearer abc.def trailing") None None)
  = Some "abc.def" /\
  parseBearerToken (mkHeaders (Some "Bearer  abc.def") None None) = None.
Proof.
  split.
  - exact (proj1 (parseBearerToken_splits "Bearer" "abc.def" (Some "trailing")
                    None None eq_refl eq_refl)).
  - exact (proj1 (parseBearerToken_splits "Bearer" "" (Some "abc.def")
                    None None eq_refl eq_refl)).
Defined.

Lemma nonempty_Some (x : option string) (s : string) :
  nonempty x = Some s -> x = Some s /\ s <> "".
Proof. destruct x as [[|c t]|]; intros [= <-]; now split. Qed.

Lemma or_claim_nonempty (a : option string) (b : string) :
  b <> "" -> or_claim a b <> "".
Proof. now destruct a as [[|c t]|]. Qed.

(** What [getAuthContext] can answer.  A context it resolves has a
    well-formed handle and a non-empty identity; in "oauth" mode that
    identity is the subject of a payload verified for the request's bearer
    token against the configured key set.  It fails in "oauth" mode only,
    the HTTP handler then answers 401 or 500, and a request without a bearer
    token is refused with "Missing bearer token" before anything is
    verified. *)
Theorem getAuthContext_outcomes :
  forall (verify : string -> string -> option string -> option string ->
                   option JWTPayload)
         (env : Env) (req : Headers),
    match getAuthContext verify env req with
    | Resolved ctx =>
        valid_handle (handle ctx) = true /\
        authProviderId ctx <> "" /\
        (AUTH_MODE env = Some "oauth" ->
         exists token jwksUrl payload,
           parseBearerToken req = Some token /\ token <> "" /\
           AUTH_JWKS_URL env = Some jwksUrl /\
           verify token jwksUrl (nonempty (AUTH_ISSUER env))
             (nonempty (AUTH_AUDIENCE env)) = Some payload /\
           sub payload = Some (authProviderId ctx) /\
           handle ctx = pickHandle payload)
    | Failed e =>
        AUTH_MODE env = Some "oauth" /\
        (auth_failure_status e = 401 \/ auth_failure_status e = 500) /\
        (parseBearerToken req = None -> e = AuthError "Missing bearer token" 401) /\
        (forall token jwksUrl,
           parseBearerToken req = Some token ->
           AUTH_JWKS_URL env = Some jwksUrl ->
           verify token jwksUrl (nonempty (AUTH_ISSUER env))
             (nonempty (AUTH_AUDIENCE env)) = None ->
           auth_failure_status e <> 401 \/ token = "")
    end.
Proof.
  intros verify env req. unfold getAuthContext. cbv zeta.
  destruct (negb (_ =? "oauth")%string) eqn:Em.
  - cbn [handle authProviderId]. split; [apply slugifyHandle_valid|]. split.
    + apply or_claim_nonempty, or_claim_nonempty. discriminate.
    + intros Hmode. rewrite Hmode in Em. discriminate.
  - assert (Hmode : AUTH_MODE env = Some "oauth").
    { apply negb_false_iff, String.eqb_eq in Em.
      destruct (AUTH_MODE env); [now subst | discriminate]. }
    destruct (parseBearerToken req) as [[|c t]|] eqn:Et.
    1, 3: cbn; repeat split; auto; try discriminate;
          intros token jwksUrl [= <-]; auto.
    destruct (nonempty (AUTH_JWKS_URL env)) as [jwksUrl|] eqn:Ej.
    2: { cbn. repeat split; auto; try discriminate.
         intros token jwksUrl _ _ _. left. discriminate. }
    apply nonempty_Some in Ej as [Ej Hj].
    destruct (verify _ _ _ _) as [payload|] eqn:Ev.
    2: { cbn. repeat split; auto; try discriminate.
         intros token ju _ _ _. left. discriminate. }
    destruct (nonempty (sub payload)) as [subject|] eqn:Es.
    + apply nonempty_Some in Es as [Es Hs].
      cbn [handle authProviderId]. split; [apply slugifyHandle_valid|].
      split; [exact Hs|]. intros _.
      exists (String c t), jwksUrl, payload. repeat split; auto. discriminate.
    + cbn. repeat split; auto; try discriminate.
      intros token jwksUrl' [= <-] Ej'. rewrite Ej in Ej'. injection Ej' as <-.
      rewrite Ev. discriminate.
Qed.

(** ** From the request to the stored user *)

Lemma all_slug_chars_app (a b : string) :
  all_slug_chars (a ++ b) = all_slug_chars a && all_slug_chars b.
Proof.
  unfold all_slug_chars. induction a as [|c a IH]; [reflexivity|].
  cbn. now rewrite IH, andb_assoc.
Qed.

Lemma last_char_app (a b : string) :
  b <> "" -> last_char (a ++ b) = last_char b.
Proof.
  intros Hb. induction a as [|c a IH]; [reflexivity|].
  cbn [append last_char]. destruct (a ++ b) as [|d t] eqn:E; [|exact IH].
  destruct a, b; try discriminate. contradiction.
Qed.

Lemma no_double_underscore_app (a b : string) :
  no_double_underscore a = true -> no_double_underscore b = true ->
  is_underscore (last_char a) = false ->
  no_double_underscore (a ++ b) = true.
Proof.
  intros Ha Hb Hl. induction a as [|c a IH]; [exact Hb|].
  destruct a as [|d a].
  - cbn in Hl. cbn [append]. destruct b as [|d b]; [reflexivity|].
    change (negb (Ascii.eqb c "_" && Ascii.eqb d "_")
            && no_double_underscore (String d b) = true).
    now rewrite Hl, Hb.
  - change (negb (Ascii.eqb c "_" && Ascii.eqb d "_")
            && no_double_underscore (String d a) = true) in Ha.
    apply andb_true_iff in Ha as [Hcd Ha].
    change (negb (Ascii.eqb c "_" && Ascii.eqb d "_")
            && no_double_underscore (String d a ++ b) = true).
    rewrite Hcd. now apply IH.
Qed.

Lemma digits_in_handle (d : string) :
  forallb is_digit (list_ascii_of_string d) = true ->
  all_slug_chars d = true /\ no_double_underscore d = true /\
  is_underscore (first_char d) = false /\ is_underscore (last_char d) = false.
Proof.
  assert (Hdig : forall c, is_digit c = true ->
                           slug_char c = true /\ Ascii.eqb c "_" = false).
  { intros c. unfold is_digit, slug_char. cbv zeta. intros H. rewrite H. split.
    - now rewrite orb_true_r.
    - apply andb_true_iff in H as [H1 H2]. apply Nat.leb_le in H1, H2.
      destruct (Ascii.eqb_spec c "_") as [->|]; [|reflexivity].
      cbn in H2. lia. }
  unfold all_slug_chars. induction d as [|c d IH]; [now repeat split|].
  cbn [list_ascii_of_string forallb]. intros H.
  apply andb_true_iff in H as [Hc Hd].
  destruct (Hdig c Hc) as [Hs Hu]. destruct (IH Hd) as (I1 & I2 & I3 & I4).
  repeat split.
  - now rewrite Hs, I1.
  - destruct d as [|x d]; [reflexivity|].
    change (negb (Ascii.eqb c "_" && Ascii.eqb x "_")
            && no_double_underscore (String x d) = true).
    now rewrite Hu, I2.
  - exact Hu.
  - destruct d as [|x d]; [exact Hu | exact I4].
Qed.

Lemma valid_handle_suffixed (h d : string) :
  valid_handle h = true -> four_digits d = true ->
  valid_handle (h ++ "_" ++ d) = true.
Proof.
  unfold valid_handle, four_digits.
  rewrite !andb_true_iff, !negb_true_iff.
  intros ((((Hne & Hall) & Hfirst) & Hlast) & Hdouble) (Hlen & Hdig).
  destruct (digits_in_handle d Hdig) as (D1 & D2 & D3 & D4).
  assert (Hd : d <> "") by (destruct d; [discriminate | congruence]).
  destruct h as [|c h]; [discriminate|].
  repeat split.
  - rewrite !all_slug_chars_app, Hall, D1. reflexivity.
  - exact Hfirst.
  - rewrite last_char_app by (destruct d; discriminate).
    change ("_" ++ d) with (String "_" d).
    destruct d as [|x d]; [contradiction|]. exact D4.
  - apply no_double_underscore_app; [exact Hdouble | | exact Hlast].
    change ("_" ++ d) with (String "_" d).
    destruct d as [|x d]; [contradiction|].
    change (negb (Ascii.eqb "_" "_" && Ascii.eqb x "_")
            && no_double_underscore (String x d) = true).
    cbn in D3. now rewrite D3, D2.
Qed.

Lemma resolveHandle_shape (o : oracle) (w : world) (a base : string) :
  exists (h : string) (w1 : world),
    resolveHandle a base o w = (Returned h, w1) /\ db w1 = db w /\
    (h = base \/
     h = base ++ "_" ++
         Number_toString (Qfloor (Math_random o (randoms_drawn w) * 9000 + 1000))).
Proof.
  unfold resolveHandle, bind, query_read, ret, Math_random_call.
  destruct (select_auth_by_handle base (db w)) as [|x rest].
  - exists base, w. auto.
  - destruct (x =? a)%string.
    + exists base, w. auto.
    + eexists _, _. split; [reflexivity|]. split; [reflexivity|]. now right.
Qed.

Lemma getAuthContext_handle (verify : string -> string -> option string ->
                                      option string -> option JWTPayload)
  (env : Env) (req : Headers) (ctx : AuthContext) :
  getAuthContext verify env req = Resolved ctx ->
  valid_handle (handle ctx) = true.
Proof.
  unfold getAuthContext. cbv zeta. intros H.
  destruct (negb (_ =? "oauth")%string).
  - injection H as <-. apply slugifyHandle_valid.
  - destruct (parseBearerToken req) as [[|c t]|]; try discriminate.
    destruct (nonempty (AUTH_JWKS_URL env)); try discriminate.
    destruct (verify _ _ _ _) as [payload|]; try discriminate.
    destruct (nonempty (sub payload)); try discriminate.
    injection H as <-. apply slugifyHandle_valid.
Qed.

(** From the request to the users table.  On a connection whose viewer is
    not resolved yet, with [Math.random()] in [0, 1), the user that
    [getViewer] returns for a context resolved by [getAuthContext] is a row
    of the users table with the context's identity and a well-formed handle
    (the context's, or that with an underscore and four digits), and its
    display name and avatar are those of the context, [null] where the
    context has none. *)
Theorem sign_in_stores_valid_handle :
  forall (verify : string -> string -> option string -> option string ->
                   option JWTPayload)
         (env : Env) (req : Headers) (ctx : AuthContext)
         (o : oracle) (w w1 : world) (v : DbUser),
    viewerCache w = None ->
    (0 <= Math_random o (randoms_drawn w))%Q ->
    (Math_random o (randoms_drawn w) < 1)%Q ->
    getAuthContext verify env req = Resolved ctx ->
    getViewer ctx o w = (Returned (Some v), w1) ->
    In v (users (db w1)) /\
    u_auth_provider_id v = authProviderId ctx /\
    valid_handle (u_handle v) = true /\
    (u_handle v = handle ctx \/ matches_suffixed (handle ctx) (u_handle v) = true) /\
    u_display_name v = or_null (displayName ctx) /\
    u_avatar_url v = or_null (avatarUrl ctx).
Proof.
  intros verify env req ctx o w w1 v Hc H0 H1 Hctx H.
  apply getAuthContext_handle in Hctx as Hvalid.
  unfold getViewer in H. erewrite bind_Returned in H by reflexivity.
  rewrite Hc in H.
  apply bind_Returned_inv in H as (r & w2 & He & H).
  unfold bind, write_viewerCache, read_viewerCache in H. cbn in H.
  injection H as -> <-. cbn [db].
  destruct (resolveHandle_shape o w (authProviderId ctx) (handle ctx))
    as (safe & wr & Hres & Hdb & Hshape).
  pose proof (ensureUser_returns_resolved _ _ _ _ _ _ _ _ _ _ Hres Hdb He) as Hh.
  destruct (ensureUser_fields _ _ _ _ _ _ _ _ He) as (Ha & Hd & Hv).
  pose proof (suffix_range _ H0 H1) as Hrange.
  repeat split.
  - now apply ensureUser_returns_row in He.
  - exact Ha.
  - rewrite Hh. destruct Hshape as [->| ->]; [exact Hvalid|].
    apply valid_handle_suffixed; [exact Hvalid|].
    now apply Number_toString_four_digits.
  - rewrite Hh. destruct Hshape as [->| ->]; [now left|right].
    now apply suffixed_matches.
  - exact Hd.
  - exact Hv.
Qed.

Lemma sign_in_stores_valid_handle_witness :
  exists v w1,
    getAuthContext (fun _ _ _ _ => None)
      (mkEnv None None None None None None None)
      (mkHeaders None (Some "Carol Smith") None)
    = Resolved (mkAuth "dev-Carol Smith" "carolsmith" (Some (Some "Carol Smith")) None) /\
    getViewer (mkAuth "dev-Carol Smith" "carolsmith" (Some (Some "Carol Smith")) None)
      sample_oracle sample_world = (Returned (Some v), w1) /\
    valid_handle (u_handle v) = true /\
    u_display_name v = Some "Carol Smith".
Proof.
  destruct (getViewer (mkAuth "dev-Carol Smith" "carolsmith"
                         (Some (Some "Carol Smith")) None)
              sample_oracle sample_world) as [[[v|]|e] w1] eqn:Hrun;
    [|vm_compute in Hrun; discriminate..].
  destruct (sign_in_stores_valid_handle (fun _ _ _ _ => None)
              (mkEnv None None None None None None None)
              (mkHeaders None (Some "Carol Smith") None)
              (mkAuth "dev-Carol Smith" "carolsmith" (Some (Some "Carol Smith")) None)
              sample_oracle sample_world w1 v)
    as (_ & _ & Hvalid & _ & Hname & _).
  - reflexivity.
  - discriminate.
  - reflexivity.
  - reflexivity.
  - exact Hrun.
  - exists v, w1. repeat split; assumption.
Defined.

(** ** Profiles *)

(** Every outcome of [buildProfileView].  It never writes.  It throws
    "Viewer not found." or "Profile user not found." when that user has no
    row, and "List not found." when the list to show has no summary.  A view
    it returns carries the viewer's lists; with no list to show, it is the
    profile user's page with no items; with a list, the list's counts are
    the lengths of [itemsActive] and [itemsDone], whose rows belong to that
    list with that status, and the mode is "mine" with no profile attached
    exactly when the list's owner is the viewer, "profile" with the
    requested user and their lists attached otherwise.  [get_user_profile]
    answers with that view for the resolved viewer, or fails as it does. *)
Theorem buildProfileView_outcomes :
  forall (o : oracle) (w : world) (viewerId profileUserId : string)
         (listId : option string),
    let run := buildProfileView viewerId profileUserId listId o w in
    let profileLists := select_summaries_by_owner profileUserId (db w) in
    snd run = w /\
    match fst run with
    | Returned vw =>
        exists p,
          first_row (select_users_by_id profileUserId (db w)) = Some p /\
          v_lists vw = select_summaries_by_owner viewerId (db w) /\
          v_searchResults vw = None /\
          match v_selectedList vw with
          | None =>
              truthy (shown_list listId profileLists) = false /\
              v_mode vw = "profile" /\
              v_itemsActive vw = [] /\ v_itemsDone vw = [] /\
              v_profileUser vw = Some (user_summary p) /\
              v_profileLists vw = Some profileLists
          | Some s =>
              shown_list listId profileLists = Some (ls_id s) /\
              ls_active_count s = Z.of_nat (length (v_itemsActive vw)) /\
              ls_done_count s = Z.of_nat (length (v_itemsDone vw)) /\
              Forall (fun r => ir_list_id r = ls_id s /\ ir_status r = active)
                (v_itemsActive vw) /\
              Forall (fun r => ir_list_id r = ls_id s /\ ir_status r = done)
                (v_itemsDone vw) /\
              ((ls_owner_id s = viewerId /\ v_mode vw = "mine" /\
                v_profileUser vw = None /\ v_profileLists vw = None)
               \/
               (ls_owner_id s <> viewerId /\ v_mode vw = "profile" /\
                v_profileUser vw = Some (user_summary p) /\
                v_profileLists vw = Some profileLists))
          end
    | Thrown e =>
        (e = Error "Viewer not found." /\
         first_row (select_users_by_id viewerId (db w)) = None)
        \/
        (e = Error "Profile user not found." /\
         first_row (select_users_by_id profileUserId (db w)) = None)
        \/
        (e = Error "List not found." /\
         exists id, shown_list listId profileLists = Some id /\
                    first_row (select_summary_by_id id (db w)) = None)
    end /\
    forall (authContext : AuthContext) (w0 : world) (v : DbUser),
      getViewer authContext o w0 = (Returned (Some v), w) ->
      viewerId = u_id v -> listId = None ->
      get_user_profile authContext profileUserId o w0
      = (match fst run with
         | Returned vw =>
             Returned (buildStructuredResponse (mkPayload vw None) "Profile loaded.")
         | Thrown e => Thrown e
         end, w).
Proof.
  intros o w viewerId profileUserId listId run profileLists.
  match goal with |- ?A /\ ?B /\ _ => assert (Hrun : A /\ B) end.
  { subst run. unfold buildProfileView, buildViewerSummary, getUserById,
      getListsByOwner, getListSummaryById, getItemsByList, read_DEV_TOOLS_ENABLED,
      bind, query_read, ret, throw.
    destruct (first_row (select_users_by_id viewerId (db w))) as [vr|] eqn:Ev;
      [|cbn; auto].
    destruct (first_row (select_users_by_id profileUserId (db w))) as [p|] eqn:Ep;
      [|cbn; auto].
    fold profileLists.
    change (match listId with
            | Some _ => listId
            | None => match profileLists with
                      | [] => None
                      | l :: _ => Some (ls_id l)
                      end
            end) with (shown_list listId profileLists).
    destruct (shown_list listId profileLists) as [[|c id]|] eqn:Eshown.
    1, 3: cbn; split; [reflexivity|]; exists p; now repeat split.
    set (lid := String c id) in *.
    destruct (first_row (select_summary_by_id lid (db w))) as [s|] eqn:Es.
    2: { cbn. split; [reflexivity|]. right. right. split; [reflexivity|].
         now exists lid. }
    apply first_row_In, select_summary_by_id_In in Es as (Hid & Ha & Hd & _).
    cbn [fst snd]. split; [reflexivity|]. exists p.
    cbn [v_lists v_searchResults v_selectedList v_mode v_itemsActive v_itemsDone
         v_profileUser v_profileLists].
    rewrite !select_items_by_list_length, Hid.
    repeat match goal with |- _ /\ _ => split end; try reflexivity; try assumption.
    - apply Forall_forall. intros r Hr. now apply select_items_by_list_In in Hr.
    - apply Forall_forall. intros r Hr. now apply select_items_by_list_In in Hr.
    - destruct (String.eqb_spec (ls_owner_id s) viewerId) as [Eo|Eo];
        [left | right]; now repeat split. }
  destruct Hrun as [Hw Hrun]. split; [exact Hw|]. split; [exact Hrun|].
  intros authContext w0 v Hv -> ->.
  unfold get_user_profile.
  rewrite (bind_Returned _ _ _ _ _ _ Hv).
  cbn [viewer_id]. erewrite bind_Returned by reflexivity.
  unfold bind at 1.
  change (buildProfileView (u_id v) profileUserId None o w) with run.
  clear Hrun. clearbody run.
  destruct run as [[vw|e] w']; cbn in Hw; subst w'; reflexivity.
Qed.

(** ** The handlers that only read *)

Lemma respects_eq_users_only {A : Type} (m : M A) :
  respects eq m -> respects users_only m.
Proof. intros H o w r w' Hrun. apply H in Hrun. subst w'. apply users_only_refl. Qed.

Lemma after_viewer_reads (authContext : AuthContext) {A : Type}
  (k : option DbUser -> M A) :
  (forall v, respects eq (k v)) ->
  respects users_only (bind (getViewer authContext) k) /\
  reads_when_signed_in (bind (getViewer authContext) k).
Proof.
  intros Hk. split.
  - apply respects_bind; [exact users_only_trans | apply getViewer_users_only |].
    intros v. apply respects_eq_users_only, Hk.
  - intros o w r w' Hc. unfold bind at 1, getViewer, bind at 1, read_viewerCache.
    destruct (viewerCache w) as [c|]; [|contradiction].
    cbn [ret]. intros H. symmetry. exact (Hk _ _ _ _ _ H).
Qed.

(** [list_my_lists], [get_list], [search_users] and [get_user_profile] only
    read.  Whether they return or throw, the lists, items and bookmarks are
    as before, and the only statements sent are those on [users] that
    resolve the viewer; once the viewer is resolved they send nothing and
    leave the world as it was. *)
Theorem read_handlers_only_read :
  forall authContext : AuthContext,
    (respects users_only (list_my_lists authContext) /\
     reads_when_signed_in (list_my_lists authContext)) /\
    (forall list_id,
        respects users_only (get_list authContext list_id) /\
        reads_when_signed_in (get_list authContext list_id)) /\
    (forall query,
        respects users_only (search_users authContext query) /\
        reads_when_signed_in (search_users authContext query)) /\
    (forall user_id,
        respects users_only (get_user_profile authContext user_id) /\
        reads_when_signed_in (get_user_profile authContext user_id)).
Proof.
  intros authContext.
  assert (Hr : forall w : world, w = w) by reflexivity.
  assert (Ht : forall w1 w2 w3 : world, w1 = w2 -> w2 = w3 -> w1 = w3) by congruence.
  repeat match goal with |- _ /\ _ => split end;
    repeat match goal with |- forall _, _ => intros ? end;
    apply after_viewer_reads; intros v;
    unfold viewer_id, buildSearchView, buildProfileView, searchUsersByQuery,
      getListsByOwner, getListSummaryById, getItemsByList, getUserById;
    repeat (cbv zeta;
            first [ apply buildListView_reads
                  | apply buildViewerSummary_reads
                  | respects_step
                  | match goal with
                    | |- respects _ (match ?x with _ => _ end) => destruct x
                    | |- respects _ (if ?b then _ else _) => destruct b
                    end ]).
Qed.

(** ** Adding an item *)

(** What a successful [add_item] did.  When the handler returns, for a
    [list_id] that is not empty (the input schema wants a UUID), the list
    exists and is the viewer's; exactly one statement was sent after the
    viewer was resolved, an insert that appended one active item with a new
    id, the given title, the given note and url or [null], and
    [order_index] 0 to that list; and the answer names the new id and shows
    the list, its active count one higher than before, with the new item
    among [itemsActive] and not among [itemsDone]. *)
Theorem add_item_adds :
  forall (o : oracle) (authContext : AuthContext) (w0 w1 w2 : world) (v : DbUser)
         (list_id title : string) (note url : option (option string))
         (r : CallToolResult),
    list_id <> "" ->
    getViewer authContext o w0 = (Returned (Some v), w1) ->
    add_item authContext list_id title note url o w0 = (Returned r, w2) ->
    let id := uuidv4 o (uuids_drawn w1) in
    let t := now o (length (log w1)) in
    let it := mkItem id list_id title (or_null note) (or_null url) active 0 t t in
    (exists l, first_row (select_list_by_id list_id (db w1)) = Some l /\
               lr_owner_id l = u_id v) /\
    existsb (fun i => i_id i =? id)%string (items (db w1)) = false /\
    db w2 = with_items (items (db w1) ++ [it]) (db w1) /\
    log w2 = (log w1 ++ [InsertItem id list_id title (or_null note) (or_null url)])%list /\
    exists vw s,
      r = buildStructuredResponse (mkPayload vw (Some (lastAddedItemId id)))
            "Item added." /\
      v_selectedList vw = Some s /\ ls_id s = list_id /\
      ls_active_count s = count_status active list_id (items (db w1)) + 1 /\
      ls_done_count s = count_status done list_id (items (db w1)) /\
      In (item_columns it) (v_itemsActive vw) /\
      ~ In (item_columns it) (v_itemsDone vw).
Proof.
  intros o authContext w0 w1 w2 v list_id title note url r Hne Hv H id t it.
  unfold add_item in H. rewrite (bind_Returned _ _ _ _ _ _ Hv) in H.
  unfold getListById in H. erewrite bind_Returned in H by apply query_read_run.
  destruct (first_row (select_list_by_id list_id (db w1))) as [l|] eqn:El;
    [|discriminate].
  cbn [viewer_id] in H. erewrite bind_Returned in H by reflexivity.
  unfold requireListOwner in H.
  destruct (String.eqb_spec (lr_owner_id l) (u_id v)) as [Eo|Eo];
    [|discriminate].
  cbn [negb] in H. erewrite bind_Returned in H by reflexivity.
  pose proof (addItem_run o w1 list_id title note url) as Hadd. cbv zeta in Hadd.
  fold id t in Hadd.
  destruct (existsb (fun i => i_id i =? id)%string (items (db w1))) eqn:Eid.
  { destruct Hadd as (c & w' & Hadd).
    rewrite (bind_Thrown _ _ _ _ _ _ Hadd) in H. discriminate. }
  destruct (has_list_id list_id (db w1)) eqn:Ehas.
  2: { destruct Hadd as (c & w' & Hadd).
       rewrite (bind_Thrown _ _ _ _ _ _ Hadd) in H. discriminate. }
  cbn [orb negb] in Hadd. fold it in Hadd.
  rewrite (bind_Returned _ _ _ _ _ _ Hadd) in H.
  apply bind_Returned_inv in H as (vw & w3 & Hview & H).
  pose proof (buildListView_reads _ _ _ _ _ _ Hview) as Hw. subst w3.
  injection H as <- <-.
  split; [now exists l|]. split; [reflexivity|].
  split; [reflexivity|]. split; [reflexivity|].
  set (dA := with_items (items (db w1) ++ [it]) (db w1)) in *.
  assert (Hitems : items dA = (items (db w1) ++ [it])%list) by reflexivity.
  clearbody dA.
  destruct list_id as [|c lid]; [contradiction|].
  unfold buildListView in Hview.
  apply bind_Returned_inv in Hview as (viewer & w3 & Hvs & Hview).
  apply buildViewerSummary_reads in Hvs. subst w3.
  apply bind_Returned_inv in Hview as (ls & w3 & [= <- <-] & Hview).
  apply bind_Returned_inv in Hview as (dev & w3 & [= _ <-] & Hview).
  cbv zeta in Hview. cbn [db wrote] in Hview.
  destruct (select_summaries_by_owner (u_id v) dA) as [|l0 ls0];
    cbn [truthy negb] in Hview;
    apply bind_Returned_inv in Hview as (selected & w3 & [= <- <-] & Hview);
    cbn [db wrote] in Hview;
    (destruct (first_row (select_summary_by_id (String c lid) dA)) as [s|] eqn:Es;
     [|discriminate]);
    apply first_row_In, select_summary_by_id_In in Es as (Hid & Ha & Hd & _);
    apply bind_Returned_inv in Hview as (act & w3 & [= <- <-] & Hview);
    apply bind_Returned_inv in Hview as (don & w3 & [= <- <-] & Hview);
    cbn [db wrote] in Hview;
    assert (Hact : In (item_columns it)
                     (select_items_by_list (String c lid) active dA))
      by (unfold select_items_by_list; apply order_by_desc_In, in_map, filter_In;
          rewrite Hitems; split; [apply in_or_app; right; now left|];
          unfold it; cbn [i_list_id i_status]; now rewrite String.eqb_refl);
    assert (Hdon : ~ In (item_columns it)
                       (select_items_by_list (String c lid) done dA))
      by (intros Hin; apply select_items_by_list_In in Hin as [_ Hin];
          discriminate);
    assert (Hca : count_status active (String c lid) (items dA)
                  = count_status active (String c lid) (items (db w1)) + 1)
      by (unfold count_status; rewrite Hitems, filter_app, length_app;
          unfold it; cbn [filter i_list_id i_status]; rewrite String.eqb_refl;
          cbn [item_status_eqb andb length]; lia);
    assert (Hcd : count_status done (String c lid) (items dA)
                  = count_status done (String c lid) (items (db w1)))
      by (unfold count_status; rewrite Hitems, filter_app, length_app;
          unfold it; cbn [filter i_list_id i_status]; rewrite String.eqb_refl;
          cbn [item_status_eqb andb length]; lia);
    (destruct (negb (ls_owner_id s =? u_id v)%string);
     [ apply bind_Returned_inv in Hview as (pr & w3 & [= <- <-] & Hview);
       apply bind_Returned_inv in Hview as (pl & w3 & [= <- <-] & Hview)
     | ]);
    injection Hview as <-;
    (eexists _, s; split; [reflexivity|]; cbn;
     repeat match goal with |- _ /\ _ => split end; try congruence; assumption).
Qed.

Lemma add_item_adds_witness :
  exists r w2,
    add_item alice_auth books_id "Persuasion" None (Some None) sample_oracle sample_world
    = (Returned r, w2) /\
    items (db w2)
    = (items sample_db ++
       [mkItem (uuidv4 sample_oracle 0) books_id "Persuasion" None None active 0
          (now sample_oracle 0) (now sample_oracle 0)])%list.
Proof.
  destruct (add_item alice_auth books_id "Persuasion" None (Some None) sample_oracle
              sample_world) as [[r|e] w2] eqn:Hrun;
    [|vm_compute in Hrun; discriminate].
  destruct (add_item_adds sample_oracle alice_auth sample_world
              (mkWorld sample_db [] 0 0 (Some alice)) w2 alice books_id
              "Persuasion" None (Some None) r) as (_ & _ & Hdb & _).
  - discriminate.
  - vm_compute. reflexivity.
  - exact Hrun.
  - exists r, w2. split; [reflexivity|]. rewrite Hdb. reflexivity.
Defined.
